(** * Inventory ledger: a shallow embedding of [app.py]

    The development follows the layout of the Python source: text helpers
    (the [str] methods the code calls), the two tables of the PostgreSQL
    schema, the SQL statements as functions on the store, and then the
    application functions in source order.

    Modelling conventions.
    - A Python [str] is a [str]: a sequence of characters of the repertoire
      U+0000..U+00FF and U+03D2.  [isupper], [lower], [isspace] and [strip]
      are Python's on that repertoire.  U+03D2 (GREEK UPSILON WITH HOOK
      SYMBOL) is the first of the characters that Python classes as
      uppercase and that [lower()] leaves as they are; U+0000 is the
      character that the database driver refuses in a text parameter.
    - An [INTEGER] column holds a [Z]; a statement that would store a value
      outside the 32-bit range raises, as PostgreSQL does.  A statement
      executed with a text parameter that contains U+0000 raises
      [ValueError] in the driver, before anything is sent.  Failures of the
      connection itself are outside the model.
    - A table is the list of its rows in insertion order.  [gen_random_uuid()]
      is modelled by [fresh_uuid], which returns a key not used in the table.
    - Every function works on the connection's view of the store.  Inside a
      [try] the statements are threaded through the [exec] monad;
      [conn.commit()] returns the store the statements produced and
      [conn.rollback()] returns the store the function was entered with.
      An exception that no [try] catches leaves the function as [Raised].
    - A function returning [(bool, message)] returns [result]; the message
      texts are the constructors of [message]. *)

From Stdlib Require Import ZArith List String Ascii Bool Lia Arith PeanoNat.
From Stdlib Require Import DecimalString DecimalNat Decimal.
From Stdlib Require Import Permutation Sorted.
Import ListNotations.

Local Open Scope Z_scope.

(* ================================================================== *)
(** ** Text *)

(** The characters of the repertoire. *)
Inductive char :=
| Latin1 (a : ascii)                      (* U+0000 .. U+00FF *)
| UpsilonHook.                            (* U+03D2 *)

Inductive str :=
| Empty
| Chr (c : char) (r : str).

Module Text.

Definition code (c : char) : N :=
  match c with
  | Latin1 a => N_of_ascii a
  | UpsilonHook => 978
  end.

Definition between (lo hi : N) (c : char) : bool :=
  (N.leb lo (code c) && N.leb (code c) hi)%bool.

(** The capitals that have a small letter: A-Z, and the Latin-1 capitals
    U+00C0..U+00DE without the multiplication sign U+00D7. *)
Definition has_small (c : char) : bool :=
  (between 65 90 c || between 192 214 c || between 216 222 c)%bool.

(** [c.isupper()] for one character: the capitals above and U+03D2. *)
Definition isupper (c : char) : bool :=
  (has_small c || N.eqb (code c) 978)%bool.

(** [c.lower()] for one character: a capital that has a small letter has it
    32 code points above; U+03D2 has none and stays. *)
Definition lower_char (c : char) : char :=
  match c with
  | Latin1 a => if has_small c then Latin1 (ascii_of_N (code c + 32)) else c
  | UpsilonHook => UpsilonHook
  end.

(** [c.isspace()]: TAB..CR, FS..US, SPACE, NEL and NBSP. *)
Definition isspace (c : char) : bool :=
  (between 9 13 c || between 28 32 c
   || N.eqb (code c) 133 || N.eqb (code c) 160)%bool.

(** [s.lower()] *)
Fixpoint lower (s : str) : str :=
  match s with
  | Empty => Empty
  | Chr c r => Chr (lower_char c) (lower r)
  end.

Fixpoint lstrip (s : str) : str :=
  match s with
  | Empty => Empty
  | Chr c r => if isspace c then lstrip r else s
  end.

Fixpoint rstrip (s : str) : str :=
  match s with
  | Empty => Empty
  | Chr c r =>
      match rstrip r with
      | Empty => if isspace c then Empty else Chr c Empty
      | r' => Chr c r'
      end
  end.

(** [s.strip()] *)
Definition strip (s : str) : str := rstrip (lstrip s).

(** [any(c.isupper() for c in s)] *)
Fixpoint any_upper (s : str) : bool :=
  match s with
  | Empty => false
  | Chr c r => (isupper c || any_upper r)%bool
  end.

(** Truth value of a text: [if s:] holds for a non-empty one. *)
Definition truthy (s : str) : bool :=
  match s with Empty => false | _ => true end.

(** [all(c.isspace() for c in s)] *)
Fixpoint only_space (s : str) : bool :=
  match s with
  | Empty => true
  | Chr c r => (isspace c && only_space r)%bool
  end.

(** [s.isspace()]: the text is not empty and has only whitespace. *)
Definition all_space (s : str) : bool := (truthy s && only_space s)%bool.

(** The text contains the character U+0000. *)
Fixpoint has_nul (s : str) : bool :=
  match s with
  | Empty => false
  | Chr c r => (N.eqb (code c) 0 || has_nul r)%bool
  end.

(** [a + b] *)
Fixpoint append (a b : str) : str :=
  match a with
  | Empty => b
  | Chr c r => Chr c (append r b)
  end.

(** [len(s)] *)
Fixpoint length (s : str) : nat :=
  match s with
  | Empty => O
  | Chr _ r => S (length r)
  end.

(** [a == b] *)
Fixpoint eqb (a b : str) : bool :=
  match a, b with
  | Empty, Empty => true
  | Chr x a', Chr y b' => (N.eqb (code x) (code y) && eqb a' b')%bool
  | _, _ => false
  end.

(** [a <= b], by code points. *)
Fixpoint leb (a b : str) : bool :=
  match a, b with
  | Empty, _ => true
  | Chr _ _, Empty => false
  | Chr x a', Chr y b' =>
      if N.ltb (code x) (code y) then true
      else if N.ltb (code y) (code x) then false
      else leb a' b'
  end.

(** A text written in the source, character by character. *)
Fixpoint of_string (s : string) : str :=
  match s with
  | EmptyString => Empty
  | String a r => Chr (Latin1 a) (of_string r)
  end.

Fixpoint to_string (s : str) : option string :=
  match s with
  | Empty => Some EmptyString
  | Chr (Latin1 a) r =>
      match to_string r with
      | Some r' => Some (String a r')
      | None => None
      end
  | Chr UpsilonHook _ => None
  end.

Definition of_bytes (l : list Byte.byte) : str :=
  of_string (string_of_list_byte l).

Definition to_bytes (s : str) : option (list Byte.byte) :=
  option_map list_byte_of_string (to_string s).

(** [f"{n}"] for a non-negative counter. *)
Definition str_of_nat (n : nat) : str :=
  of_string (NilZero.string_of_uint (Nat.to_uint n)).

(** The texts of one character U+0000 and of one character U+03D2. *)
Definition nul : str := Chr (Latin1 Ascii.zero) Empty.
Definition upsilon_hook : str := Chr UpsilonHook Empty.

Definition char_eq_dec (a b : char) : {a = b} + {a <> b}.
Proof. decide equality. apply ascii_dec. Defined.

Definition eq_dec (a b : str) : {a = b} + {a <> b}.
Proof. decide equality. apply char_eq_dec. Defined.

End Text.

Declare Scope str_scope.
Delimit Scope str_scope with str.
Bind Scope str_scope with str.
String Notation str Text.of_bytes Text.to_bytes : str_scope.
Notation "a ++ b" := (Text.append a b)
  (at level 60, right associativity) : str_scope.

Local Open Scope str_scope.

(* ================================================================== *)
(** ** Schema *)

Definition uuid := nat.
(** A [DATE], as its ordinal day number. *)
Definition date := nat.

(** [CREATE TABLE products (uuid UUID PRIMARY KEY DEFAULT gen_random_uuid(),
    id TEXT NOT NULL, name TEXT NOT NULL, category TEXT,
    stock INTEGER DEFAULT 0)] *)
Record product := mkProduct {
  p_uuid : uuid;
  p_id : str;
  p_name : str;
  p_category : option str;
  p_stock : Z
}.

(** [CREATE TABLE transactions (uuid UUID PRIMARY KEY ..., date DATE,
    product_uuid UUID REFERENCES products(uuid) ON DELETE CASCADE ...,
    product_id TEXT, product_name TEXT, quantity_added INTEGER,
    quantity_sold INTEGER, remarks TEXT)] *)
Record transaction := mkTransaction {
  t_uuid : uuid;
  t_date : date;
  t_product_uuid : uuid;
  t_product_id : str;
  t_product_name : str;
  t_quantity_added : Z;
  t_quantity_sold : Z;
  t_remarks : str
}.

Record db := mkDb {
  products : list product;
  transactions : list transaction
}.

Definition empty_db : db := mkDb [] [].

(** Exceptions a statement can raise. *)
Inductive integrity :=
| UniqueViolation (constraint : string)   (* "duplicate key ... <constraint>" *)
| ForeignKeyViolation (constraint : string).

Inductive exn :=
| IntegrityError (e : integrity)
| NumericValueOutOfRange                  (* "integer out of range" *)
| ValueError.                             (* "A string literal cannot contain NUL (0x00) characters." *)

(** The texts the functions return. *)
Inductive message :=
| NoMessage                               (* "" *)
| MsgNameNotLowercase                     (* "Error: Product name must be lowercase only." *)
| MsgNotEnoughStock                       (* "Error: Not enough stock to sell." *)
| MsgProductAdded (name pid : str)     (* "Product '{name}' with ID {pid} added successfully." *)
| MsgIdExists                             (* "Error: Product ID already exists." *)
| MsgError (e : exn)                      (* "Error: {str(e)}" *)
| MsgException (e : exn)                  (* str(e) *)
| MsgProductNotFound                      (* "Product not found." *)
| MsgStockUpdated (name pid : str) (d : date) (new_stock : Z)
                                          (* "Stock updated for '{name}' (ID: {pid}) on {date}. Current stock: {new_stock}" *)
| MsgProductUpdated                       (* "Product updated successfully." *)
| MsgNoChanges                            (* "No changes made." *)
| MsgUpdateFailed (e : exn)               (* "Update failed: {e}" *)
| MsgProductDeleted                       (* "Product deleted successfully." *)
| MsgDeleteFailed (e : exn).              (* "Delete failed: {e}" *)

Definition result : Type := bool * message.

(* ================================================================== *)
(** ** Statements *)

Inductive exec (A : Type) :=
| Done (a : A)
| Raised (e : exn).
Arguments Done {A} a.
Arguments Raised {A} e.

Definition bind {A B} (m : exec A) (k : A -> exec B) : exec B :=
  match m with
  | Done a => k a
  | Raised e => Raised e
  end.

Notation "x <- m ;; k" := (bind m (fun x => k))
  (at level 61, m at next level, right associativity).
Notation "' pat <- m ;; k" := (bind m (fun x => match x with pat => k end))
  (at level 61, pat pattern, m at next level, right associativity).

Module Sql.

Definition int4_ok (z : Z) : bool :=
  (Z.leb (-2147483648) z && Z.leb z 2147483647)%bool.

Definition fresh_uuid (used : list uuid) : uuid := S (list_max used).

Definition has_product (u : uuid) (st : db) : bool :=
  existsb (fun p => Nat.eqb (p_uuid p) u) (products st).

(** The driver adapts the parameters of [cursor.execute] before it sends
    the statement, and refuses a text that contains U+0000; [None] is
    sent as NULL. *)
Definition text_ok (s : str) : bool := negb (Text.has_nul s).

Definition optional_text_ok (s : option str) : bool :=
  match s with
  | Some v => text_ok v
  | None => true
  end.

(** [INSERT INTO products (id, name, category, stock) VALUES (...)] *)
Definition insert_product (pid name : str) (category : option str)
    (stock : Z) (st : db) : exec db :=
  if negb (text_ok pid && text_ok name && optional_text_ok category)
  then Raised ValueError
  else if int4_ok stock then
    let u := fresh_uuid (map p_uuid (products st)) in
    Done (mkDb (products st ++ [mkProduct u pid name category stock])%list
               (transactions st))
  else Raised NumericValueOutOfRange.

(** [SELECT uuid, id, name, stock FROM products WHERE uuid=%s], [fetchone()] *)
Definition select_product_by_uuid (u : uuid) (st : db)
    : option (uuid * str * str * Z) :=
  match find (fun p => Nat.eqb (p_uuid p) u) (products st) with
  | Some p => Some (p_uuid p, p_id p, p_name p, p_stock p)
  | None => None
  end.

(** [UPDATE products SET stock=%s WHERE uuid=%s] *)
Definition update_stock_where_uuid (new_stock : Z) (u : uuid) (st : db)
    : exec db :=
  if int4_ok new_stock then
    Done (mkDb (map (fun p =>
                       if Nat.eqb (p_uuid p) u
                       then mkProduct (p_uuid p) (p_id p) (p_name p)
                                      (p_category p) new_stock
                       else p) (products st))
               (transactions st))
  else Raised NumericValueOutOfRange.

(** [INSERT INTO transactions (date, product_uuid, product_id, product_name,
    quantity_added, quantity_sold, remarks) VALUES (...)] *)
Definition insert_transaction (d : date) (u : uuid) (pid name : str)
    (added sold : Z) (remarks : str) (st : db) : exec db :=
  if negb (text_ok pid && text_ok name && text_ok remarks)
  then Raised ValueError
  else if negb (int4_ok added && int4_ok sold)
  then Raised NumericValueOutOfRange
  else if negb (has_product u st) then
    Raised (IntegrityError
              (ForeignKeyViolation "transactions_product_uuid_fkey"%string))
  else
    let k := fresh_uuid (map t_uuid (transactions st)) in
    Done (mkDb (products st)
               (transactions st
                  ++ [mkTransaction k d u pid name added sold remarks])).

(** [UPDATE transactions SET product_id=%s WHERE product_uuid=%s] *)
Definition update_transactions_product_id (v : str) (u : uuid) (st : db)
    : exec db :=
  if text_ok v then
    Done (mkDb (products st)
               (map (fun t =>
                       if Nat.eqb (t_product_uuid t) u
                       then mkTransaction (t_uuid t) (t_date t) (t_product_uuid t)
                              v (t_product_name t) (t_quantity_added t)
                              (t_quantity_sold t) (t_remarks t)
                       else t) (transactions st)))
  else Raised ValueError.

(** [UPDATE transactions SET product_name=%s WHERE product_uuid=%s] *)
Definition update_transactions_product_name (v : str) (u : uuid) (st : db)
    : exec db :=
  if text_ok v then
    Done (mkDb (products st)
               (map (fun t =>
                       if Nat.eqb (t_product_uuid t) u
                       then mkTransaction (t_uuid t) (t_date t) (t_product_uuid t)
                              (t_product_id t) v (t_quantity_added t)
                              (t_quantity_sold t) (t_remarks t)
                       else t) (transactions st)))
  else Raised ValueError.

(** One entry of the [updates]/[params] lists that
    [update_product_details] builds: the column and its new value. *)
Inductive assignment :=
| SetId (v : str)                    (* "id=%s" *)
| SetName (v : str)                  (* "name=%s" *)
| SetCategory (v : str)              (* "category=%s" *)
| SetStock (v : Z).                     (* "stock=%s" *)

Definition assign (a : assignment) (p : product) : product :=
  match a with
  | SetId v => mkProduct (p_uuid p) v (p_name p) (p_category p) (p_stock p)
  | SetName v => mkProduct (p_uuid p) (p_id p) v (p_category p) (p_stock p)
  | SetCategory v => mkProduct (p_uuid p) (p_id p) (p_name p) (Some v) (p_stock p)
  | SetStock v => mkProduct (p_uuid p) (p_id p) (p_name p) (p_category p) v
  end.

(** The parameter of an entry is a text that the driver accepts. *)
Definition assignment_text_ok (a : assignment) : bool :=
  match a with
  | SetId v | SetName v | SetCategory v => text_ok v
  | SetStock _ => true
  end.

(** The parameter of an entry fits its column. *)
Definition assignment_ok (a : assignment) : bool :=
  match a with
  | SetStock v => int4_ok v
  | _ => true
  end.

(** [UPDATE products SET {', '.join(updates)} WHERE uuid=%s] *)
Definition update_products_set (updates : list assignment) (u : uuid)
    (st : db) : exec db :=
  if negb (forallb assignment_text_ok updates) then Raised ValueError
  else if forallb assignment_ok updates then
    Done (mkDb (map (fun p =>
                       if Nat.eqb (p_uuid p) u
                       then fold_left (fun q a => assign a q) updates p
                       else p) (products st))
               (transactions st))
  else Raised NumericValueOutOfRange.

(** [DELETE FROM products WHERE uuid=%s], with the cascade of the
    foreign key of [transactions]. *)
Definition delete_product_where_uuid (u : uuid) (st : db) : exec db :=
  Done (mkDb (filter (fun p => negb (Nat.eqb (p_uuid p) u)) (products st))
             (filter (fun t => negb (Nat.eqb (t_product_uuid t) u))
                     (transactions st))).

(** A row of [products] has this [id]. *)
Definition exists_product_id (pid : str) (st : db) : bool :=
  existsb (fun p => Text.eqb (p_id p) pid) (products st).

(** [cursor.execute("SELECT 1 FROM products WHERE id=%s", (pid,))] followed
    by [cursor.fetchone()], as a truth value. *)
Definition select_product_id (pid : str) (st : db) : exec bool :=
  if text_ok pid then Done (exists_product_id pid st)
  else Raised ValueError.

End Sql.

(* ================================================================== *)
(** ** Data validation *)

Definition validate_product_name (name : str) : result :=
  if Text.any_upper name then (false, MsgNameNotLowercase)
  else (true, NoMessage).

(** Returns [(False, text)] as [inl text] and [(True, new_stock)] as
    [inr new_stock]. *)
Definition validate_stock_availability (current_stock quantity_to_sell : Z)
    : message + Z :=
  let new_stock := current_stock - quantity_to_sell in
  if new_stock <? 0 then inl MsgNotEnoughStock
  else inr new_stock.

(* ================================================================== *)
(** ** Product operations *)

Definition add_product (st : db) (pid name : str) (category : option str)
    : result * db :=
  let pid := Text.strip pid in
  let name := Text.strip (Text.lower name) in
  let '(is_valid, error_msg) := validate_product_name name in
  if negb is_valid then ((false, error_msg), st)
  else
    match Sql.insert_product pid name category 0 st with
    | Done st' => ((true, MsgProductAdded name pid), st')
    | Raised (IntegrityError (UniqueViolation "products_id_key"%string)) =>
        ((false, MsgIdExists), st)
    | Raised (IntegrityError e) => ((false, MsgError (IntegrityError e)), st)
    | Raised e => ((false, MsgException e), st)
    end.

Definition get_product_by_uuid (st : db) (product_uuid : uuid)
    : option (uuid * str * str * Z) :=
  Sql.select_product_by_uuid product_uuid st.

Definition update_product_stock (product_uuid : uuid) (new_stock : Z) (st : db)
    : exec db :=
  Sql.update_stock_where_uuid new_stock product_uuid st.

(** [update_product_details]: an argument that is [None] or the empty string
    fails its [if] test; [new_stock] is tested with [is not None]. *)
Definition supplied (a : option str) : option str :=
  match a with
  | Some s => if Text.truthy s then Some s else None
  | None => None
  end.

Definition update_product_details (st : db) (product_uuid : uuid)
    (new_id new_name new_category : option str) (new_stock : option Z)
    : result * db :=
  let body : exec (list Sql.assignment * db) :=
    '(updates, w) <-
       match supplied new_id with
       | Some v =>
           w <- Sql.update_transactions_product_id (Text.strip v) product_uuid st ;;
           Done ([Sql.SetId (Text.strip v)], w)
       | None => Done ([], st)
       end ;;
    '(updates, w) <-
       match supplied new_name with
       | Some v =>
           w <- Sql.update_transactions_product_name
                  (Text.strip (Text.lower v)) product_uuid w ;;
           Done ((updates ++ [Sql.SetName (Text.strip (Text.lower v))])%list, w)
       | None => Done (updates, w)
       end ;;
    let updates :=
      match supplied new_category with
      | Some v => (updates ++ [Sql.SetCategory (Text.strip v)])%list
      | None => updates
      end in
    let updates :=
      match new_stock with
      | Some v => (updates ++ [Sql.SetStock v])%list
      | None => updates
      end in
    match updates with
    | _ :: _ =>
        w <- Sql.update_products_set updates product_uuid w ;;
        Done (updates, w)
    | [] => Done ([], w)
    end in
  match body with
  | Done (_ :: _, w) => ((true, MsgProductUpdated), w)
  | Done ([], _) => ((false, MsgNoChanges), st)
  | Raised (IntegrityError (UniqueViolation "products_id_key"%string)) =>
      ((false, MsgIdExists), st)
  | Raised e => ((false, MsgUpdateFailed e), st)
  end.

Definition delete_product (st : db) (product_uuid : uuid) : result * db :=
  match Sql.delete_product_where_uuid product_uuid st with
  | Done st' => ((true, MsgProductDeleted), st')
  | Raised e => ((false, MsgDeleteFailed e), st)
  end.

(* ================================================================== *)
(** ** Transaction operations *)

Definition record_transaction (d : date) (product_uuid : uuid)
    (product_id product_name : str) (added sold : Z) (remarks : str)
    (st : db) : exec db :=
  Sql.insert_transaction d product_uuid product_id product_name added sold
    remarks st.

(** The [if sold > 0] block either returns the text of the failed check or
    assigns the checked value to [new_stock]; [checked] is that outcome,
    with the value computed before the block when nothing is sold. *)
Definition update_stock (st : db) (product_uuid : uuid) (d : date)
    (added sold : Z) (remarks : str) : result * db :=
  match get_product_by_uuid st product_uuid with
  | None => ((false, MsgProductNotFound), st)
  | Some (prod_uuid, pid, name, current_stock) =>
      let new_stock := current_stock + added - sold in
      let checked : message + Z :=
        if 0 <? sold then validate_stock_availability current_stock sold
        else inr new_stock in
      match checked with
      | inl text => ((false, text), st)
      | inr new_stock =>
          match
            (w <- update_product_stock prod_uuid new_stock st ;;
             record_transaction d prod_uuid pid name added sold remarks w)
          with
          | Done st' => ((true, MsgStockUpdated name pid d new_stock), st')
          | Raised e => ((false, MsgException e), st)
          end
      end
  end.

(* ================================================================== *)
(** ** Summary reports *)

(** One row of the stock summary: [p.id, p.name, p.category, total_added,
    current_stock]. *)
Record summary_row := mkSummary {
  s_id : str;
  s_name : str;
  s_category : option str;
  s_total_added : Z;
  s_current_stock : Z
}.

Module Query.

(** [products p LEFT JOIN transactions t ON p.uuid = t.product_uuid]: a
    product without a transaction is kept once, with a NULL right side. *)
Definition left_join (st : db) : list (product * option transaction) :=
  flat_map
    (fun p =>
       match filter (fun t => Nat.eqb (p_uuid p) (t_product_uuid t))
                    (transactions st) with
       | [] => [(p, None)]
       | ts => map (fun t => (p, Some t)) ts
       end)
    (products st).

(** [WHERE t.quantity_added > 0]; the comparison is not true on NULL. *)
Definition where_added (r : product * option transaction) : bool :=
  match snd r with
  | Some t => 0 <? t_quantity_added t
  | None => false
  end.

Definition option_string_eqb (a b : option str) : bool :=
  match a, b with
  | Some x, Some y => Text.eqb x y
  | None, None => true
  | _, _ => false
  end.

(** Two joined rows fall in one group when they agree on
    [p.id, p.name, p.category, p.stock]. *)
Definition same_group (g : summary_row) (p : product) : bool :=
  (Text.eqb (s_id g) (p_id p) && Text.eqb (s_name g) (p_name p)
   && option_string_eqb (s_category g) (p_category p)
   && Z.eqb (s_current_stock g) (p_stock p))%bool.

(** [GROUP BY ...] with [SUM(t.quantity_added)]: add one joined row to the
    groups collected so far. *)
Fixpoint add_to_groups (p : product) (q : Z) (groups : list summary_row)
    : list summary_row :=
  match groups with
  | [] => [mkSummary (p_id p) (p_name p) (p_category p) q (p_stock p)]
  | g :: rest =>
      if same_group g p
      then mkSummary (s_id g) (s_name g) (s_category g)
                     (s_total_added g + q) (s_current_stock g) :: rest
      else g :: add_to_groups p q rest
  end.

Definition group_by (rows : list (product * option transaction))
    : list summary_row :=
  fold_left
    (fun groups r =>
       match snd r with
       | Some t => add_to_groups (fst r) (t_quantity_added t) groups
       | None => groups
       end)
    rows [].

(** [ORDER BY total_added DESC], as a stable insertion sort. *)
Fixpoint insert_desc (r : summary_row) (sorted : list summary_row)
    : list summary_row :=
  match sorted with
  | [] => [r]
  | x :: rest =>
      if s_total_added x <? s_total_added r then r :: sorted
      else x :: insert_desc r rest
  end.

Definition order_by_total_desc (rows : list summary_row) : list summary_row :=
  fold_left (fun sorted r => insert_desc r sorted) rows [].

End Query.

(** [SELECT p.id, p.name, p.category, COALESCE(SUM(t.quantity_added), 0) as
    total_added, p.stock as current_stock FROM products p LEFT JOIN
    transactions t ON p.uuid = t.product_uuid WHERE t.quantity_added > 0
    GROUP BY p.id, p.name, p.category, p.stock ORDER BY total_added DESC] *)
Definition get_stock_summary (st : db) : list summary_row :=
  Query.order_by_total_desc
    (Query.group_by (filter Query.where_added (Query.left_join st))).

(* ================================================================== *)
(** ** CSV import *)

(** One row of the uploaded frame, with the three required columns. *)
Record csv_row := mkRow {
  r_id : str;
  r_name : str;
  r_category : str
}.

Definition clean_csv_data (df : list csv_row) : list csv_row :=
  map (fun r => mkRow (Text.strip (r_id r))
                      (Text.strip (Text.lower (r_name r)))
                      (Text.strip (r_category r))) df.

(** [f"{original_pid}({counter})"] *)
Definition suffixed (original_pid : str) (counter : nat) : str :=
  original_pid ++ "(" ++ Text.str_of_nat counter ++ ")".

(** The [while True] loop of [generate_unique_product_id], entered with the
    current [pid] and [counter]; [fuel] bounds the number of probes, and
    [None] stands for a loop that has not returned within the bound. The
    query is not inside a [try]: when it raises, the exception leaves the
    function. *)
Fixpoint probe (fuel : nat) (st : db) (original_pid pid : str)
    (counter : nat) : option (exec str) :=
  match fuel with
  | O => None
  | S fuel' =>
      match Sql.select_product_id pid st with
      | Raised e => Some (Raised e)
      | Done true =>
          probe fuel' st original_pid (suffixed original_pid counter)
                (S counter)
      | Done false => Some (Done pid)
      end
  end.

Definition generate_unique_product_id (fuel : nat) (st : db)
    (original_pid : str) : option (exec str) :=
  probe fuel st original_pid original_pid 1.

(** [df.iterrows()]: the rows with their index labels 0, 1, ... *)
Definition iterrows (df : list csv_row) : list (nat * csv_row) :=
  combine (seq 0 (List.length df)) df.

(** The [for] loop of [process_csv_products]; [warnings] collects the
    [st.warning(f"Row {idx+1} skipped: {message}")] calls as
    [(idx+1, message)]. The loop returns [Done added_count] with the
    warnings shown and the store; an exception raised by
    [generate_unique_product_id] leaves the loop and the function, with
    the warnings shown and the store committed until then. *)
Fixpoint csv_loop (fuel : nat) (rows : list (nat * csv_row)) (st : db)
    (added_count : nat) (warnings : list (nat * message))
    : option (exec nat * list (nat * message) * db) :=
  match rows with
  | [] => Some (Done added_count, warnings, st)
  | (idx, row) :: rest =>
      let original_pid := r_id row in
      let name := r_name row in
      let category := r_category row in
      match generate_unique_product_id fuel st original_pid with
      | None => None
      | Some (Raised e) => Some (Raised e, warnings, st)
      | Some (Done pid) =>
          let '((success, message), st') :=
            add_product st pid name (Some category) in
          if success
          then csv_loop fuel rest st' (S added_count) warnings
          else csv_loop fuel rest st' added_count
                        (warnings ++ [(S idx, message)])%list
      end
  end.

Definition process_csv_products (fuel : nat) (st : db) (df_csv : list csv_row)
    : option (exec nat * list (nat * message) * db) :=
  csv_loop fuel (iterrows df_csv) st 0%nat [].

(* ================================================================== *)
(** ** The ledger as the specification describes it *)

(** [sum(movement.added for movement in ledger where movement.product == this)] *)
Definition sum_added (u : uuid) (st : db) : Z :=
  fold_right (fun t acc => if Nat.eqb (t_product_uuid t) u
                           then t_quantity_added t + acc else acc)
             0 (transactions st).

(** [sum(movement.sold for movement in ledger where movement.product == this)] *)
Definition sum_sold (u : uuid) (st : db) : Z :=
  fold_right (fun t acc => if Nat.eqb (t_product_uuid t) u
                           then t_quantity_sold t + acc else acc)
             0 (transactions st).

(** The invariant of the data model: every product's stock is the net of its
    recorded movements. *)
Definition ledger_consistent (st : db) : Prop :=
  forall p, In p (products st) ->
            p_stock p = sum_added (p_uuid p) st - sum_sold (p_uuid p) st.

(** Every movement refers to a product of the table (the foreign key). *)
Definition movements_owned (st : db) : Prop :=
  forall t, In t (transactions st) -> Sql.has_product (t_product_uuid t) st = true.

(** The stock currently stored for a product, if it exists. *)
Definition stock_of (u : uuid) (st : db) : option Z :=
  match get_product_by_uuid st u with
  | Some (_, _, _, s) => Some s
  | None => None
  end.

(** The identifiers the allocator tries, in order: the proposal itself, then
    the proposal followed by [(1)], [(2)], ... *)
Definition candidate (original_pid : str) (k : nat) : str :=
  match k with
  | O => original_pid
  | S _ => suffixed original_pid k
  end.

(** The bulk import as the specification describes it: a sequence of
    independent attempts with one result per row. For each row an
    identifier is resolved and the product is created; a row that fails,
    in the allocator or in the creation, has a failure as its result, and
    the next row is attempted whatever the result was. *)
Fixpoint import_batch (fuel : nat) (st : db) (rows : list csv_row)
    : option (list result * db) :=
  match rows with
  | [] => Some ([], st)
  | row :: rest =>
      match generate_unique_product_id fuel st (r_id row) with
      | None => None
      | Some allocated =>
          let '(res, st') :=
            match allocated with
            | Done pid => add_product st pid (r_name row) (Some (r_category row))
            | Raised e => ((false, MsgException e), st)
            end in
          match import_batch fuel st' rest with
          | None => None
          | Some (results, st'') => Some (res :: results, st'')
          end
      end
  end.

(** What [process_csv_products] shows of a list of per-row results whose
    first row has index [idx]: the number of successes, and one warning
    [(row number, text)] per failure. *)
Fixpoint count_added (results : list result) : nat :=
  match results with
  | [] => O
  | (true, _) :: rest => S (count_added rest)
  | (false, _) :: rest => count_added rest
  end.

Fixpoint warnings_from (idx : nat) (results : list result)
    : list (nat * message) :=
  match results with
  | [] => []
  | (true, _) :: rest => warnings_from (S idx) rest
  | (false, text) :: rest => (S idx, text) :: warnings_from (S idx) rest
  end.

(** A movement after a rename of product [u]: the snapshot fields take the
    supplied values, everything else stays. *)
Definition renamed (u : uuid) (new_id new_name : option str)
    (t : transaction) : transaction :=
  if Nat.eqb (t_product_uuid t) u then
    mkTransaction (t_uuid t) (t_date t) (t_product_uuid t)
      (match new_id with Some v => v | None => t_product_id t end)
      (match new_name with Some v => v | None => t_product_name t end)
      (t_quantity_added t) (t_quantity_sold t) (t_remarks t)
  else t.

(** The stock a successful [update_stock] writes: the result of the
    availability check when something is sold, and the sum computed first
    otherwise. *)
Definition stock_written (current_stock added sold : Z) : Z :=
  if 0 <? sold then current_stock - sold else current_stock + added - sold.

(** The store after a successful [update_stock] on product [u]. *)
Definition stock_updated (st : db) (u : uuid) (d : date) (pid name : str)
    (new_stock added sold : Z) (remarks : str) : db :=
  mkDb (map (fun p => if Nat.eqb (p_uuid p) u
                      then mkProduct (p_uuid p) (p_id p) (p_name p)
                                     (p_category p) new_stock
                      else p) (products st))
       (transactions st ++
          [mkTransaction (Sql.fresh_uuid (map t_uuid (transactions st)))
                         d u pid name added sold remarks]).

(** The stock column holds no negative value. *)
Definition stock_nonneg (st : db) : Prop :=
  forall p, In p (products st) -> 0 <= p_stock p.

(** The stores reached from the empty one by creating products and by
    movements that either add or sell. *)
Inductive ledger_run : db -> Prop :=
| run_empty : ledger_run empty_db
| run_create (st : db) (pid name : str) (category : option str) :
    ledger_run st ->
    ledger_run (snd (add_product st pid name category))
| run_move (st : db) (u : uuid) (d : date) (added sold : Z) (remarks : str) :
    ledger_run st ->
    0 <= added -> 0 <= sold -> added = 0 \/ sold = 0 ->
    ledger_run (snd (update_stock st u d added sold remarks)).

(** The values [update_product_details] writes for a supplied identifier
    and a supplied name. *)
Definition id_written (new_id : option str) : option str :=
  option_map Text.strip (supplied new_id).

Definition name_written (new_name : option str) : option str :=
  option_map (fun v => Text.strip (Text.lower v)) (supplied new_name).

(** The relation between a movement before and after a rename of product
    [u], field by field. *)
Definition snapshot_rewritten (u : uuid) (new_id new_name : option str)
    (t t' : transaction) : Prop :=
  t_uuid t' = t_uuid t /\ t_date t' = t_date t
  /\ t_product_uuid t' = t_product_uuid t
  /\ t_quantity_added t' = t_quantity_added t
  /\ t_quantity_sold t' = t_quantity_sold t
  /\ t_remarks t' = t_remarks t
  /\ (t_product_uuid t <> u -> t' = t)
  /\ (t_product_uuid t = u ->
      t_product_id t'
      = match new_id with Some v => v | None => t_product_id t end
      /\ t_product_name t'
         = match new_name with Some v => v | None => t_product_name t end).

(** The quantities added to product [u], over its movements with
    [quantity_added > 0], and their total. *)
Definition added_quantities (u : uuid) (st : db) : list Z :=
  map t_quantity_added
      (filter (fun t => (Nat.eqb u (t_product_uuid t)
                         && (0 <? t_quantity_added t))%bool)
              (transactions st)).

Definition total_added (u : uuid) (st : db) : Z :=
  fold_right Z.add 0 (added_quantities u st).

(** The product has at least one movement with [quantity_added > 0]. *)
Definition has_stock_added (st : db) (p : product) : bool :=
  match added_quantities (p_uuid p) st with
  | [] => false
  | _ :: _ => true
  end.

(** The summary as the specification words it: one row per product that has
    ever received stock, with the total added to that product and its
    current stock. *)
Definition summary_of (st : db) (p : product) : summary_row :=
  mkSummary (p_id p) (p_name p) (p_category p)
            (total_added (p_uuid p) st) (p_stock p).

Definition summary_per_product (st : db) : list summary_row :=
  map (summary_of st) (filter (has_stock_added st) (products st)).

(** The rows that pass the [WHERE] of the summary: each product, in table
    order, paired with each of its movements that added stock. *)
Definition added_rows (st : db) (p : product) : list (product * option transaction) :=
  map (fun t => (p, Some t))
      (filter (fun t => (Nat.eqb (p_uuid p) (t_product_uuid t)
                         && (0 <? t_quantity_added t))%bool)
              (transactions st)).

(** Two products that the [GROUP BY] of the summary cannot tell apart. *)
Definition same_key (p q : product) : bool :=
  (Text.eqb (p_id p) (p_id q) && Text.eqb (p_name p) (p_name q)
   && Query.option_string_eqb (p_category p) (p_category q)
   && Z.eqb (p_stock p) (p_stock q))%bool.

(** No two rows of the products table share their grouping columns; this
    holds in particular when the external identifiers are unique. *)
Definition distinct_keys (ps : list product) : Prop :=
  ForallOrdPairs (fun p q => same_key p q = false) ps.

Definition total_desc (a b : summary_row) : Prop :=
  s_total_added b <= s_total_added a.

(* ================================================================== *)
(** ** Example stores *)

Module Stores.

(** One product, identifier ["sku1"], with the given stock and no
    movement. *)
Definition one_product (stock : Z) : db :=
  mkDb [mkProduct 1%nat "sku1" "widget" (Some "tools") stock] [].

(** A product created through [add_product]. *)
Definition created : db :=
  snd (add_product empty_db "sku1" "widget" (Some "tools")).

(** ... which then received 5 units. *)
Definition received : db :=
  snd (update_stock created 1%nat 1%nat 5 0 "New stock received").

(** ... and then a correction adding 3 and selling 2 in one call. *)
Definition corrected : db :=
  snd (update_stock received 1%nat 2%nat 3 2 "correction").

(** Two products created with the same identifier, name and category. *)
Definition twins : db :=
  snd (add_product created "sku1" "widget" (Some "tools")).

(** ... each of which then received 5 units. *)
Definition twins_received : db :=
  snd (update_stock
         (snd (update_stock twins 1%nat 1%nat 5 0 "New stock received"))
         2%nat 1%nat 5 0 "New stock received").

(** A product with two movements, and another product with one. *)
Definition two_products : db :=
  mkDb [mkProduct 1%nat "sku1" "widget" (Some "tools") 7;
        mkProduct 2%nat "sku2" "gadget" None 4]
       [mkTransaction 1%nat 1%nat 1%nat "sku1" "widget" 9 0 "in";
        mkTransaction 2%nat 2%nat 2%nat "sku2" "gadget" 4 0 "in";
        mkTransaction 3%nat 3%nat 1%nat "sku1" "widget" 0 2 "out"].

End Stores.

(* ================================================================== *)
(** ** Listings and the sales summary *)

Definition product_eq_dec (p q : product) : {p = q} + {p <> q}.
Proof.
  decide equality;
    try apply Z.eq_dec; try apply Nat.eq_dec; try apply Text.eq_dec.
  decide equality. apply Text.eq_dec.
Defined.

Module Listing.

(** [products p INNER JOIN transactions t ON p.uuid = t.product_uuid] *)
Definition inner_join (st : db) : list (product * transaction) :=
  flat_map
    (fun p => map (fun t => (p, t))
                  (filter (fun t => Nat.eqb (p_uuid p) (t_product_uuid t))
                          (transactions st)))
    (products st).

(** [ORDER BY p.id]; [collate a b] is the test [a <= b] of the collation
    the database compares text with. The sort is a stable insertion sort. *)
Fixpoint insert_by_id (collate : str -> str -> bool) (p : product)
    (sorted : list product) : list product :=
  match sorted with
  | [] => [p]
  | x :: rest =>
      if collate (p_id x) (p_id p) then x :: insert_by_id collate p rest
      else p :: sorted
  end.

Definition order_by_id (collate : str -> str -> bool)
    (rows : list product) : list product :=
  fold_left (fun sorted p => insert_by_id collate p sorted) rows [].

End Listing.

(** [SELECT DISTINCT p.uuid, p.id, p.name, p.category, p.stock FROM products p
    INNER JOIN transactions t ON p.uuid = t.product_uuid
    WHERE t.quantity_added > 0 ORDER BY p.id] *)
Definition get_products_with_stock_added (collate : str -> str -> bool)
    (st : db) : list product :=
  Listing.order_by_id collate
    (nodup product_eq_dec
       (map fst (filter (fun r => 0 <? t_quantity_added (snd r))
                        (Listing.inner_join st)))).

(** One row of the sales summary: [p.id, p.name, p.category, total_sold]. *)
Record sales_row := mkSales {
  l_id : str;
  l_name : str;
  l_category : option str;
  l_total_sold : Z
}.

Module Sales.

(** [WHERE t.quantity_sold > 0] *)
Definition where_sold (r : product * option transaction) : bool :=
  match snd r with
  | Some t => 0 <? t_quantity_sold t
  | None => false
  end.

(** The groups of [GROUP BY p.id, p.name, p.category]. *)
Definition same_group (g : sales_row) (p : product) : bool :=
  (Text.eqb (l_id g) (p_id p) && Text.eqb (l_name g) (p_name p)
   && Query.option_string_eqb (l_category g) (p_category p))%bool.

Fixpoint add_to_groups (p : product) (q : Z) (groups : list sales_row)
    : list sales_row :=
  match groups with
  | [] => [mkSales (p_id p) (p_name p) (p_category p) q]
  | g :: rest =>
      if same_group g p
      then mkSales (l_id g) (l_name g) (l_category g) (l_total_sold g + q)
           :: rest
      else g :: add_to_groups p q rest
  end.

Definition group_by (rows : list (product * option transaction))
    : list sales_row :=
  fold_left
    (fun groups r =>
       match snd r with
       | Some t => add_to_groups (fst r) (t_quantity_sold t) groups
       | None => groups
       end)
    rows [].

(** [ORDER BY total_sold DESC] *)
Fixpoint insert_desc (r : sales_row) (sorted : list sales_row)
    : list sales_row :=
  match sorted with
  | [] => [r]
  | x :: rest =>
      if l_total_sold x <? l_total_sold r then r :: sorted
      else x :: insert_desc r rest
  end.

Definition order_by_total_desc (rows : list sales_row) : list sales_row :=
  fold_left (fun sorted r => insert_desc r sorted) rows [].

End Sales.

(** [SELECT p.id, p.name, p.category, COALESCE(SUM(t.quantity_sold), 0) as
    total_sold FROM products p LEFT JOIN transactions t
    ON p.uuid = t.product_uuid WHERE t.quantity_sold > 0
    GROUP BY p.id, p.name, p.category ORDER BY total_sold DESC] *)
Definition get_sales_summary (st : db) : list sales_row :=
  Sales.order_by_total_desc
    (Sales.group_by (filter Sales.where_sold (Query.left_join st))).

(** The three figures [render_stock_summary_metrics] shows for a frame of
    summary rows: [len(df)], the sum of the column of totals and the sum of
    the column of current stock. *)
Definition render_stock_summary_metrics (df : list summary_row) : nat * Z * Z :=
  (List.length df,
   fold_right (fun r acc => s_total_added r + acc) 0 df,
   fold_right (fun r acc => s_current_stock r + acc) 0 df).

(** [len(df)] and the sum of the column of totals, the first two figures of
    [render_sales_summary_metrics]. *)
Definition render_sales_summary_metrics (df : list sales_row) : nat * Z :=
  (List.length df, fold_right (fun r acc => l_total_sold r + acc) 0 df).

(** The quantities sold of product [u], over its movements with
    [quantity_sold > 0], and their total. *)
Definition sold_quantities (u : uuid) (st : db) : list Z :=
  map t_quantity_sold
      (filter (fun t => (Nat.eqb u (t_product_uuid t)
                         && (0 <? t_quantity_sold t))%bool)
              (transactions st)).

Definition total_sold (u : uuid) (st : db) : Z :=
  fold_right Z.add 0 (sold_quantities u st).

Definition sold_desc (a b : sales_row) : Prop :=
  l_total_sold b <= l_total_sold a.

(** The quantity a joined row contributes to a sum over a column of
    [transactions]; a row without a movement contributes nothing. *)
Definition joined_quantity (q : transaction -> Z)
    (r : product * option transaction) : Z :=
  match snd r with
  | Some t => q t
  | None => 0
  end.

(* ================================================================== *)
(** ** Database initialisation *)

(** The database as [initialize_database] sees it: each of the two tables
    is absent, or present with its rows. *)
Record schema := mkSchema {
  products_table : option (list product);
  transactions_table : option (list transaction)
}.

(** [SELECT EXISTS (SELECT FROM information_schema.tables
    WHERE table_name = ...)] *)
Definition table_exists {A : Type} (t : option (list A)) : bool :=
  match t with
  | Some _ => true
  | None => false
  end.

(** [DROP TABLE IF EXISTS transactions CASCADE] *)
Definition drop_transactions (s : schema) : schema :=
  mkSchema (products_table s) None.

(** [DROP TABLE IF EXISTS products CASCADE]; the cascade removes the foreign
    key of [transactions], not the table. *)
Definition drop_products (s : schema) : schema :=
  mkSchema None (transactions_table s).

Definition drop_old_tables_if_exists (s : schema) : schema :=
  let products_exists := table_exists (products_table s) in
  let transactions_exists := table_exists (transactions_table s) in
  if (products_exists || transactions_exists)%bool
  then drop_products (drop_transactions s)
  else s.

(** [CREATE TABLE IF NOT EXISTS products (...)] *)
Definition create_products_table (s : schema) : schema :=
  match products_table s with
  | Some _ => s
  | None => mkSchema (Some []) (transactions_table s)
  end.

(** [CREATE TABLE IF NOT EXISTS transactions (...)] *)
Definition create_transactions_table (s : schema) : schema :=
  match transactions_table s with
  | Some _ => s
  | None => mkSchema (products_table s) (Some [])
  end.

(** The three steps of the [try] block, followed by [conn.commit()]. *)
Definition initialize_database (s : schema) : schema :=
  create_transactions_table (create_products_table (drop_old_tables_if_exists s)).

(** The store the operations work on, once both tables exist. *)
Definition store_of (s : schema) : option db :=
  match products_table s, transactions_table s with
  | Some ps, Some ts => Some (mkDb ps ts)
  | _, _ => None
  end.

(* ================================================================== *)
(** ** Invariants of the store *)

(** The primary key of [products]. *)
Definition unique_uuids (st : db) : Prop := NoDup (map p_uuid (products st)).

(** Each movement shows the identifier and the name its product has now. *)
Definition snapshots_current (st : db) : Prop :=
  forall t p, In t (transactions st) -> In p (products st) ->
              t_product_uuid t = p_uuid p ->
              t_product_id t = p_id p /\ t_product_name t = p_name p.

(** A row of [products] after the [UPDATE products SET ...] that
    [update_product_details] builds for product [u]. *)
Definition edited (u : uuid) (new_id new_name new_category : option str)
    (new_stock : option Z) (p : product) : product :=
  if Nat.eqb (p_uuid p) u then
    mkProduct (p_uuid p)
      (match id_written new_id with Some v => v | None => p_id p end)
      (match name_written new_name with Some v => v | None => p_name p end)
      (match supplied new_category with
       | Some v => Some (Text.strip v)
       | None => p_category p
       end)
      (match new_stock with Some v => v | None => p_stock p end)
  else p.

(** No argument of [update_product_details] passes its test. *)
Definition nothing_supplied (new_id new_name new_category : option str)
    (new_stock : option Z) : bool :=
  match supplied new_id, supplied new_name, supplied new_category, new_stock with
  | None, None, None, None => true
  | _, _, _, _ => false
  end.

(** The stores reached from the empty one by calls with non-negative
    quantities. With [free = false] the calls are those of the pages that
    keep the ledger: a movement either adds or sells, and no stock value is
    given to [update_product_details]. With [free = true] a movement may do
    both and the stock may be set directly, to a value that is not
    negative. *)
Inductive reachable (free : bool) : db -> Prop :=
| reach_empty : reachable free empty_db
| reach_add_product (st : db) (pid name : str) (category : option str) :
    reachable free st ->
    reachable free (snd (add_product st pid name category))
| reach_update_stock (st : db) (u : uuid) (d : date) (added sold : Z)
    (remarks : str) :
    reachable free st ->
    0 <= added -> 0 <= sold ->
    free = true \/ added = 0 \/ sold = 0 ->
    reachable free (snd (update_stock st u d added sold remarks))
| reach_update_product_details (st : db) (u : uuid)
    (new_id new_name new_category : option str) (new_stock : option Z) :
    reachable free st ->
    (forall v, new_stock = Some v -> free = true /\ 0 <= v) ->
    reachable free
      (snd (update_product_details st u new_id new_name new_category new_stock))
| reach_delete_product (st : db) (u : uuid) :
    reachable free st ->
    reachable free (snd (delete_product st u)).

(** The properties that every operation keeps; the ledger invariant is kept
    by the disciplined calls. *)
Definition store_ok (free : bool) (st : db) : Prop :=
  unique_uuids st /\ movements_owned st /\ snapshots_current st
  /\ stock_nonneg st /\ (free = false -> ledger_consistent st).




(** A text that [strip] leaves as it is. *)
Definition stripped (s : str) : Prop := Text.strip s = s.

(** The product [add_product] inserts, and the store after the insertion. *)
Definition created_product (st : db) (pid name : str) (category : option str)
    : product :=
  mkProduct (Sql.fresh_uuid (map p_uuid (products st)))
            (Text.strip pid) (Text.strip (Text.lower name)) category 0.

Definition inserted (st : db) (pid name : str) (category : option str) : db :=
  mkDb (products st ++ [created_product st pid name category])%list
       (transactions st).

(** The driver accepts the three texts [add_product] sends. *)
Definition product_texts_ok (pid name : str) (category : option str) : bool :=
  (Sql.text_ok (Text.strip pid)
   && Sql.text_ok (Text.strip (Text.lower name))
   && Sql.optional_text_ok category)%bool.

(** The value [update_product_details] writes for a supplied category. *)
Definition category_written (new_category : option str) : option str :=
  option_map Text.strip (supplied new_category).

(** The driver accepts the texts [update_product_details] sends. *)
Definition details_texts_ok (new_id new_name new_category : option str)
    : bool :=
  (Sql.optional_text_ok (id_written new_id)
   && Sql.optional_text_ok (name_written new_name)
   && Sql.optional_text_ok (category_written new_category))%bool.

(** The stock value given to [update_product_details], if any, fits the
    column. *)
Definition details_stock_ok (new_stock : option Z) : bool :=
  match new_stock with
  | Some v => Sql.int4_ok v
  | None => true
  end.

(** The driver accepts the texts [update_stock] sends with the movement:
    the identifier and the name found in the table, and the remarks. *)
Definition movement_texts_ok (pid name remarks : str) : bool :=
  (Sql.text_ok pid && Sql.text_ok name && Sql.text_ok remarks)%bool.

(** A row of [products] after the identifier, the name or the category of
    product [u] has been set to [v]. *)
Definition with_id (u : uuid) (v : str) (p : product) : product :=
  if Nat.eqb (p_uuid p) u
  then mkProduct (p_uuid p) v (p_name p) (p_category p) (p_stock p)
  else p.

Definition with_name (u : uuid) (v : str) (p : product) : product :=
  if Nat.eqb (p_uuid p) u
  then mkProduct (p_uuid p) (p_id p) v (p_category p) (p_stock p)
  else p.

Definition with_category (u : uuid) (v : str) (p : product) : product :=
  if Nat.eqb (p_uuid p) u
  then mkProduct (p_uuid p) (p_id p) (p_name p) (Some v) (p_stock p)
  else p.

(** The rows of a frame up to the first one whose identifier the driver
    refuses, and that row with the rows after it. *)
Fixpoint accepted_prefix (rows : list csv_row) : list csv_row :=
  match rows with
  | [] => []
  | row :: rest =>
      if Sql.text_ok (r_id row) then row :: accepted_prefix rest else []
  end.

(* ================================================================== *)
(** * Properties *)

(** ** Text *)

Lemma code_inj (a b : char) : Text.code a = Text.code b -> a = b.
Proof.
  destruct a as [a|], b as [b|]; simpl; intros H.
  - f_equal. rewrite <- (ascii_N_embedding a), <- (ascii_N_embedding b).
    now rewrite H.
  - pose proof (N_ascii_bounded a). lia.
  - pose proof (N_ascii_bounded b). lia.
  - reflexivity.
Qed.

Lemma text_eqb_eq (a b : str) : Text.eqb a b = true <-> a = b.
Proof.
  revert b. induction a as [|x a IH]; intros [|y b]; simpl;
    try (split; [discriminate|discriminate]); [now split|].
  rewrite andb_true_iff, N.eqb_eq, IH. split.
  - intros [Hc ->]. now rewrite (code_inj _ _ Hc).
  - intros H. injection H as -> ->. now split.
Qed.

Lemma text_eqb_refl (a : str) : Text.eqb a a = true.
Proof. now apply text_eqb_eq. Qed.







(** Lowercasing removes the capitals that have a small letter: an uppercase
    character that is left is one that [lower] does not change. *)
Lemma isupper_lower_char (c : char) :
  Text.isupper (Text.lower_char c) = true -> Text.lower_char c = c.
Proof. destruct c as [[[] [] [] [] [] [] [] []]|]; simpl; trivial; discriminate. Qed.

Lemma append_empty_r (s : str) : s ++ "" = s.
Proof. induction s as [|c r IH]; simpl; [reflexivity|now rewrite IH]. Qed.

Lemma append_assoc (a b c : str) : (a ++ b) ++ c = a ++ (b ++ c).
Proof. induction a as [|x a IH]; simpl; [reflexivity|now rewrite IH]. Qed.

Lemma append_cancel_l (s x y : str) : s ++ x = s ++ y -> x = y.
Proof.
  induction s as [|c r IH]; simpl; [trivial|].
  intros H. injection H as H. now apply IH.
Qed.

Lemma append_char_cancel_r (c : char) (x y : str) :
  x ++ Chr c "" = y ++ Chr c "" -> x = y.
Proof.
  revert y. induction x as [|a x IH]; intros [|b y]; simpl; intros H.
  - reflexivity.
  - injection H as _ H. now destruct y.
  - injection H as _ H. now destruct x.
  - injection H as -> H. f_equal. now apply IH.
Qed.

Lemma of_string_inj (a b : string) : Text.of_string a = Text.of_string b -> a = b.
Proof.
  revert b. induction a as [|x a IH]; intros [|y b]; simpl; intros H;
    try discriminate; [reflexivity|].
  injection H as -> H. f_equal. now apply IH.
Qed.

Lemma has_nul_append (a b : str) :
  Text.has_nul (a ++ b) = (Text.has_nul a || Text.has_nul b)%bool.
Proof.
  induction a as [|c a IH]; simpl; [reflexivity|].
  now rewrite IH, orb_assoc.
Qed.

Lemma has_nul_lstrip (s : str) :
  Text.has_nul (Text.lstrip s) = Text.has_nul s.
Proof.
  induction s as [|c r IH]; simpl; [reflexivity|].
  destruct (Text.isspace c) eqn:E; [|reflexivity].
  rewrite IH. replace (N.eqb (Text.code c) 0) with false; [reflexivity|].
  destruct c as [[[] [] [] [] [] [] [] []]|]; try reflexivity; discriminate E.
Qed.

Lemma has_nul_rstrip (s : str) :
  Text.has_nul (Text.rstrip s) = Text.has_nul s.
Proof.
  induction s as [|c r IH]; simpl; [reflexivity|].
  rewrite <- IH. destruct (Text.rstrip r) as [|a b]; [|reflexivity].
  destruct (Text.isspace c) eqn:E; simpl; [|reflexivity].
  destruct c as [[[] [] [] [] [] [] [] []]|]; try reflexivity; discriminate E.
Qed.

(** Trimming neither removes nor brings in the character U+0000. *)
Lemma has_nul_strip (s : str) : Text.has_nul (Text.strip s) = Text.has_nul s.
Proof. unfold Text.strip. now rewrite has_nul_rstrip, has_nul_lstrip. Qed.

Lemma has_nul_lower (s : str) : Text.has_nul (Text.lower s) = Text.has_nul s.
Proof.
  induction s as [|c r IH]; simpl; [reflexivity|]. rewrite IH. f_equal.
  destruct c as [[[] [] [] [] [] [] [] []]|]; reflexivity.
Qed.

Lemma has_nul_digits (d : Decimal.uint) :
  Text.has_nul (Text.of_string (NilEmpty.string_of_uint d)) = false.
Proof. induction d; simpl; trivial. Qed.

Lemma has_nul_str_of_nat (n : nat) : Text.has_nul (Text.str_of_nat n) = false.
Proof.
  unfold Text.str_of_nat, NilZero.string_of_uint.
  destruct (Nat.to_uint n); try apply has_nul_digits. reflexivity.
Qed.

(** A text of whitespace only is trimmed to the empty text, before and after
    lowercasing. *)
Lemma lstrip_only_space (s : str) :
  Text.only_space s = true -> Text.lstrip s = "".
Proof.
  induction s as [|c r IH]; simpl; [reflexivity|].
  intros H. apply andb_true_iff in H as [-> Hr]. now apply IH.
Qed.

Lemma isspace_lower_char (c : char) :
  Text.isspace (Text.lower_char c) = Text.isspace c.
Proof. destruct c as [[[] [] [] [] [] [] [] []]|]; reflexivity. Qed.

Lemma only_space_lower (s : str) :
  Text.only_space (Text.lower s) = Text.only_space s.
Proof.
  induction s as [|c r IH]; simpl; [reflexivity|].
  now rewrite isspace_lower_char, IH.
Qed.

Lemma all_space_strip (s : str) :
  Text.all_space s = true ->
  Text.truthy s = true /\ Text.strip s = "" /\ Text.strip (Text.lower s) = "".
Proof.
  unfold Text.all_space, Text.strip. intros H.
  apply andb_true_iff in H as [Ht Hs]. split; [exact Ht|].
  rewrite (lstrip_only_space s Hs), lstrip_only_space
    by (now rewrite only_space_lower).
  now split.
Qed.

(** ** Product creation *)

Lemma int4_ok_0 : Sql.int4_ok 0 = true.
Proof. reflexivity. Qed.

(** What [add_product] does on every input. *)
Lemma add_product_effect (st : db) (pid name : str) (category : option str) :
  add_product st pid name category =
  if Text.any_upper (Text.strip (Text.lower name))
  then ((false, MsgNameNotLowercase), st)
  else if product_texts_ok pid name category
       then ((true, MsgProductAdded (Text.strip (Text.lower name))
                                    (Text.strip pid)),
             inserted st pid name category)
       else ((false, MsgException ValueError), st).
Proof.
  unfold add_product, validate_product_name, product_texts_ok,
    Sql.insert_product, inserted, created_product.
  destruct (Text.any_upper (Text.strip (Text.lower name))); [reflexivity|].
  simpl.
  now destruct (Sql.text_ok (Text.strip pid)
                && Sql.text_ok (Text.strip (Text.lower name))
                && Sql.optional_text_ok category)%bool.
Qed.

(** A call that fails returns the store it was given; a call that succeeds
    has inserted one product. *)
Lemma add_product_cases (st : db) (pid name : str) (category : option str) :
  (fst (fst (add_product st pid name category)) = false
   /\ snd (add_product st pid name category) = st)
  \/
  (add_product st pid name category
   = ((true, MsgProductAdded (Text.strip (Text.lower name)) (Text.strip pid)),
      inserted st pid name category)
   /\ Text.any_upper (Text.strip (Text.lower name)) = false
   /\ product_texts_ok pid name category = true).
Proof.
  rewrite add_product_effect.
  destruct (Text.any_upper (Text.strip (Text.lower name))); [now left|].
  destruct (product_texts_ok pid name category); [now right|now left].
Qed.

Lemma add_product_success (st : db) (pid name : str) (category : option str) :
  fst (fst (add_product st pid name category)) = true ->
  add_product st pid name category
  = ((true, MsgProductAdded (Text.strip (Text.lower name)) (Text.strip pid)),
     inserted st pid name category)
  /\ Text.any_upper (Text.strip (Text.lower name)) = false
  /\ product_texts_ok pid name category = true.
Proof.
  intros H. destruct (add_product_cases st pid name category) as [[Hf _]|Hs];
    [congruence|exact Hs].
Qed.



(** A name that the validation rejects: [lower] leaves U+03D2 as it is. *)
Example add_product_rejects_upsilon_hook :
  add_product Stores.created "sku2" ("gadget " ++ Text.upsilon_hook)
              (Some "tools")
  = ((false, MsgNameNotLowercase), Stores.created).
Proof. reflexivity. Qed.

(** A name that the driver refuses. *)
Example add_product_refuses_nul :
  add_product Stores.created "sku2" ("gad" ++ Text.nul ++ "get") (Some "tools")
  = ((false, MsgException ValueError), Stores.created).
Proof. reflexivity. Qed.

(** C5, at the failing input: a second product is created with the
    external identifier ["sku1"] of an existing one. The call succeeds and the
    table then holds two products with the same identifier. *)
Theorem add_product_duplicate_id :
  Sql.exists_product_id "sku1" Stores.created = true /\
  add_product Stores.created "sku1" "gadget" (Some "tools") =
    ((true, MsgProductAdded "gadget" "sku1"),
     mkDb [mkProduct 1%nat "sku1" "widget" (Some "tools") 0;
           mkProduct 2%nat "sku1" "gadget" (Some "tools") 0] []).
Proof. split; reflexivity. Qed.

(** No call of [add_product] reports a conflict: the table has no
    uniqueness constraint on [id] to raise it. *)
Lemma add_product_never_conflicts (st : db) (pid name : str)
    (category : option str) :
  fst (add_product st pid name category) <> (false, MsgIdExists).
Proof.
  rewrite add_product_effect.
  destruct (Text.any_upper _); [discriminate|].
  destruct (product_texts_ok pid name category); discriminate.
Qed.

(** ** The movement ledger *)

Lemma find_uuid_some (u : uuid) (ps : list product) (p : product) :
  find (fun q => Nat.eqb (p_uuid q) u) ps = Some p ->
  In p ps /\ p_uuid p = u.
Proof.
  intros H. apply find_some in H as [Hin Heq].
  split; [exact Hin|now apply Nat.eqb_eq].
Qed.

Lemma get_product_by_uuid_some (st : db) (u u' : uuid) (pid name : str) (s : Z) :
  get_product_by_uuid st u = Some (u', pid, name, s) ->
  exists p, In p (products st) /\ p_uuid p = u /\ u' = u /\
            p_id p = pid /\ p_name p = name /\ p_stock p = s.
Proof.
  unfold get_product_by_uuid, Sql.select_product_by_uuid.
  destruct (find _ (products st)) as [p|] eqn:E; [|discriminate].
  intros H. injection H as <- <- <- <-.
  apply find_uuid_some in E as [Hin Hu]. exists p. now repeat split.
Qed.

Lemma get_product_by_uuid_has (st : db) (u u' : uuid) (pid name : str) (s : Z) :
  get_product_by_uuid st u = Some (u', pid, name, s) ->
  u' = u /\ Sql.has_product u st = true.
Proof.
  intros H. apply get_product_by_uuid_some in H as (p & Hin & Hp & Hu & _).
  split; [exact Hu|]. unfold Sql.has_product. apply existsb_exists.
  exists p. split; [exact Hin|]. now apply Nat.eqb_eq.
Qed.

Lemma has_product_update_stock (new_stock : Z) (u v : uuid) (st w : db) :
  Sql.update_stock_where_uuid new_stock u st = Done w ->
  Sql.has_product v w = Sql.has_product v st.
Proof.
  unfold Sql.update_stock_where_uuid, Sql.has_product.
  destruct (Sql.int4_ok new_stock); [|discriminate].
  intros H. injection H as <-. simpl.
  induction (products st) as [|p ps IH]; simpl; [reflexivity|].
  rewrite IH. now destruct (Nat.eqb (p_uuid p) u).
Qed.

(** Every outcome of [update_stock], by cases. *)
Lemma update_stock_cases (st : db) (u : uuid) (d : date) (added sold : Z)
    (remarks : str) :
  (get_product_by_uuid st u = None /\
   update_stock st u d added sold remarks = ((false, MsgProductNotFound), st))
  \/
  (exists pid name s,
      get_product_by_uuid st u = Some (u, pid, name, s) /\
      ((0 < sold /\ s < sold /\
        update_stock st u d added sold remarks = ((false, MsgNotEnoughStock), st))
       \/
       (~ (0 < sold /\ s < sold) /\
        (exists e, update_stock st u d added sold remarks
                   = ((false, MsgException e), st)))
       \/
       (~ (0 < sold /\ s < sold) /\
        update_stock st u d added sold remarks =
          ((true, MsgStockUpdated name pid d (stock_written s added sold)),
           stock_updated st u d pid name (stock_written s added sold)
                         added sold remarks)))).
Proof.
  unfold update_stock.
  destruct (get_product_by_uuid st u) as [[[[u' pid] name] s]|] eqn:E;
    [right|left; now split].
  pose proof (get_product_by_uuid_has _ _ _ _ _ _ E) as [-> Hhas].
  exists pid, name, s. split; [reflexivity|].
  unfold stock_written, validate_stock_availability.
  destruct (0 <? sold) eqn:Hs.
  - apply Z.ltb_lt in Hs.
    destruct (s - sold <? 0) eqn:Hn.
    + apply Z.ltb_lt in Hn. left. repeat split; [lia|lia].
    + apply Z.ltb_ge in Hn. right.
      assert (Hno : ~ (0 < sold /\ s < sold)) by lia.
      unfold update_product_stock, record_transaction, bind.
      destruct (Sql.update_stock_where_uuid (s - sold) u st) as [w|e] eqn:Ew;
        [|left; split; [exact Hno|now exists e]].
      unfold Sql.insert_transaction.
      rewrite (has_product_update_stock _ _ _ _ _ Ew), Hhas.
      destruct (Sql.text_ok pid && Sql.text_ok name && Sql.text_ok remarks)%bool;
        simpl; [|left; split; [exact Hno|now eexists]].
      destruct (Sql.int4_ok added && Sql.int4_ok sold)%bool; simpl;
        [|left; split; [exact Hno|now eexists]].
      right. split; [exact Hno|].
      unfold Sql.update_stock_where_uuid in Ew.
      destruct (Sql.int4_ok (s - sold)); [|discriminate].
      injection Ew as <-. reflexivity.
  - apply Z.ltb_ge in Hs. right.
    assert (Hno : ~ (0 < sold /\ s < sold)) by lia.
    unfold update_product_stock, record_transaction, bind.
    destruct (Sql.update_stock_where_uuid (s + added - sold) u st) as [w|e] eqn:Ew;
      [|left; split; [exact Hno|now exists e]].
    unfold Sql.insert_transaction.
    rewrite (has_product_update_stock _ _ _ _ _ Ew), Hhas.
    destruct (Sql.text_ok pid && Sql.text_ok name && Sql.text_ok remarks)%bool;
      simpl; [|left; split; [exact Hno|now eexists]].
    destruct (Sql.int4_ok added && Sql.int4_ok sold)%bool; simpl;
      [|left; split; [exact Hno|now eexists]].
    right. split; [exact Hno|].
    unfold Sql.update_stock_where_uuid in Ew.
    destruct (Sql.int4_ok (s + added - sold)); [|discriminate].
    injection Ew as <-. reflexivity.
Qed.

(** C3: selling more than the stock of an existing product is refused with
    the not-enough-stock error, whatever is added in the same call, and the
    store is returned as it was: the stock is still [s] and no movement was
    recorded. The stock of a product is a non-negative integer; the
    statement also covers a negative value in the column, as long as the
    call sells something. *)
Theorem update_stock_insufficient :
  forall (st : db) (u : uuid) (d : date) (added sold : Z) (remarks : str)
         (pid name : str) (s : Z),
    get_product_by_uuid st u = Some (u, pid, name, s) ->
    0 <= s \/ 0 < sold ->
    s < sold ->
    update_stock st u d added sold remarks = ((false, MsgNotEnoughStock), st)
    /\ stock_of u (snd (update_stock st u d added sold remarks)) = Some s
    /\ transactions (snd (update_stock st u d added sold remarks))
       = transactions st.
Proof.
  intros st u d added sold remarks pid name s Hget Hs Hsold.
  assert (H : update_stock st u d added sold remarks
              = ((false, MsgNotEnoughStock), st)).
  { destruct (update_stock_cases st u d added sold remarks)
      as [[Hnone _]|(pid' & name' & s' & Hget' & Hcases)];
      [congruence|].
    rewrite Hget in Hget'. injection Hget' as <- <- <-.
    destruct Hcases as [(_ & _ & H)|[(Hno & _)|(Hno & _)]];
      [exact H|exfalso; apply Hno; lia|exfalso; apply Hno; lia]. }
  rewrite H. simpl. split; [reflexivity|]. split; [|reflexivity].
  unfold stock_of. now rewrite Hget.
Qed.

(** C3 at the example of the specification: stock 5, sell 10. *)
Lemma update_stock_insufficient_witness :
  update_stock (Stores.one_product 5) 1%nat 20%nat 7 10 "sale"
  = ((false, MsgNotEnoughStock), Stores.one_product 5)
  /\ stock_of 1%nat
       (snd (update_stock (Stores.one_product 5) 1%nat 20%nat 7 10 "sale"))
     = Some 5
  /\ transactions
       (snd (update_stock (Stores.one_product 5) 1%nat 20%nat 7 10 "sale"))
     = transactions (Stores.one_product 5).
Proof.
  apply (update_stock_insufficient (Stores.one_product 5) 1%nat 20%nat 7 10
           "sale" "sku1" "widget" 5).
  - reflexivity.
  - left. lia.
  - lia.
Defined.

Lemma stock_of_stock_updated (st : db) (u : uuid) (d : date) (pid name : str)
    (new_stock added sold : Z) (remarks : str) :
  Sql.has_product u st = true ->
  stock_of u (stock_updated st u d pid name new_stock added sold remarks)
  = Some new_stock.
Proof.
  unfold stock_of, get_product_by_uuid, Sql.select_product_by_uuid,
    Sql.has_product, stock_updated. simpl.
  induction (products st) as [|p ps IH]; simpl; [discriminate|].
  destruct (Nat.eqb (p_uuid p) u) eqn:E; simpl.
  - now rewrite E.
  - rewrite E. exact IH.
Qed.

(** The stock written agrees with [s + added - sold] exactly when the call
    does not both add and sell. *)
Lemma stock_written_net (s added sold : Z) :
  stock_written s added sold = s + added - sold <-> (sold <= 0 \/ added = 0).
Proof.
  unfold stock_written. destruct (0 <? sold) eqn:E.
  - apply Z.ltb_lt in E. lia.
  - apply Z.ltb_ge in E. lia.
Qed.

(** C2, at the failing input: a product with stock 5 receives one call that
    adds 3 and sells 2. The call succeeds, the movement is recorded with
    both quantities, and the stock written is 3 (5 - 2), where the net
    effect 5 + 3 - 2 is 6. *)
Theorem update_stock_add_and_sell :
  update_stock (Stores.one_product 5) 1%nat 2%nat 3 2 "correction"
  = ((true, MsgStockUpdated "widget" "sku1" 2%nat 3),
     mkDb [mkProduct 1%nat "sku1" "widget" (Some "tools") 3]
          [mkTransaction 1%nat 2%nat 1%nat "sku1" "widget" 3 2 "correction"])
  /\ stock_of 1%nat
       (snd (update_stock (Stores.one_product 5) 1%nat 2%nat 3 2 "correction"))
     = Some 3
  /\ 5 + 3 - 2 = 6.
Proof. repeat split. Qed.

(** C1, at the failing input: a product is created, receives 5, and then
    one call adds 3 and sells 2. All three calls succeed, with non-negative
    quantities and no stock override; the stock is then 3, and the recorded
    movements sum to 8 added and 2 sold, a net of 6. *)
Theorem ledger_inconsistent_after_add_and_sell :
  fst (add_product empty_db "sku1" "widget" (Some "tools"))
  = (true, MsgProductAdded "widget" "sku1")
  /\ fst (update_stock Stores.created 1%nat 1%nat 5 0 "New stock received")
     = (true, MsgStockUpdated "widget" "sku1" 1%nat 5)
  /\ fst (update_stock Stores.received 1%nat 2%nat 3 2 "correction")
     = (true, MsgStockUpdated "widget" "sku1" 2%nat 3)
  /\ stock_of 1%nat Stores.corrected = Some 3
  /\ sum_added 1%nat Stores.corrected = 8
  /\ sum_sold 1%nat Stores.corrected = 2
  /\ ~ ledger_consistent Stores.corrected.
Proof.
  repeat split.
  intros H.
  specialize (H (mkProduct 1%nat "sku1" "widget" (Some "tools") 3)
                (or_introl eq_refl)).
  vm_compute in H. discriminate.
Qed.

(** *** The invariant on calls that either add or sell *)

Lemma sum_added_app (u : uuid) (ps qs : list product) (ts1 ts2 : list transaction) :
  sum_added u (mkDb ps (ts1 ++ ts2))
  = sum_added u (mkDb ps ts1) + sum_added u (mkDb qs ts2).
Proof.
  unfold sum_added. simpl.
  induction ts1 as [|t ts IH]; simpl; [reflexivity|].
  destruct (Nat.eqb (t_product_uuid t) u); lia.
Qed.

Lemma sum_sold_app (u : uuid) (ps qs : list product) (ts1 ts2 : list transaction) :
  sum_sold u (mkDb ps (ts1 ++ ts2))
  = sum_sold u (mkDb ps ts1) + sum_sold u (mkDb qs ts2).
Proof.
  unfold sum_sold. simpl.
  induction ts1 as [|t ts IH]; simpl; [reflexivity|].
  destruct (Nat.eqb (t_product_uuid t) u); lia.
Qed.

Lemma sums_stock_updated (st : db) (u v : uuid) (d : date) (pid name : str)
    (new_stock added sold : Z) (remarks : str) :
  let st' := stock_updated st u d pid name new_stock added sold remarks in
  sum_added v st' = sum_added v st + (if Nat.eqb u v then added else 0)
  /\ sum_sold v st' = sum_sold v st + (if Nat.eqb u v then sold else 0).
Proof.
  unfold stock_updated. simpl.
  rewrite (sum_added_app v _ (products st)), (sum_sold_app v _ (products st)).
  unfold sum_added, sum_sold. simpl.
  destruct (Nat.eqb u v); split; lia.
Qed.

(** A call that does not both add and sell keeps every product's stock equal
    to the net of its movements. *)
Lemma update_stock_keeps_ledger (st : db) (u : uuid) (d : date)
    (added sold : Z) (remarks : str) :
  ledger_consistent st ->
  sold <= 0 \/ added = 0 ->
  ledger_consistent (snd (update_stock st u d added sold remarks)).
Proof.
  intros Hinv Hside.
  destruct (update_stock_cases st u d added sold remarks)
    as [[_ ->]|(pid & name & s & Hget & [(_ & _ & ->)|[(_ & e & ->)|(_ & ->)]])];
    try exact Hinv.
  simpl. intros p' Hin.
  pose proof (sums_stock_updated st u (p_uuid p') d pid name
                (stock_written s added sold) added sold remarks) as [Ha Hs].
  simpl in Ha, Hs. rewrite Ha, Hs. clear Ha Hs.
  unfold stock_updated in Hin. simpl in Hin.
  apply in_map_iff in Hin as (p & <- & Hp).
  apply get_product_by_uuid_some in Hget as (q & Hq & Hqu & _ & _ & _ & Hqs).
  pose proof (Hinv q Hq) as Hq'. rewrite Hqu, Hqs in Hq'.
  destruct (Nat.eqb (p_uuid p) u) eqn:E; simpl.
  - rewrite Nat.eqb_sym, E.
    apply Nat.eqb_eq in E. rewrite E.
    apply (stock_written_net s) in Hside. lia.
  - rewrite Nat.eqb_sym, E. rewrite (Hinv p Hp). lia.
Qed.

Lemma fresh_uuid_above (used : list uuid) (u : uuid) :
  In u used -> (u < Sql.fresh_uuid used)%nat.
Proof.
  intros H. unfold Sql.fresh_uuid.
  pose proof (proj1 (list_max_le used (list_max used)) (Nat.le_refl _)) as Hall.
  rewrite Forall_forall in Hall. specialize (Hall u H). lia.
Qed.

Lemma has_product_in (u : uuid) (st : db) :
  Sql.has_product u st = true -> In u (map p_uuid (products st)).
Proof.
  unfold Sql.has_product. intros H.
  apply existsb_exists in H as (p & Hin & Hp). apply Nat.eqb_eq in Hp.
  subst u. now apply in_map.
Qed.

(** A product just created has no movement, so the invariant holds for it. *)
Lemma add_product_keeps_ledger (st : db) (pid name : str)
    (category : option str) :
  ledger_consistent st -> movements_owned st ->
  ledger_consistent (snd (add_product st pid name category)).
Proof.
  intros Hinv Hown.
  destruct (add_product_cases st pid name category) as [[_ ->]|[-> _]];
    [exact Hinv|].
  simpl. intros p Hin. simpl in Hin. apply in_app_or in Hin as [Hin|[<-|[]]].
  - exact (Hinv p Hin).
  - simpl. unfold sum_added, sum_sold. simpl.
    assert (Hz : forall f : transaction -> Z,
               fold_right (fun t acc =>
                 if Nat.eqb (t_product_uuid t)
                            (Sql.fresh_uuid (map p_uuid (products st)))
                 then f t + acc else acc) 0 (transactions st) = 0).
    { intros f. unfold movements_owned in Hown.
      induction (transactions st) as [|t ts IH]; simpl; [reflexivity|].
      rewrite IH by (intros t' Ht'; apply Hown; now right).
      destruct (Nat.eqb_spec (t_product_uuid t)
                  (Sql.fresh_uuid (map p_uuid (products st)))) as [E|_];
        [|reflexivity].
      pose proof (fresh_uuid_above _ _
                    (has_product_in _ _ (Hown t (or_introl eq_refl)))). lia. }
    rewrite (Hz t_quantity_added), (Hz t_quantity_sold). reflexivity.
Qed.

Lemma add_product_keeps_owned (st : db) (pid name : str)
    (category : option str) :
  movements_owned st -> movements_owned (snd (add_product st pid name category)).
Proof.
  intros Hown.
  destruct (add_product_cases st pid name category) as [[_ ->]|[-> _]];
    [exact Hown|].
  simpl. intros t Ht. simpl in Ht. specialize (Hown t Ht).
  unfold Sql.has_product in *. simpl. rewrite existsb_app, Hown. reflexivity.
Qed.

Lemma update_stock_keeps_owned (st : db) (u : uuid) (d : date)
    (added sold : Z) (remarks : str) :
  movements_owned st ->
  movements_owned (snd (update_stock st u d added sold remarks)).
Proof.
  intros Hown.
  destruct (update_stock_cases st u d added sold remarks)
    as [[_ ->]|(pid & name & s & Hget & [(_ & _ & ->)|[(_ & e & ->)|(_ & ->)]])];
    try exact Hown.
  simpl. apply get_product_by_uuid_has in Hget as [_ Hhas].
  assert (Hsame : forall v,
             Sql.has_product v
               (stock_updated st u d pid name (stock_written s added sold)
                              added sold remarks)
             = Sql.has_product v st).
  { intros v. unfold Sql.has_product, stock_updated. simpl.
    induction (products st) as [|p ps IH]; simpl; [reflexivity|].
    rewrite IH. now destruct (Nat.eqb (p_uuid p) u). }
  intros t Ht. rewrite Hsame. unfold stock_updated in Ht. simpl in Ht.
  apply in_app_or in Ht as [Ht|[<-|[]]]; [now apply Hown|exact Hhas].
Qed.

(** With non-negative quantities the stock never becomes negative. *)
Lemma update_stock_keeps_nonneg (st : db) (u : uuid) (d : date)
    (added sold : Z) (remarks : str) :
  stock_nonneg st -> 0 <= added -> 0 <= sold ->
  stock_nonneg (snd (update_stock st u d added sold remarks)).
Proof.
  intros Hinv Ha Hs.
  destruct (update_stock_cases st u d added sold remarks)
    as [[_ ->]|(pid & name & s & Hget & [(_ & _ & ->)|[(_ & e & ->)|(Hno & ->)]])];
    try exact Hinv.
  simpl. intros p' Hin. unfold stock_updated in Hin. simpl in Hin.
  apply in_map_iff in Hin as (p & <- & Hp).
  destruct (Nat.eqb (p_uuid p) u); [simpl|now apply Hinv].
  apply get_product_by_uuid_some in Hget as (q & Hq & _ & _ & _ & _ & Hqs).
  pose proof (Hinv q Hq) as Hq'. rewrite Hqs in Hq'.
  unfold stock_written. destruct (0 <? sold) eqn:E; lia.
Qed.

Lemma add_product_keeps_nonneg (st : db) (pid name : str)
    (category : option str) :
  stock_nonneg st -> stock_nonneg (snd (add_product st pid name category)).
Proof.
  intros Hinv.
  destruct (add_product_cases st pid name category) as [[_ ->]|[-> _]];
    [exact Hinv|].
  simpl. intros p Hin. simpl in Hin. apply in_app_or in Hin as [Hin|[<-|[]]].
  - now apply Hinv.
  - simpl. lia.
Qed.

(** On every store reached by creations and one-sided movements, each
    product's stock is the net of its movements, and it is not negative. *)
Lemma ledger_run_consistent (st : db) :
  ledger_run st ->
  ledger_consistent st /\ movements_owned st /\ stock_nonneg st.
Proof.
  induction 1 as [|st pid name category _ (Hc & Ho & Hn)
                   |st u d added sold remarks _ (Hc & Ho & Hn) Ha Hs Hside].
  - repeat split; intros x [].
  - split; [now apply add_product_keeps_ledger|].
    split; [now apply add_product_keeps_owned|now apply add_product_keeps_nonneg].
  - split; [apply update_stock_keeps_ledger; [exact Hc|lia]|].
    split; [now apply update_stock_keeps_owned
           |now apply update_stock_keeps_nonneg].
Qed.

(** ** The identifier allocator *)

Lemma str_of_nat_inj (i j : nat) : Text.str_of_nat i = Text.str_of_nat j -> i = j.
Proof.
  unfold Text.str_of_nat. intros H. apply of_string_inj in H.
  assert (Hnil : forall n, Nat.to_uint n <> Nil).
  { intros n Hn. pose proof (Unsigned.of_to n) as Hof. rewrite Hn in Hof.
    simpl in Hof. subst n. discriminate Hn. }
  pose proof (NilZero.usu _ (Hnil i)) as Hi.
  pose proof (NilZero.usu _ (Hnil j)) as Hj.
  rewrite H, Hj in Hi. injection Hi as Hi.
  rewrite <- (Unsigned.of_to i), <- (Unsigned.of_to j). now rewrite Hi.
Qed.

Lemma candidate_inj (o : str) (i j : nat) :
  candidate o i = candidate o j -> i = j.
Proof.
  assert (Hne : forall k, o <> suffixed o (S k)).
  { intros k H. unfold suffixed in H. rewrite <- (append_empty_r o) in H at 1.
    apply append_cancel_l in H. discriminate H. }
  destruct i as [|i], j as [|j]; simpl; intros H.
  - reflexivity.
  - now apply Hne in H.
  - symmetry in H. now apply Hne in H.
  - unfold suffixed in H. apply append_cancel_l in H.
    simpl in H. injection H as H.
    apply append_char_cancel_r in H. now apply str_of_nat_inj.
Qed.

(** The driver accepts a candidate exactly when it accepts the proposal. *)
Lemma text_ok_candidate (o : str) (k : nat) :
  Sql.text_ok (candidate o k) = Sql.text_ok o.
Proof.
  destruct k as [|k]; [reflexivity|].
  unfold candidate, suffixed, Sql.text_ok.
  rewrite !has_nul_append, has_nul_str_of_nat. simpl.
  now rewrite orb_false_r.
Qed.

Lemma exists_product_id_in (pid : str) (st : db) :
  Sql.exists_product_id pid st = true <-> In pid (map p_id (products st)).
Proof.
  unfold Sql.exists_product_id. rewrite existsb_exists, in_map_iff.
  split; intros (p & H1 & H2).
  - exists p. split; [now apply text_eqb_eq|exact H1].
  - exists p. split; [exact H2|now apply text_eqb_eq].
Qed.

Lemma bounded_search (P : nat -> bool) (n : nat) :
  (exists k, (k < n)%nat /\ P k = false) \/ (forall k, (k < n)%nat -> P k = true).
Proof.
  induction n as [|n [(k & Hk & HP)|IH]].
  - right. intros k Hk. lia.
  - left. exists k. split; [lia|exact HP].
  - destruct (P n) eqn:E.
    + right. intros k Hk. destruct (Nat.eq_dec k n) as [->|Hne];
        [exact E|apply IH; lia].
    + left. exists n. split; [lia|exact E].
Qed.

(** The probes are distinct identifiers, and the table is finite: one of
    the first [length products + 1] candidates is free. *)
Lemma some_candidate_free (st : db) (o : str) :
  exists k, (k <= List.length (products st))%nat /\
            Sql.exists_product_id (candidate o k) st = false.
Proof.
  destruct (bounded_search (fun k => Sql.exists_product_id (candidate o k) st)
              (S (List.length (products st)))) as [(k & Hk & HP)|Hall].
  - exists k. split; [lia|exact HP].
  - exfalso.
    assert (Hnd : NoDup (map (candidate o) (seq 0 (S (List.length (products st)))))).
    { apply NoDup_map_NoDup_ForallPairs; [|apply seq_NoDup].
      intros i j _ _. apply candidate_inj. }
    assert (Hincl : incl (map (candidate o) (seq 0 (S (List.length (products st)))))
                         (map p_id (products st))).
    { intros x Hx. apply in_map_iff in Hx as (k & <- & Hk).
      apply in_seq in Hk. apply exists_product_id_in, Hall. lia. }
    pose proof (NoDup_incl_length Hnd Hincl) as Hlen.
    rewrite !length_map, length_seq in Hlen. lia.
Qed.

(** One probe of the loop, entered at candidate [k]. *)
Lemma probe_step (st : db) (o : str) (fuel k : nat) :
  probe (S fuel) st o (candidate o k) (S k)
  = if Sql.text_ok o
    then if Sql.exists_product_id (candidate o k) st
         then probe fuel st o (candidate o (S k)) (S (S k))
         else Some (Done (candidate o k))
    else Some (Raised ValueError).
Proof.
  simpl. unfold Sql.select_product_id. rewrite text_ok_candidate.
  destruct (Sql.text_ok o); [|reflexivity].
  now destruct (Sql.exists_product_id (candidate o k) st).
Qed.

(** The loop entered at candidate [k] returns the first free candidate from
    [k] on, if the fuel reaches a free one. *)
Lemma probe_first_free (st : db) (o : str) (fuel k j : nat) :
  Sql.text_ok o = true ->
  Sql.exists_product_id (candidate o j) st = false ->
  (k <= j)%nat -> (j < k + fuel)%nat ->
  exists m, (k <= m <= j)%nat /\
            probe fuel st o (candidate o k) (S k) = Some (Done (candidate o m)) /\
            Sql.exists_product_id (candidate o m) st = false /\
            forall i, (k <= i < m)%nat ->
                      Sql.exists_product_id (candidate o i) st = true.
Proof.
  intros Hok Hfree. revert k.
  induction fuel as [|fuel IH]; intros k Hk Hj; [lia|].
  rewrite probe_step, Hok.
  destruct (Sql.exists_product_id (candidate o k) st) eqn:E.
  - assert (k <> j) by (intros ->; congruence).
    destruct (IH (S k)) as (m & Hm & Hp & Hf & Hbelow); [lia|lia|].
    exists m. split; [lia|]. split; [exact Hp|]. split; [exact Hf|].
    intros i Hi. destruct (Nat.eq_dec i k) as [->|Hne]; [exact E|].
    apply Hbelow. lia.
  - exists k. split; [lia|]. split; [reflexivity|]. split; [exact E|].
    intros i Hi. lia.
Qed.

Lemma generate_first_candidate (fuel : nat) (st : db) (o : str) :
  Sql.text_ok o = true ->
  (List.length (products st) < fuel)%nat ->
  exists m, generate_unique_product_id fuel st o = Some (Done (candidate o m)) /\
            Sql.exists_product_id (candidate o m) st = false /\
            forall i, (i < m)%nat ->
                      Sql.exists_product_id (candidate o i) st = true.
Proof.
  intros Hok Hfuel. destruct (some_candidate_free st o) as (j & Hj & Hfree).
  destruct (probe_first_free st o fuel 0 j Hok Hfree)
    as (m & Hm & Hp & Hf & Hbelow); [lia|lia|].
  exists m. split; [exact Hp|]. split; [exact Hf|].
  intros i Hi. apply Hbelow. lia.
Qed.

Lemma generate_unfold (fuel : nat) (st : db) (o : str) :
  generate_unique_product_id fuel st o = probe fuel st o (candidate o 0) 1.
Proof. reflexivity. Qed.

(** The first query of the loop raises when the driver refuses the
    proposal. *)
Lemma generate_raises (fuel : nat) (st : db) (o : str) :
  Sql.text_ok o = false ->
  generate_unique_product_id (S fuel) st o = Some (Raised ValueError).
Proof. intros Hok. now rewrite generate_unfold, probe_step, Hok. Qed.

Lemma exists_product_id_inserted (st : db) (pid pid' name : str)
    (category : option str) :
  Sql.exists_product_id pid' (inserted st pid name category)
  = (Sql.exists_product_id pid' st || Text.eqb (Text.strip pid) pid')%bool.
Proof.
  unfold Sql.exists_product_id, inserted. simpl.
  rewrite existsb_app. simpl. now rewrite orb_false_r.
Qed.

(** C6: for a proposal that the driver accepts as a text, and with enough
    fuel for one probe more than there are products,
    [generate_unique_product_id] returns; it returns the proposed identifier
    itself when no product has it, and otherwise [proposed(k)] for the
    smallest [k >= 1] that no product has. For a proposal that holds U+0000
    the first query raises, and the function returns nothing. Three
    allocations of ["sku1"], each followed by the successful creation of a
    product under the identifier returned, give ["sku1"], ["sku1(1)"] and
    ["sku1(2)"] when none of the three was taken. *)
Theorem generate_unique_product_id_first_free :
  (forall (fuel : nat) (st : db) (proposed : str),
      (List.length (products st) < fuel)%nat ->
      Sql.text_ok proposed = true ->
      (Sql.exists_product_id proposed st = false ->
       generate_unique_product_id fuel st proposed = Some (Done proposed))
      /\
      (Sql.exists_product_id proposed st = true ->
       exists k, (1 <= k)%nat /\
         generate_unique_product_id fuel st proposed
         = Some (Done (suffixed proposed k)) /\
         Sql.exists_product_id (suffixed proposed k) st = false /\
         forall j, (1 <= j < k)%nat ->
                   Sql.exists_product_id (suffixed proposed j) st = true))
  /\
  (forall (fuel : nat) (st : db) (proposed : str),
      (0 < fuel)%nat ->
      Sql.text_ok proposed = false ->
      generate_unique_product_id fuel st proposed = Some (Raised ValueError))
  /\
  (forall (fuel : nat) (st : db) (name1 name2 : str)
          (category1 category2 : option str),
      (2 < fuel)%nat ->
      Sql.exists_product_id "sku1" st = false ->
      Sql.exists_product_id "sku1(1)" st = false ->
      Sql.exists_product_id "sku1(2)" st = false ->
      let st1 := snd (add_product st "sku1" name1 category1) in
      let st2 := snd (add_product st1 "sku1(1)" name2 category2) in
      fst (fst (add_product st "sku1" name1 category1)) = true ->
      fst (fst (add_product st1 "sku1(1)" name2 category2)) = true ->
      generate_unique_product_id fuel st "sku1" = Some (Done "sku1")
      /\ generate_unique_product_id fuel st1 "sku1" = Some (Done "sku1(1)")
      /\ generate_unique_product_id fuel st2 "sku1" = Some (Done "sku1(2)")).
Proof.
  split; [|split].
  - intros fuel st o Hfuel Hok.
    destruct (generate_first_candidate fuel st o Hok Hfuel)
      as (m & Hgen & Hfree & Hbelow).
    split.
    + intros Ho. destruct m as [|m]; [exact Hgen|].
      specialize (Hbelow 0%nat ltac:(lia)). simpl in Hbelow. congruence.
    + intros Ho. destruct m as [|m]; [simpl in Hfree; congruence|].
      exists (S m). split; [lia|]. split; [exact Hgen|]. split; [exact Hfree|].
      intros j Hj. specialize (Hbelow j ltac:(lia)).
      destruct j as [|j]; [lia|exact Hbelow].
  - intros fuel st o Hfuel Hok. destruct fuel as [|fuel]; [lia|].
    now apply generate_raises.
  - intros fuel st name1 name2 category1 category2 Hfuel H0 H1 H2 st1 st2
      Hs1 Hs2.
    destruct fuel as [|[|[|fuel]]]; try lia.
    apply add_product_success in Hs2 as [Hs2 _].
    apply add_product_success in Hs1 as [Hs1 _].
    unfold st2. rewrite Hs2. unfold st1. rewrite Hs1. unfold snd.
    rewrite !generate_unfold, !probe_step. cbn [candidate].
    change (Sql.text_ok "sku1") with true. cbv iota.
    change (suffixed "sku1" 1) with "sku1(1)".
    change (suffixed "sku1" 2) with "sku1(2)".
    rewrite (exists_product_id_inserted _ "sku1(1)" "sku1").
    rewrite (exists_product_id_inserted _ "sku1(1)" "sku1(1)").
    rewrite (exists_product_id_inserted _ "sku1(1)" "sku1(2)").
    rewrite !(exists_product_id_inserted st "sku1" "sku1"), H0.
    rewrite !(exists_product_id_inserted st "sku1" "sku1(1)"), H1.
    rewrite !(exists_product_id_inserted st "sku1" "sku1(2)"), H2.
    repeat split.
Qed.

(** C6 on a store where ["sku1"] is taken, for a proposal with U+0000, and
    for three allocations from the empty store. *)
Lemma generate_unique_product_id_first_free_witness :
  generate_unique_product_id 2 Stores.created "sku2" = Some (Done "sku2")
  /\ (exists k, (1 <= k)%nat /\
        generate_unique_product_id 2 Stores.created "sku1"
        = Some (Done (suffixed "sku1" k)) /\
        Sql.exists_product_id (suffixed "sku1" k) Stores.created = false /\
        forall j, (1 <= j < k)%nat ->
                  Sql.exists_product_id (suffixed "sku1" j) Stores.created = true)
  /\ generate_unique_product_id 2 Stores.created ("sku" ++ Text.nul)
     = Some (Raised ValueError)
  /\ generate_unique_product_id 3 empty_db "sku1" = Some (Done "sku1")
  /\ generate_unique_product_id 3
       (snd (add_product empty_db "sku1" "a" None)) "sku1"
     = Some (Done "sku1(1)")
  /\ generate_unique_product_id 3
       (snd (add_product (snd (add_product empty_db "sku1" "a" None))
                         "sku1(1)" "b" None)) "sku1"
     = Some (Done "sku1(2)").
Proof.
  destruct generate_unique_product_id_first_free as (Hgen & Hraise & Hseq).
  split; [|split; [|split]].
  - apply (proj1 (Hgen 2%nat Stores.created "sku2" ltac:(vm_compute; lia)
                       eq_refl)).
    reflexivity.
  - apply (proj2 (Hgen 2%nat Stores.created "sku1" ltac:(vm_compute; lia)
                       eq_refl)).
    reflexivity.
  - apply (Hraise 2%nat Stores.created ("sku" ++ Text.nul)); [lia|reflexivity].
  - apply (Hseq 3%nat empty_db "a" "b" None None);
      [lia|reflexivity|reflexivity|reflexivity|reflexivity|reflexivity].
Defined.

(** ** Updating a product *)

Lemma supplied_none (a : option str) :
  supplied a = None <-> a = None \/ a = Some "".
Proof.
  destruct a as [[|c r]|]; simpl; split; intros H; auto; try discriminate.
  destruct H as [H'|H']; discriminate.
Qed.

Lemma supplied_idem (a : option str) : supplied (supplied a) = supplied a.
Proof. now destruct a as [[|c r]|]. Qed.

Lemma renamed_rewritten (u : uuid) (new_id new_name : option str)
    (t : transaction) :
  snapshot_rewritten u new_id new_name t (renamed u new_id new_name t).
Proof.
  unfold snapshot_rewritten, renamed.
  destruct (Nat.eqb_spec (t_product_uuid t) u) as [E|E]; simpl;
    repeat split; trivial; intros; congruence.
Qed.

Lemma renamed_none (u : uuid) (t : transaction) : renamed u None None t = t.
Proof. unfold renamed. destruct (Nat.eqb (t_product_uuid t) u); now destruct t. Qed.

(** The whole effect of [update_product_details]: nothing is supplied; or
    the driver refuses one of the texts; or the stock value does not fit the
    column; or the product and its movements are rewritten. In the two
    cases of a refusal the movements already rewritten are rolled back. *)
Lemma update_product_details_effect (st : db) (u : uuid)
    (new_id new_name new_category : option str) (new_stock : option Z) :
  update_product_details st u new_id new_name new_category new_stock
  = if nothing_supplied new_id new_name new_category new_stock
    then ((false, MsgNoChanges), st)
    else if details_texts_ok new_id new_name new_category
    then if details_stock_ok new_stock
         then ((true, MsgProductUpdated),
               mkDb (map (edited u new_id new_name new_category new_stock)
                         (products st))
                    (map (renamed u (id_written new_id) (name_written new_name))
                         (transactions st)))
         else ((false, MsgUpdateFailed NumericValueOutOfRange), st)
    else ((false, MsgUpdateFailed ValueError), st).
Proof.
  unfold update_product_details, nothing_supplied, edited, details_texts_ok,
    details_stock_ok, id_written, name_written, category_written.
  destruct (supplied new_id) as [i|], (supplied new_name) as [n|],
    (supplied new_category) as [c|], new_stock as [z|];
    cbn -[Sql.int4_ok Sql.text_ok Text.strip Text.lower];
    unfold Sql.update_transactions_product_id,
      Sql.update_transactions_product_name, Sql.update_products_set;
    cbn -[Sql.int4_ok Sql.text_ok Text.strip Text.lower];
    repeat match goal with
      | H : Sql.text_ok ?x = _ |- context [Sql.text_ok ?x] =>
          rewrite H;
          cbn -[Sql.int4_ok Sql.text_ok Text.strip Text.lower]
      | |- context [Sql.text_ok ?x] =>
          destruct (Sql.text_ok x) eqn:?;
          cbn -[Sql.int4_ok Sql.text_ok Text.strip Text.lower]
      | |- context [Sql.int4_ok ?x] =>
          destruct (Sql.int4_ok x) eqn:?;
          cbn -[Sql.int4_ok Sql.text_ok Text.strip Text.lower]
      end;
    try reflexivity;
    f_equal; f_equal;
    first
      [ solve [ apply map_ext; intros p;
                destruct (Nat.eqb (p_uuid p) u); [reflexivity|now destruct p] ]
      | solve [ rewrite map_map; apply map_ext; intros t; unfold renamed; cbn;
                destruct (Nat.eqb (t_product_uuid t) u) eqn:E; cbn;
                try rewrite E; reflexivity ]
      | solve [ apply map_ext; intros t; unfold renamed;
                now destruct (Nat.eqb (t_product_uuid t) u) ]
      | solve [ rewrite <- (map_id (transactions st)) at 1;
                apply map_ext; intros t; symmetry; apply renamed_none ] ].
Qed.

Lemma details_stock_ok_iff (new_stock : option Z) :
  details_stock_ok new_stock = true <->
  (forall v, new_stock = Some v -> Sql.int4_ok v = true).
Proof.
  destruct new_stock as [v|]; simpl; split; intros H.
  - intros v' Hv'. now injection Hv' as <-.
  - now apply H.
  - discriminate.
  - reflexivity.
Qed.

Lemma nothing_supplied_false (new_id new_name new_category : option str)
    (new_stock : option Z) :
  supplied new_id <> None \/ supplied new_name <> None ->
  nothing_supplied new_id new_name new_category new_stock = false.
Proof.
  unfold nothing_supplied.
  destruct (supplied new_id), (supplied new_name); trivial.
  intros [H|H]; congruence.
Qed.

(** A call that reports success was given something, texts the driver
    accepts and a stock value, if any, that fits the column; it has
    rewritten the product and its movements. *)
Lemma update_product_details_success (st : db) (u : uuid)
    (new_id new_name new_category : option str) (new_stock : option Z) :
  fst (fst (update_product_details st u new_id new_name new_category
              new_stock)) = true ->
  nothing_supplied new_id new_name new_category new_stock = false
  /\ details_texts_ok new_id new_name new_category = true
  /\ details_stock_ok new_stock = true
  /\ update_product_details st u new_id new_name new_category new_stock
     = ((true, MsgProductUpdated),
        mkDb (map (edited u new_id new_name new_category new_stock)
                  (products st))
             (map (renamed u (id_written new_id) (name_written new_name))
                  (transactions st))).
Proof.
  rewrite update_product_details_effect.
  destruct (nothing_supplied new_id new_name new_category new_stock);
    [discriminate|].
  destruct (details_texts_ok new_id new_name new_category); [|discriminate].
  destruct (details_stock_ok new_stock); [|discriminate].
  now repeat split.
Qed.

(** C7: when [update_product_details] is given a new identifier or a new
    name, with texts that the driver accepts and a stock value, if any, that
    fits the column, the call succeeds and the movements are the same rows
    in the same order, where each movement owned by the product carries the
    trimmed new identifier and the lowercased, trimmed new name in its
    snapshot fields (a snapshot field whose value was not supplied stays),
    every other field of it is unchanged, and each movement of another
    product is unchanged. *)
Theorem update_product_details_rewrites_snapshots :
  forall (st : db) (u : uuid) (new_id new_name new_category : option str)
         (new_stock : option Z),
    supplied new_id <> None \/ supplied new_name <> None ->
    details_texts_ok new_id new_name new_category = true ->
    (forall v, new_stock = Some v -> Sql.int4_ok v = true) ->
    let st' :=
      snd (update_product_details st u new_id new_name new_category new_stock) in
    fst (update_product_details st u new_id new_name new_category new_stock)
    = (true, MsgProductUpdated)
    /\ Forall2 (snapshot_rewritten u (id_written new_id) (name_written new_name))
               (transactions st) (transactions st').
Proof.
  intros st u new_id new_name new_category new_stock Hsup Htext Hstock st'.
  unfold st'. rewrite update_product_details_effect.
  rewrite (nothing_supplied_false _ _ _ _ Hsup), Htext.
  rewrite (proj2 (details_stock_ok_iff new_stock) Hstock). simpl.
  split; [reflexivity|]. clear.
  induction (transactions st) as [|t ts IH]; simpl.
  - constructor.
  - constructor; [apply renamed_rewritten|exact IH].
Qed.

(** C7 on a store with two products: product 1 is renamed, and its two
    movements take the new snapshot values while the movement of product 2
    stays. *)
Lemma update_product_details_rewrites_snapshots_witness :
  fst (update_product_details Stores.two_products 1%nat
         (Some " sku9 ") (Some "Widget X") None None)
  = (true, MsgProductUpdated)
  /\ Forall2 (snapshot_rewritten 1%nat (Some "sku9") (Some "widget x"))
             (transactions Stores.two_products)
             (transactions
                (snd (update_product_details Stores.two_products 1%nat
                        (Some " sku9 ") (Some "Widget X") None None))).
Proof.
  apply (update_product_details_rewrites_snapshots Stores.two_products 1%nat
           (Some " sku9 ") (Some "Widget X") None None).
  - left. discriminate.
  - reflexivity.
  - intros v H. discriminate H.
Defined.

(** The renamed store of the example above, computed. *)
Example update_product_details_two_products :
  snd (update_product_details Stores.two_products 1%nat
         (Some " sku9 ") (Some "Widget X") None None)
  = mkDb [mkProduct 1%nat "sku9" "widget x" (Some "tools") 7;
          mkProduct 2%nat "sku2" "gadget" None 4]
         [mkTransaction 1%nat 1%nat 1%nat "sku9" "widget x" 9 0 "in";
          mkTransaction 2%nat 2%nat 2%nat "sku2" "gadget" 4 0 "in";
          mkTransaction 3%nat 3%nat 1%nat "sku9" "widget x" 0 2 "out"].
Proof. reflexivity. Qed.

(** A new name that the driver refuses: the identifier already written to
    the movements is rolled back. *)
Example update_product_details_refuses_nul :
  update_product_details Stores.two_products 1%nat
    (Some "sku9") (Some ("wid" ++ Text.nul)) None None
  = ((false, MsgUpdateFailed ValueError), Stores.two_products).
Proof. reflexivity. Qed.

Lemma update_product_details_supplied (st : db) (u : uuid)
    (new_id new_name new_category : option str) (new_stock : option Z) :
  update_product_details st u new_id new_name new_category new_stock
  = update_product_details st u (supplied new_id) (supplied new_name)
      (supplied new_category) new_stock.
Proof. unfold update_product_details. now rewrite !supplied_idem. Qed.

Lemma supplied_all_space (s : str) :
  Text.all_space s = true -> supplied (Some s) = Some s.
Proof.
  intros H. apply all_space_strip in H as (Ht & _). simpl. now rewrite Ht.
Qed.

(** C10, as the code has it: an empty string given for the identifier, the
    name or the category is treated exactly as an argument that was not
    given; a call with only empty strings and no stock value changes nothing
    and reports that no changes were made; a stock value of 0 counts as
    given, and sets the stock of the product to 0. A string that is not
    empty and holds only whitespace counts as given: the call succeeds and
    the identifier, the name or the category of the product is set to the
    empty string, with the snapshot fields of its movements. *)
Theorem update_product_details_empty_string :
  forall (st : db) (u : uuid),
    (forall new_name new_category new_stock,
        update_product_details st u (Some "") new_name new_category new_stock
        = update_product_details st u None new_name new_category new_stock)
    /\ (forall new_id new_category new_stock,
        update_product_details st u new_id (Some "") new_category new_stock
        = update_product_details st u new_id None new_category new_stock)
    /\ (forall new_id new_name new_stock,
        update_product_details st u new_id new_name (Some "") new_stock
        = update_product_details st u new_id new_name None new_stock)
    /\ update_product_details st u (Some "") (Some "") (Some "") None
       = ((false, MsgNoChanges), st)
    /\ fst (update_product_details st u (Some "") (Some "") (Some "") (Some 0))
       = (true, MsgProductUpdated)
    /\ Sql.update_stock_where_uuid 0 u st
       = Done (snd (update_product_details st u (Some "") (Some "") (Some "")
                      (Some 0)))
    /\ (if Sql.has_product u st
        then stock_of u (snd (update_product_details st u (Some "") (Some "")
                                (Some "") (Some 0))) = Some 0
        else True)
    /\ (forall s : str,
           Text.all_space s = true ->
           update_product_details st u (Some s) None None None
           = ((true, MsgProductUpdated),
              mkDb (map (with_id u "") (products st))
                   (map (renamed u (Some "") None) (transactions st)))
           /\ update_product_details st u None (Some s) None None
              = ((true, MsgProductUpdated),
                 mkDb (map (with_name u "") (products st))
                      (map (renamed u None (Some "")) (transactions st)))
           /\ update_product_details st u None None (Some s) None
              = ((true, MsgProductUpdated),
                 mkDb (map (with_category u "") (products st))
                      (transactions st))).
Proof.
  intros st u.
  assert (Hsame : forall a b c a' b' c' new_stock,
             supplied a = supplied a' -> supplied b = supplied b' ->
             supplied c = supplied c' ->
             update_product_details st u a b c new_stock
             = update_product_details st u a' b' c' new_stock).
  { intros a b c a' b' c' new_stock Ha Hb Hc.
    rewrite update_product_details_supplied, Ha, Hb, Hc.
    symmetry. apply update_product_details_supplied. }
  split; [intros; now apply Hsame|].
  split; [intros; now apply Hsame|].
  split; [intros; now apply Hsame|].
  split; [reflexivity|]. split; [reflexivity|]. split; [reflexivity|].
  split.
  { destruct (Sql.has_product u st) eqn:E; [|exact I].
    unfold stock_of, get_product_by_uuid, Sql.select_product_by_uuid,
      Sql.has_product in *. cbn.
    induction (products st) as [|p ps IH]; simpl in *; [discriminate|].
    destruct (Nat.eqb (p_uuid p) u) eqn:Ep; simpl.
    - now rewrite Ep.
    - rewrite Ep. now apply IH. }
  intros s Hs.
  pose proof (supplied_all_space s Hs) as Hsup.
  destruct (all_space_strip s Hs) as (_ & Hstrip & Hlow).
  rewrite !update_product_details_effect.
  unfold nothing_supplied, details_texts_ok, details_stock_ok, id_written,
    name_written, category_written, edited, id_written, name_written.
  rewrite Hsup. cbn [supplied option_map Sql.optional_text_ok].
  rewrite Hstrip, Hlow. cbn.
  repeat split; f_equal; f_equal;
    try (apply map_ext; intros p; unfold with_id, with_name, with_category;
         now destruct (Nat.eqb (p_uuid p) u)).
  rewrite <- (map_id (transactions st)) at 2.
  apply map_ext. intros t. apply renamed_none.
Qed.

(** C10 for a new name of one TAB and one space. *)
Lemma update_product_details_empty_string_witness :
  update_product_details Stores.received 1%nat None
    (Some (Chr (Latin1 "009"%char) " ")) None None
  = ((true, MsgProductUpdated),
     mkDb (map (with_name 1%nat "") (products Stores.received))
          (map (renamed 1%nat None (Some "")) (transactions Stores.received))).
Proof.
  apply (update_product_details_empty_string Stores.received 1%nat).
  reflexivity.
Defined.

(** C10, counterexample: a new identifier made of one space counts as given,
    and the identifier of the product, with the snapshot of its movement, is
    set to the empty string. *)
Lemma update_product_details_sets_empty_id :
  update_product_details Stores.received 1%nat (Some " ") None None None
  = ((true, MsgProductUpdated),
     mkDb [mkProduct 1%nat "" "widget" (Some "tools") 5]
          [mkTransaction 1%nat 1%nat 1%nat "" "widget" 5 0
                         "New stock received"]).
Proof. reflexivity. Qed.

(** ** Bulk import *)

(** For a proposal that the driver accepts, the allocator does not raise:
    what it returns is a candidate that no product has. *)
Lemma probe_some (st : db) (o : str) (fuel : nat) :
  Sql.text_ok o = true ->
  forall (k : nat) (r : exec str),
    probe fuel st o (candidate o k) (S k) = Some r ->
    exists m, r = Done (candidate o m)
              /\ Sql.exists_product_id (candidate o m) st = false.
Proof.
  intros Hok. induction fuel as [|fuel IH]; intros k r; [discriminate|].
  rewrite probe_step, Hok.
  destruct (Sql.exists_product_id (candidate o k) st) eqn:E.
  - apply (IH (S k)).
  - intros H. injection H as <-. now exists k.
Qed.

Lemma generate_some (fuel : nat) (st : db) (o : str) (r : exec str) :
  Sql.text_ok o = true ->
  generate_unique_product_id fuel st o = Some r ->
  exists m, r = Done (candidate o m)
            /\ Sql.exists_product_id (candidate o m) st = false.
Proof. intros Hok. rewrite generate_unfold. now apply probe_some. Qed.

(** The loop of [process_csv_products] goes through the rows up to the
    first identifier that the driver refuses. On these rows it computes the
    count and the warnings of the per-row results of [import_batch], on the
    same store; it returns the count when no identifier was refused, and is
    left by the exception of the allocator otherwise. *)
Lemma csv_loop_import (fuel : nat) (rows : list csv_row) :
  forall (idx : nat) (st : db) (added_count : nat)
         (warnings : list (nat * message)),
    csv_loop (S fuel) (combine (seq idx (List.length rows)) rows) st
             added_count warnings
    = match import_batch (S fuel) st (accepted_prefix rows) with
      | None => None
      | Some (results, st') =>
          Some (if forallb (fun r => Sql.text_ok (r_id r)) rows
                then Done (added_count + count_added results)%nat
                else Raised ValueError,
                (warnings ++ warnings_from idx results)%list, st')
      end.
Proof.
  induction rows as [|row rest IH]; intros idx st added_count warnings.
  - simpl. now rewrite Nat.add_0_r, app_nil_r.
  - cbn [List.length seq combine csv_loop accepted_prefix forallb].
    destruct (Sql.text_ok (r_id row)) eqn:Hok.
    + cbn [import_batch andb].
      destruct (generate_unique_product_id (S fuel) st (r_id row))
        as [r|] eqn:Eg; [|reflexivity].
      destruct (generate_some _ _ _ _ Hok Eg) as (m & -> & _).
      destruct (add_product st (candidate (r_id row) m) (r_name row)
                  (Some (r_category row))) as [[success text] st1].
      destruct success; rewrite IH;
        destruct (import_batch (S fuel) st1 (accepted_prefix rest))
          as [[results st2]|];
        try reflexivity; simpl.
      * now rewrite Nat.add_succ_r.
      * now rewrite <- app_assoc.
    + rewrite (generate_raises fuel st (r_id row) Hok). simpl.
      now rewrite app_nil_r.
Qed.

Lemma accepted_prefix_all (rows : list csv_row) :
  Forall (fun r => Sql.text_ok (r_id r) = true) rows ->
  accepted_prefix rows = rows
  /\ forallb (fun r => Sql.text_ok (r_id r)) rows = true.
Proof.
  induction 1 as [|row rest Hrow _ [IH1 IH2]]; simpl; [now split|].
  now rewrite Hrow, IH1, IH2.
Qed.

Lemma accepted_prefix_stops (pre post : list csv_row) (row : csv_row) :
  Forall (fun r => Sql.text_ok (r_id r) = true) pre ->
  Sql.text_ok (r_id row) = false ->
  accepted_prefix (pre ++ row :: post) = pre
  /\ forallb (fun r => Sql.text_ok (r_id r)) (pre ++ row :: post) = false.
Proof.
  intros Hpre Hrow.
  induction Hpre as [|r rest Hr _ [IH1 IH2]]; simpl.
  - now rewrite Hrow.
  - now rewrite Hr, IH1, IH2.
Qed.

Lemma import_batch_app (fuel : nat) (pre post : list csv_row) :
  forall st : db,
    import_batch fuel st (pre ++ post)
    = match import_batch fuel st pre with
      | None => None
      | Some (results1, st1) =>
          match import_batch fuel st1 post with
          | None => None
          | Some (results2, st2) => Some ((results1 ++ results2)%list, st2)
          end
      end.
Proof.
  induction pre as [|row rest IH]; intros st; simpl.
  - now destruct (import_batch fuel st post) as [[results st2]|].
  - destruct (generate_unique_product_id fuel st (r_id row)) as [allocated|];
      [|reflexivity].
    destruct (match allocated with
              | Done pid => add_product st pid (r_name row) (Some (r_category row))
              | Raised e => ((false, MsgException e), st)
              end) as [res st1].
    rewrite IH. destruct (import_batch fuel st1 rest) as [[results1 st2]|];
      [|reflexivity].
    now destruct (import_batch fuel st2 post) as [[results2 st3]|].
Qed.

Lemma add_product_products (st : db) (pid name : str)
    (category : option str) :
  exists created,
    products (snd (add_product st pid name category))
    = (products st ++ created)%list
    /\ (List.length created <= 1)%nat.
Proof.
  destruct (add_product_cases st pid name category) as [[_ ->]|[-> _]].
  - exists []. rewrite app_nil_r. split; [reflexivity|simpl; lia].
  - simpl. eexists. split; [reflexivity|]. simpl. lia.
Qed.

(** Nothing a batch has created, and nothing that was there before it, is
    removed by the rows that follow. *)
Lemma import_batch_products (fuel : nat) (rows : list csv_row) :
  forall (st st' : db) (results : list result),
    import_batch fuel st rows = Some (results, st') ->
    List.length results = List.length rows
    /\ exists created,
         products st' = (products st ++ created)%list
         /\ (List.length created <= List.length rows)%nat.
Proof.
  induction rows as [|row rest IH]; intros st st' results; simpl.
  - intros H. injection H as <- <-. split; [reflexivity|].
    exists []. now rewrite app_nil_r.
  - destruct (generate_unique_product_id fuel st (r_id row)) as [allocated|];
      [|discriminate].
    assert (Hc : exists c1,
               products (snd (match allocated with
                              | Done pid => add_product st pid (r_name row)
                                              (Some (r_category row))
                              | Raised e => ((false, MsgException e), st)
                              end)) = (products st ++ c1)%list
               /\ (List.length c1 <= 1)%nat).
    { destruct allocated as [pid|e]; [apply add_product_products|].
      exists []. rewrite app_nil_r. split; [reflexivity|simpl; lia]. }
    destruct Hc as (c1 & Hc1 & Hl1).
    destruct (match allocated with
              | Done pid => add_product st pid (r_name row) (Some (r_category row))
              | Raised e => ((false, MsgException e), st)
              end) as [res st1]. simpl in Hc1.
    destruct (import_batch fuel st1 rest) as [[results1 st2]|] eqn:E;
      [|discriminate].
    intros H. injection H as <- <-.
    destruct (IH _ _ _ E) as (Hlen & c2 & Hc2 & Hl2).
    split; [simpl; now rewrite Hlen|].
    exists (c1 ++ c2)%list. rewrite Hc2, Hc1, app_assoc. split; [reflexivity|].
    rewrite length_app. lia.
Qed.

(** With one unit of fuel per product that can be in the table when a row
    is reached, every allocation returns or raises, and the batch is
    processed to its end. *)
Lemma import_batch_total (fuel : nat) (rows : list csv_row) :
  forall st : db,
    (List.length (products st) + List.length rows <= fuel)%nat ->
    exists results st', import_batch fuel st rows = Some (results, st').
Proof.
  induction rows as [|row rest IH]; intros st Hfuel; simpl.
  - now exists [], st.
  - simpl in Hfuel.
    assert (Hgen : exists allocated,
               generate_unique_product_id fuel st (r_id row) = Some allocated).
    { destruct (Sql.text_ok (r_id row)) eqn:Hok.
      - destruct (generate_first_candidate fuel st (r_id row) Hok)
          as (m & -> & _); [lia|]. now eexists.
      - destruct fuel as [|fuel]; [lia|].
        rewrite (generate_raises fuel st (r_id row) Hok). now eexists. }
    destruct Hgen as (allocated & ->).
    assert (Hc : exists c1,
               products (snd (match allocated with
                              | Done pid => add_product st pid (r_name row)
                                              (Some (r_category row))
                              | Raised e => ((false, MsgException e), st)
                              end)) = (products st ++ c1)%list
               /\ (List.length c1 <= 1)%nat).
    { destruct allocated as [pid|e]; [apply add_product_products|].
      exists []. rewrite app_nil_r. split; [reflexivity|simpl; lia]. }
    destruct Hc as (c1 & Hc1 & Hl1).
    destruct (match allocated with
              | Done pid => add_product st pid (r_name row) (Some (r_category row))
              | Raised e => ((false, MsgException e), st)
              end) as [res st1]. simpl in Hc1.
    destruct (IH st1) as (results & st' & ->).
    + rewrite Hc1, length_app. lia.
    + now eexists _, _.
Qed.

Lemma warnings_from_spec (results : list result) :
  forall (idx n : nat) (text : message),
    In (n, text) (warnings_from idx results) <->
    exists i, n = S (idx + i) /\ nth_error results i = Some (false, text).
Proof.
  induction results as [|[[|] text0] rest IH]; intros idx n text; simpl.
  - split; [intros []|intros (i & _ & H)]. now destruct i.
  - rewrite IH. split; intros (i & Hn & Hi).
    + exists (S i). split; [lia|exact Hi].
    + destruct i as [|i]; [discriminate|]. exists i. split; [lia|exact Hi].
  - rewrite IH. split.
    + intros [H|(i & Hn & Hi)].
      * injection H as <- <-. exists 0%nat. split; [lia|reflexivity].
      * exists (S i). split; [lia|exact Hi].
    + intros (i & Hn & Hi). destruct i as [|i].
      * left. injection Hi as <-. f_equal. lia.
      * right. exists i. split; [lia|exact Hi].
Qed.

(** C8, at the failing input: a batch of three rows on the empty store,
    where the identifier of the second row holds U+0000. As a sequence of
    independent attempts the batch has three results, a success, a failure
    and a success, and two products are created. [process_csv_products]
    creates the first product and is then left by the exception that the
    query of the allocator raises for the second row: it returns no count,
    the third row is not attempted, and its product is not created. *)
Theorem process_csv_products_aborts_on_allocator_error :
  import_batch 3 empty_db
    [mkRow "sku1" "anvil" "tools"; mkRow ("sku" ++ Text.nul) "widget" "tools";
     mkRow "sku3" "gadget" "toys"]
  = Some ([(true, MsgProductAdded "anvil" "sku1");
           (false, MsgException ValueError);
           (true, MsgProductAdded "gadget" "sku3")],
          mkDb [mkProduct 1%nat "sku1" "anvil" (Some "tools") 0;
                mkProduct 2%nat "sku3" "gadget" (Some "toys") 0] [])
  /\ generate_unique_product_id 3
       (mkDb [mkProduct 1%nat "sku1" "anvil" (Some "tools") 0] [])
       ("sku" ++ Text.nul)
     = Some (Raised ValueError)
  /\ process_csv_products 3 empty_db
       [mkRow "sku1" "anvil" "tools"; mkRow ("sku" ++ Text.nul) "widget" "tools";
        mkRow "sku3" "gadget" "toys"]
     = Some (Raised ValueError, [],
             mkDb [mkProduct 1%nat "sku1" "anvil" (Some "tools") 0] []).
Proof. repeat split. Qed.

(** X22: a row that [add_product] refuses neither stops the batch nor
    undoes the rows before it. For a batch whose identifiers the driver
    accepts, and with fuel for the allocations, [process_csv_products]
    processes the whole batch. There is one result per row; the count
    returned is the number of successful rows, and the warnings are the
    failed rows, each with its row number and the text [add_product]
    returned. For each row of the batch: the rows before it have been
    processed, the row is attempted on the store they left, with the
    identifier the allocator returns there, and whatever its result is, the
    rows after it are processed from the store the attempt left, up to the
    final store; every product present when the row is attempted is present
    after it and in the final store. *)
Theorem process_csv_products_rows_independent :
  forall (fuel : nat) (st : db) (df_csv : list csv_row),
    (List.length (products st) + List.length df_csv <= fuel)%nat ->
    Forall (fun r => Sql.text_ok (r_id r) = true) df_csv ->
    exists (results : list result) (st' : db),
      process_csv_products fuel st df_csv
      = Some (Done (count_added results), warnings_from 0 results, st')
      /\ import_batch fuel st df_csv = Some (results, st')
      /\ List.length results = List.length df_csv
      /\ (forall i text,
             In (S i, text) (warnings_from 0 results) <->
             nth_error results i = Some (false, text))
      /\ (forall pre row post,
             df_csv = (pre ++ row :: post)%list ->
             exists results1 st1 pid results2,
               import_batch fuel st pre = Some (results1, st1)
               /\ generate_unique_product_id fuel st1 (r_id row) = Some (Done pid)
               /\ import_batch fuel
                    (snd (add_product st1 pid (r_name row) (Some (r_category row))))
                    post = Some (results2, st')
               /\ results
                  = (results1
                     ++ fst (add_product st1 pid (r_name row)
                               (Some (r_category row))) :: results2)%list
               /\ incl (products st1)
                       (products (snd (add_product st1 pid (r_name row)
                                         (Some (r_category row)))))
               /\ incl (products (snd (add_product st1 pid (r_name row)
                                         (Some (r_category row)))))
                       (products st')).
Proof.
  intros fuel st df Hfuel Hids.
  destruct (import_batch_total fuel df st Hfuel) as (results & st' & Himp).
  exists results, st'.
  split.
  { unfold process_csv_products, iterrows.
    destruct fuel as [|fuel].
    - destruct df; [|simpl in Hfuel; lia].
      simpl in Himp. injection Himp as <- <-. reflexivity.
    - rewrite csv_loop_import.
      destruct (accepted_prefix_all df Hids) as [-> ->]. now rewrite Himp. }
  split; [exact Himp|].
  split; [exact (proj1 (import_batch_products _ _ _ _ _ Himp))|].
  split.
  { intros i text. rewrite warnings_from_spec. split.
    - intros (j & Hj & Hn). now replace i with j by lia.
    - intros Hn. now exists i. }
  intros pre row post ->.
  rewrite import_batch_app in Himp.
  destruct (import_batch fuel st pre) as [[results1 st1]|]; [|discriminate].
  simpl in Himp.
  destruct (generate_unique_product_id fuel st1 (r_id row)) as [allocated|]
    eqn:Epid; [|discriminate].
  assert (Hrow : Sql.text_ok (r_id row) = true).
  { rewrite Forall_forall in Hids. apply Hids, in_or_app. right. now left. }
  destruct (generate_some _ _ _ _ Hrow Epid) as (m & -> & _).
  destruct (add_product_products st1 (candidate (r_id row) m) (r_name row)
              (Some (r_category row))) as (c1 & Hc1 & _).
  destruct (add_product st1 (candidate (r_id row) m) (r_name row)
              (Some (r_category row))) as [res st2] eqn:Eadd. simpl in Hc1.
  destruct (import_batch fuel st2 post) as [[results2 st3]|] eqn:Epost;
    [|discriminate].
  injection Himp as <- <-.
  exists results1, st1, (candidate (r_id row) m), results2.
  rewrite Eadd. simpl.
  split; [reflexivity|]. split; [exact Epid|]. split; [exact Epost|].
  split; [reflexivity|]. split.
  - rewrite Hc1. apply incl_appl, incl_refl.
  - destruct (proj2 (import_batch_products _ _ _ _ _ Epost)) as (c2 & -> & _).
    apply incl_appl, incl_refl.
Qed.

(** X22 on a batch of three rows with the same identifier, where the name of
    the second row has a character that [lower] leaves uppercase: the second
    row fails, the first and the third are created. *)
Lemma process_csv_products_rows_independent_witness :
  exists (results : list result) (st' : db),
    process_csv_products 3 empty_db
      [mkRow "sku1" "anvil" "tools";
       mkRow "sku1" ("widget " ++ Text.upsilon_hook) "tools";
       mkRow "sku1" "gadget" "toys"]
    = Some (Done (count_added results), warnings_from 0 results, st')
    /\ results = [(true, MsgProductAdded "anvil" "sku1");
                  (false, MsgNameNotLowercase);
                  (true, MsgProductAdded "gadget" "sku1(1)")]
    /\ products st' = [mkProduct 1%nat "sku1" "anvil" (Some "tools") 0;
                       mkProduct 2%nat "sku1(1)" "gadget" (Some "toys") 0].
Proof.
  destruct (process_csv_products_rows_independent 3 empty_db
              [mkRow "sku1" "anvil" "tools";
               mkRow "sku1" ("widget " ++ Text.upsilon_hook) "tools";
               mkRow "sku1" "gadget" "toys"])
    as (results & st' & Hrun & Himp & _).
  - simpl. lia.
  - repeat constructor.
  - exists results, st'. split; [exact Hrun|].
    vm_compute in Himp. injection Himp as <- <-. split; reflexivity.
Defined.

(** The batch of the specification's example, computed: the name of the
    second row has an uppercase letter, and all three rows are created, the
    second under the lowercased name. *)
Example process_csv_products_three_rows :
  process_csv_products 3 empty_db
    [mkRow "sku1" "anvil" "tools"; mkRow "sku1" "Widget" "tools";
     mkRow "sku1" "gadget" "toys"]
  = Some (Done 3%nat, [],
          mkDb [mkProduct 1%nat "sku1" "anvil" (Some "tools") 0;
                mkProduct 2%nat "sku1(1)" "widget" (Some "tools") 0;
                mkProduct 3%nat "sku1(2)" "gadget" (Some "toys") 0] []).
Proof. reflexivity. Qed.

(** A batch whose second row has a name that the driver refuses: the row is
    skipped with a warning, and the third row is created. *)
Example process_csv_products_skips_row :
  process_csv_products 3 empty_db
    [mkRow "sku1" "anvil" "tools"; mkRow "sku2" ("wid" ++ Text.nul) "tools";
     mkRow "sku3" "gadget" "toys"]
  = Some (Done 2%nat, [(2%nat, MsgException ValueError)],
          mkDb [mkProduct 1%nat "sku1" "anvil" (Some "tools") 0;
                mkProduct 2%nat "sku3" "gadget" (Some "toys") 0] []).
Proof. reflexivity. Qed.

(** X23: an identifier that the driver refuses stops the batch. With fuel
    for the allocations, the rows before the first such identifier are
    processed as a sequence of independent attempts, and their products
    stay; the exception of the allocator then leaves
    [process_csv_products], which returns no count, and no row after it is
    attempted: the store is the one the rows before it left. *)
Theorem process_csv_products_aborts :
  forall (fuel : nat) (st : db) (pre post : list csv_row) (row : csv_row),
    (List.length (products st) + List.length pre < fuel)%nat ->
    Forall (fun r => Sql.text_ok (r_id r) = true) pre ->
    Sql.text_ok (r_id row) = false ->
    exists (results : list result) (st1 : db),
      import_batch fuel st pre = Some (results, st1)
      /\ List.length results = List.length pre
      /\ process_csv_products fuel st (pre ++ row :: post)
         = Some (Raised ValueError, warnings_from 0 results, st1).
Proof.
  intros fuel st pre post row Hfuel Hpre Hrow.
  destruct (import_batch_total fuel pre st) as (results & st1 & Himp); [lia|].
  exists results, st1. split; [exact Himp|].
  split; [exact (proj1 (import_batch_products _ _ _ _ _ Himp))|].
  unfold process_csv_products, iterrows.
  destruct fuel as [|fuel]; [lia|]. rewrite csv_loop_import.
  destruct (accepted_prefix_stops pre post row Hpre Hrow) as [-> ->].
  now rewrite Himp.
Qed.

Lemma process_csv_products_aborts_witness :
  exists (results : list result) (st1 : db),
    import_batch 3 Stores.created [mkRow "sku2" "anvil" "tools"]
    = Some (results, st1)
    /\ List.length results = 1%nat
    /\ process_csv_products 3 Stores.created
         ([mkRow "sku2" "anvil" "tools"]
          ++ mkRow Text.nul "gadget" "toys" :: [mkRow "sku3" "bolt" "tools"])
       = Some (Raised ValueError, warnings_from 0 results, st1).
Proof.
  apply (process_csv_products_aborts 3 Stores.created
           [mkRow "sku2" "anvil" "tools"] [mkRow "sku3" "bolt" "tools"]
           (mkRow Text.nul "gadget" "toys")).
  - vm_compute. lia.
  - repeat constructor.
  - reflexivity.
Defined.

(** ** The stock summary *)

(** C9, at the failing input: two products were created with the same
    identifier, name and category, and each received 5 units. Both have a
    movement with [quantity_added > 0] and a total of 5; the summary has one
    row for the two of them, with a total of 10. *)
Theorem get_stock_summary_merges_twins :
  products Stores.twins_received
  = [mkProduct 1%nat "sku1" "widget" (Some "tools") 5;
     mkProduct 2%nat "sku1" "widget" (Some "tools") 5]
  /\ total_added 1%nat Stores.twins_received = 5
  /\ total_added 2%nat Stores.twins_received = 5
  /\ summary_per_product Stores.twins_received
     = [mkSummary "sku1" "widget" (Some "tools") 5 5;
        mkSummary "sku1" "widget" (Some "tools") 5 5]
  /\ get_stock_summary Stores.twins_received
     = [mkSummary "sku1" "widget" (Some "tools") 10 5].
Proof. repeat split. Qed.

(** *** The summary when no two products share their grouping columns *)

Lemma insert_desc_perm (r : summary_row) (l : list summary_row) :
  Permutation (Query.insert_desc r l) (r :: l).
Proof.
  induction l as [|x l IH]; simpl; [reflexivity|].
  destruct (s_total_added x <? s_total_added r); [reflexivity|].
  rewrite IH. apply perm_swap.
Qed.

Lemma insert_desc_sorted (r : summary_row) (l : list summary_row) :
  StronglySorted total_desc l -> StronglySorted total_desc (Query.insert_desc r l).
Proof.
  induction l as [|x l IH]; simpl; intros Hs.
  - constructor; constructor.
  - inversion Hs as [|? ? Hl Hx]; subst.
    destruct (s_total_added x <? s_total_added r) eqn:E.
    + apply Z.ltb_lt in E. constructor; [exact Hs|].
      constructor; [unfold total_desc; lia|].
      eapply Forall_impl; [|exact Hx]. unfold total_desc. intros a Ha. lia.
    + apply Z.ltb_ge in E. constructor; [now apply IH|].
      rewrite (insert_desc_perm r l). constructor; [exact E|exact Hx].
Qed.

Lemma order_by_total_desc_spec (rows : list summary_row) :
  Permutation (Query.order_by_total_desc rows) rows
  /\ StronglySorted total_desc (Query.order_by_total_desc rows).
Proof.
  unfold Query.order_by_total_desc.
  assert (H : forall acc,
             StronglySorted total_desc acc ->
             Permutation (fold_left (fun sorted r => Query.insert_desc r sorted)
                                    rows acc) (rows ++ acc)
             /\ StronglySorted total_desc
                  (fold_left (fun sorted r => Query.insert_desc r sorted)
                             rows acc)).
  { induction rows as [|r rows IH]; intros acc Hacc; simpl.
    - split; [reflexivity|exact Hacc].
    - destruct (IH (Query.insert_desc r acc) (insert_desc_sorted r acc Hacc))
        as [Hp Hs].
      split; [|exact Hs]. rewrite Hp, insert_desc_perm.
      symmetry. apply Permutation_middle. }
  destruct (H [] (SSorted_nil _)) as [Hp Hs].
  rewrite app_nil_r in Hp. now split.
Qed.

Lemma filter_flat_map {A B : Type} (f : B -> bool) (g : A -> list B) (l : list A) :
  filter f (flat_map g l) = flat_map (fun x => filter f (g x)) l.
Proof.
  induction l as [|x l IH]; simpl; [reflexivity|].
  now rewrite filter_app, IH.
Qed.

Lemma filter_andb {A : Type} (f g : A -> bool) (l : list A) :
  filter (fun x => (f x && g x)%bool) l = filter g (filter f l).
Proof.
  induction l as [|x l IH]; simpl; [reflexivity|].
  destruct (f x); simpl; [|exact IH].
  destruct (g x); now rewrite IH.
Qed.

Lemma where_added_left_join (st : db) :
  filter Query.where_added (Query.left_join st)
  = flat_map (added_rows st) (products st).
Proof.
  unfold Query.left_join. rewrite filter_flat_map. apply flat_map_ext.
  intros p. unfold added_rows. rewrite filter_andb.
  assert (H : forall ts,
             filter Query.where_added (map (fun t => (p, Some t)) ts)
             = map (fun t => (p, Some t))
                   (filter (fun t => 0 <? t_quantity_added t) ts)).
  { induction ts as [|t ts IH]; simpl; [reflexivity|].
    unfold Query.where_added at 1. simpl.
    destruct (0 <? t_quantity_added t); simpl; now rewrite IH. }
  destruct (filter (fun t => Nat.eqb (p_uuid p) (t_product_uuid t))
                   (transactions st)) as [|t ts]; [reflexivity|apply H].
Qed.

Lemma same_key_refl (p : product) : same_key p p = true.
Proof.
  unfold same_key. rewrite !text_eqb_refl, Z.eqb_refl.
  destruct (p_category p) as [c|]; simpl; [now rewrite text_eqb_refl|reflexivity].
Qed.

Lemma add_to_groups_new (p : product) (q : Z) (groups : list summary_row) :
  (forall g, In g groups -> Query.same_group g p = false) ->
  Query.add_to_groups p q groups
  = (groups ++ [mkSummary (p_id p) (p_name p) (p_category p) q (p_stock p)])%list.
Proof.
  induction groups as [|g groups IH]; simpl; intros H; [reflexivity|].
  rewrite (H g (or_introl eq_refl)), IH; [reflexivity|].
  intros g' Hg'. apply H. now right.
Qed.

Lemma add_to_groups_last (p : product) (q a : Z) (groups : list summary_row) :
  (forall g, In g groups -> Query.same_group g p = false) ->
  Query.add_to_groups p q
    (groups ++ [mkSummary (p_id p) (p_name p) (p_category p) a (p_stock p)])
  = (groups ++ [mkSummary (p_id p) (p_name p) (p_category p) (a + q) (p_stock p)])%list.
Proof.
  induction groups as [|g groups IH]; simpl; intros H.
  - change (Query.same_group _ p) with (same_key p p).
    now rewrite same_key_refl.
  - rewrite (H g (or_introl eq_refl)), IH; [reflexivity|].
    intros g' Hg'. apply H. now right.
Qed.

Lemma group_by_added_rows (st : db) (p : product) (groups : list summary_row) :
  (forall g, In g groups -> Query.same_group g p = false) ->
  fold_left
    (fun groups r =>
       match snd r with
       | Some t => Query.add_to_groups (fst r) (t_quantity_added t) groups
       | None => groups
       end)
    (added_rows st p) groups
  = (groups ++ if has_stock_added st p then [summary_of st p] else [])%list.
Proof.
  intros Hnew. unfold has_stock_added, summary_of, total_added, added_rows,
    added_quantities.
  destruct (filter _ (transactions st)) as [|t ts]; simpl;
    [now rewrite app_nil_r|].
  rewrite add_to_groups_new by exact Hnew.
  generalize (t_quantity_added t) as a. clear t.
  induction ts as [|t ts IH]; intros a; simpl.
  - now rewrite Z.add_0_r.
  - rewrite add_to_groups_last by exact Hnew. rewrite IH.
    now rewrite Z.add_assoc.
Qed.

Lemma group_by_products (st : db) (ps : list product) :
  forall groups : list summary_row,
    (forall g p, In g groups -> In p ps -> Query.same_group g p = false) ->
    distinct_keys ps ->
    fold_left
      (fun groups r =>
         match snd r with
         | Some t => Query.add_to_groups (fst r) (t_quantity_added t) groups
         | None => groups
         end)
      (flat_map (added_rows st) ps) groups
    = (groups ++ map (summary_of st) (filter (has_stock_added st) ps))%list.
Proof.
  induction ps as [|p ps IH]; intros groups Hnew Hdist; simpl.
  - now rewrite app_nil_r.
  - inversion Hdist as [|? ? Hp Hps]; subst.
    rewrite fold_left_app, group_by_added_rows
      by (intros g Hg; apply Hnew; [exact Hg|now left]).
    rewrite IH; [| |exact Hps].
    + rewrite <- app_assoc. now destruct (has_stock_added st p).
    + intros g q Hg Hq. apply in_app_or in Hg as [Hg|Hg].
      * apply Hnew; [exact Hg|now right].
      * destruct (has_stock_added st p); [|destruct Hg].
        destruct Hg as [<-|[]].
        change (Query.same_group (summary_of st p) q) with (same_key p q).
        rewrite Forall_forall in Hp. now apply Hp.
Qed.

(** X20: when no two products share identifier, name, category and stock, the
    summary is the per-product summary, ordered by total added, descending:
    one row for each product with a movement that added stock, and none for
    the others. *)
Lemma get_stock_summary_per_product (st : db) :
  distinct_keys (products st) ->
  Permutation (get_stock_summary st) (summary_per_product st)
  /\ StronglySorted total_desc (get_stock_summary st).
Proof.
  intros Hdist. unfold get_stock_summary.
  destruct (order_by_total_desc_spec
              (Query.group_by (filter Query.where_added (Query.left_join st))))
    as [Hp Hs].
  split; [|exact Hs]. rewrite Hp. unfold Query.group_by.
  rewrite where_added_left_join, group_by_products; [reflexivity| |exact Hdist].
  intros g p [].
Qed.

(** The summary is ordered by total added, descending, on every store. *)
Lemma get_stock_summary_sorted (st : db) :
  StronglySorted total_desc (get_stock_summary st).
Proof. apply order_by_total_desc_spec. Qed.

Example get_stock_summary_two_products :
  get_stock_summary Stores.two_products
  = [mkSummary "sku1" "widget" (Some "tools") 9 7;
     mkSummary "sku2" "gadget" None 4 4].
Proof. reflexivity. Qed.

(* ================================================================== *)
(** * Further properties of the operations *)

(** ** [update_stock]: all or nothing *)

(** X3: a call of [update_stock] that reports a failure returns the store it was
    given: nothing is written when the product is missing or the sale is
    refused, and the stock already updated is rolled back when the insertion
    of the movement raises. *)
Theorem update_stock_failure_unchanged :
  forall (st : db) (u : uuid) (d : date) (added sold : Z) (remarks : str),
    fst (fst (update_stock st u d added sold remarks)) = false ->
    snd (update_stock st u d added sold remarks) = st.
Proof.
  intros st u d added sold remarks.
  destruct (update_stock_cases st u d added sold remarks)
    as [[_ ->]|(pid & name & s & Hget & [(_ & _ & ->)|[(_ & e & ->)|(_ & ->)]])];
    simpl; trivial. discriminate.
Qed.

(** The quantity added does not fit the column: the stock update to 4 is
    accepted, the insertion of the movement raises, and the stock is 5 as
    before. *)
Lemma update_stock_failure_unchanged_witness :
  snd (update_stock (Stores.one_product 5) 1%nat 2%nat 1099511627776 1 "sale")
  = Stores.one_product 5.
Proof.
  apply (update_stock_failure_unchanged (Stores.one_product 5) 1%nat 2%nat
           1099511627776 1 "sale").
  reflexivity.
Defined.

Lemma stock_of_other_stock_updated (st : db) (u v : uuid) (d : date)
    (pid name : str) (new_stock added sold : Z) (remarks : str) :
  v <> u ->
  stock_of v (stock_updated st u d pid name new_stock added sold remarks)
  = stock_of v st.
Proof.
  intros Hv.
  unfold stock_of, get_product_by_uuid, Sql.select_product_by_uuid,
    stock_updated. simpl.
  induction (products st) as [|p ps IH]; simpl; [reflexivity|].
  destruct (Nat.eqb_spec (p_uuid p) u) as [E|E]; simpl.
  - destruct (Nat.eqb_spec (p_uuid p) v) as [E'|E']; [congruence|exact IH].
  - destruct (Nat.eqb (p_uuid p) v); [reflexivity|exact IH].
Qed.

(** X4: a call of [update_stock] that reports success has found the product,
    has written [stock - sold] for a sale and [stock + added - sold]
    otherwise, and has appended exactly one movement, which carries the
    product's identifier and name and the two quantities as given; a sale
    that succeeds did not exceed the stock, and the stock of every other
    product is what it was. *)
Theorem update_stock_success_effect :
  forall (st : db) (u : uuid) (d : date) (added sold : Z) (remarks : str),
    fst (fst (update_stock st u d added sold remarks)) = true ->
    exists pid name s,
      get_product_by_uuid st u = Some (u, pid, name, s)
      /\ (0 < sold -> sold <= s)
      /\ transactions (snd (update_stock st u d added sold remarks))
         = (transactions st ++
              [mkTransaction (Sql.fresh_uuid (map t_uuid (transactions st)))
                             d u pid name added sold remarks])%list
      /\ stock_of u (snd (update_stock st u d added sold remarks))
         = Some (if 0 <? sold then s - sold else s + added - sold)
      /\ (forall v, v <> u ->
            stock_of v (snd (update_stock st u d added sold remarks))
            = stock_of v st)
      /\ map p_uuid (products (snd (update_stock st u d added sold remarks)))
         = map p_uuid (products st).
Proof.
  intros st u d added sold remarks.
  destruct (update_stock_cases st u d added sold remarks)
    as [[_ ->]|(pid & name & s & Hget & [(_ & _ & ->)|[(_ & e & ->)|(Hno & ->)]])];
    simpl; try discriminate.
  intros _. exists pid, name, s.
  split; [exact Hget|]. split; [lia|]. split; [reflexivity|].
  split; [|split].
  - apply stock_of_stock_updated.
    now apply get_product_by_uuid_has in Hget.
  - intros v Hv. now apply stock_of_other_stock_updated.
  - unfold stock_updated. simpl. rewrite map_map. apply map_ext.
    intros p. now destruct (Nat.eqb (p_uuid p) u).
Qed.

(** The example of the sale of 2 out of 7 in a store with two products. *)
Lemma update_stock_success_effect_witness :
  exists pid name s,
    get_product_by_uuid Stores.two_products 1%nat = Some (1%nat, pid, name, s)
    /\ (0 < 2 -> 2 <= s)
    /\ transactions (snd (update_stock Stores.two_products 1%nat 9%nat 0 2 "sale"))
       = (transactions Stores.two_products ++
            [mkTransaction
               (Sql.fresh_uuid (map t_uuid (transactions Stores.two_products)))
               9%nat 1%nat pid name 0 2 "sale"])%list
    /\ stock_of 1%nat (snd (update_stock Stores.two_products 1%nat 9%nat 0 2 "sale"))
       = Some (if 0 <? 2 then s - 2 else s + 0 - 2)
    /\ (forall v, v <> 1%nat ->
          stock_of v (snd (update_stock Stores.two_products 1%nat 9%nat 0 2 "sale"))
          = stock_of v Stores.two_products)
    /\ map p_uuid
         (products (snd (update_stock Stores.two_products 1%nat 9%nat 0 2 "sale")))
       = map p_uuid (products Stores.two_products).
Proof.
  apply (update_stock_success_effect Stores.two_products 1%nat 9%nat 0 2 "sale").
  reflexivity.
Defined.

(** ** [delete_product] *)

(** X7: [delete_product] always reports success, also for a key that no product
    has. Afterwards the product cannot be looked up, no movement refers to
    it, a movement on it is refused as "Product not found", and the rows
    that are left are exactly the products with another key and the
    movements of other products. *)
Theorem delete_product_cascades :
  forall (st : db) (u : uuid),
    fst (delete_product st u) = (true, MsgProductDeleted)
    /\ get_product_by_uuid (snd (delete_product st u)) u = None
    /\ (forall p, In p (products (snd (delete_product st u))) <->
                  In p (products st) /\ p_uuid p <> u)
    /\ (forall t, In t (transactions (snd (delete_product st u))) <->
                  In t (transactions st) /\ t_product_uuid t <> u)
    /\ (forall d added sold remarks,
           update_stock (snd (delete_product st u)) u d added sold remarks
           = ((false, MsgProductNotFound), snd (delete_product st u))).
Proof.
  intros st u. unfold delete_product, Sql.delete_product_where_uuid. simpl.
  assert (Hnone : get_product_by_uuid
                    (mkDb (filter (fun p => negb (Nat.eqb (p_uuid p) u))
                                  (products st))
                          (filter (fun t => negb (Nat.eqb (t_product_uuid t) u))
                                  (transactions st))) u = None).
  { unfold get_product_by_uuid, Sql.select_product_by_uuid. simpl.
    induction (products st) as [|p ps IH]; simpl; [reflexivity|].
    destruct (Nat.eqb (p_uuid p) u) eqn:E; simpl; [exact IH|].
    now rewrite E. }
  split; [reflexivity|]. split; [exact Hnone|].
  split; [|split].
  - intros p. rewrite filter_In, negb_true_iff, Nat.eqb_neq. reflexivity.
  - intros t. rewrite filter_In, negb_true_iff, Nat.eqb_neq. reflexivity.
  - intros d added sold remarks. unfold update_stock. now rewrite Hnone.
Qed.

(** ** [update_product_details] *)

(** A stock value that does not fit the column makes the call fail, and
    the movements already rewritten are rolled back. *)
Lemma update_product_details_out_of_range (st : db) (u : uuid)
    (new_id new_name new_category : option str) (v : Z) :
  details_texts_ok new_id new_name new_category = true ->
  Sql.int4_ok v = false ->
  update_product_details st u new_id new_name new_category (Some v)
  = ((false, MsgUpdateFailed NumericValueOutOfRange), st).
Proof.
  intros Ht Hv. rewrite update_product_details_effect, Ht. simpl. rewrite Hv.
  unfold nothing_supplied.
  now destruct (supplied new_id), (supplied new_name), (supplied new_category).
Qed.

(** X10: a call of [update_product_details] that reports a failure, "No changes
    made" included, returns the store it was given; in particular the
    rewriting of the movements is undone when the stock value is refused. *)
Theorem update_product_details_failure_unchanged :
  forall (st : db) (u : uuid) (new_id new_name new_category : option str)
         (new_stock : option Z),
    fst (fst (update_product_details st u new_id new_name new_category
                new_stock)) = false ->
    snd (update_product_details st u new_id new_name new_category new_stock)
    = st.
Proof.
  intros st u new_id new_name new_category new_stock.
  rewrite update_product_details_effect.
  destruct (nothing_supplied new_id new_name new_category new_stock);
    [reflexivity|].
  destruct (details_texts_ok new_id new_name new_category); [|reflexivity].
  destruct (details_stock_ok new_stock); [discriminate|reflexivity].
Qed.

(** A new identifier with a stock value that does not fit the column: the
    movement keeps its snapshot. *)
Lemma update_product_details_failure_unchanged_witness :
  snd (update_product_details Stores.received 1%nat (Some "sku9") None None
         (Some 1099511627776))
  = Stores.received.
Proof.
  apply (update_product_details_failure_unchanged Stores.received 1%nat
           (Some "sku9") None None (Some 1099511627776)).
  reflexivity.
Defined.

Lemma has_product_false (u : uuid) (st : db) :
  Sql.has_product u st = false ->
  forall p, In p (products st) -> Nat.eqb (p_uuid p) u = false.
Proof.
  unfold Sql.has_product. intros H p Hp.
  destruct (Nat.eqb (p_uuid p) u) eqn:E; [|reflexivity].
  rewrite <- H. symmetry. apply existsb_exists. now exists p.
Qed.

(** X11: for a key that no product has, a call that supplies something, with
    texts that the driver accepts and a stock value, if any, that fits the
    column, reports "Product updated successfully" and changes nothing: the
    statements match no row. *)
Theorem update_product_details_missing_product :
  forall (st : db) (u : uuid) (new_id new_name new_category : option str)
         (new_stock : option Z),
    Sql.has_product u st = false ->
    movements_owned st ->
    details_texts_ok new_id new_name new_category = true ->
    (forall v, new_stock = Some v -> Sql.int4_ok v = true) ->
    nothing_supplied new_id new_name new_category new_stock = false ->
    update_product_details st u new_id new_name new_category new_stock
    = ((true, MsgProductUpdated), st).
Proof.
  intros st u new_id new_name new_category new_stock Hmiss Hown Htext Hstock
    Hsup.
  rewrite update_product_details_effect, Hsup, Htext.
  rewrite (proj2 (details_stock_ok_iff new_stock) Hstock).
  f_equal. destruct st as [ps ts]. simpl in *. f_equal.
  - rewrite <- (map_id ps) at 2. apply map_ext_in. intros p Hp.
    unfold edited. now rewrite (has_product_false u _ Hmiss p Hp).
  - rewrite <- (map_id ts) at 2. apply map_ext_in. intros t Ht.
    unfold renamed.
    destruct (Nat.eqb_spec (t_product_uuid t) u) as [E|E]; [|reflexivity].
    specialize (Hown t Ht). rewrite E in Hown. congruence.
Qed.

Lemma update_product_details_missing_product_witness :
  update_product_details Stores.two_products 7%nat (Some "sku9") None None
    (Some 3)
  = ((true, MsgProductUpdated), Stores.two_products).
Proof.
  apply (update_product_details_missing_product Stores.two_products 7%nat
           (Some "sku9") None None (Some 3)).
  - reflexivity.
  - intros t [<-|[<-|[<-|[]]]]; reflexivity.
  - reflexivity.
  - intros v H. injection H as <-. reflexivity.
  - reflexivity.
Defined.

Lemma edited_uuid (u : uuid) (new_id new_name new_category : option str)
    (new_stock : option Z) (p : product) :
  p_uuid (edited u new_id new_name new_category new_stock p) = p_uuid p.
Proof. unfold edited. now destruct (Nat.eqb (p_uuid p) u). Qed.

Lemma edited_other (u : uuid) (new_id new_name new_category : option str)
    (new_stock : option Z) (p : product) :
  p_uuid p <> u -> edited u new_id new_name new_category new_stock p = p.
Proof.
  intros H. unfold edited.
  destruct (Nat.eqb_spec (p_uuid p) u); [contradiction|reflexivity].
Qed.

(** X12: after a call of [update_product_details] that reports success, for
    an existing product, the product is found under the same key with the
    trimmed new identifier, the lowercased and trimmed new name and the new
    stock where these were supplied, and with its former values where they
    were not; a lookup of any other key gives what it gave before. *)
Theorem update_product_details_lookup :
  forall (st : db) (u : uuid) (new_id new_name new_category : option str)
         (new_stock : option Z) (pid name : str) (s : Z),
    fst (update_product_details st u new_id new_name new_category new_stock)
    = (true, MsgProductUpdated) ->
    get_product_by_uuid st u = Some (u, pid, name, s) ->
    let st' := snd (update_product_details st u new_id new_name new_category
                      new_stock) in
    get_product_by_uuid st' u
    = Some (u,
            match supplied new_id with Some v => Text.strip v | None => pid end,
            match supplied new_name with
            | Some v => Text.strip (Text.lower v)
            | None => name
            end,
            match new_stock with Some v => v | None => s end)
    /\ forall v, v <> u -> get_product_by_uuid st' v = get_product_by_uuid st v.
Proof.
  intros st u new_id new_name new_category new_stock pid name s Hok Hget st'.
  assert (Hs : fst (fst (update_product_details st u new_id new_name
                           new_category new_stock)) = true)
    by now rewrite Hok.
  apply update_product_details_success in Hs as (_ & _ & _ & Heq).
  unfold st'. rewrite Heq. clear st' Heq Hok. revert Hget.
  unfold get_product_by_uuid, Sql.select_product_by_uuid. simpl.
  split.
  - revert Hget. induction (products st) as [|p ps IH]; simpl; [discriminate|].
    unfold edited at 1. unfold id_written, name_written.
    destruct (Nat.eqb (p_uuid p) u) eqn:E; simpl; rewrite E.
    + intros H. injection H as Hu <- <- <-.
      unfold edited, id_written, name_written. rewrite E. simpl. rewrite Hu.
      now destruct (supplied new_id), (supplied new_name), new_stock.
    + exact IH.
  - intros v Hv. clear Hget.
    induction (products st) as [|p ps IH]; simpl; [reflexivity|].
    rewrite edited_uuid.
    destruct (Nat.eqb_spec (p_uuid p) v) as [E|E]; [|exact IH].
    rewrite edited_other by congruence. reflexivity.
Qed.

Lemma update_product_details_lookup_witness :
  get_product_by_uuid
    (snd (update_product_details Stores.two_products 1%nat (Some " sku9 ")
            None (Some "hardware") (Some 0))) 1%nat
  = Some (1%nat, "sku9", "widget", 0)
  /\ forall v, v <> 1%nat ->
       get_product_by_uuid
         (snd (update_product_details Stores.two_products 1%nat (Some " sku9 ")
                 None (Some "hardware") (Some 0))) v
       = get_product_by_uuid Stores.two_products v.
Proof.
  apply (update_product_details_lookup Stores.two_products 1%nat
           (Some " sku9 ") None (Some "hardware") (Some 0) "sku1" "widget" 7).
  - reflexivity.
  - reflexivity.
Defined.

(** ** Invariants of the reachable stores *)

Lemma unique_product (ps : list product) (p q : product) :
  NoDup (map p_uuid ps) -> In p ps -> In q ps -> p_uuid p = p_uuid q -> p = q.
Proof.
  induction ps as [|x ps IH]; simpl; intros Hnd Hp Hq Hu; [contradiction|].
  inversion Hnd as [|? ? Hx Hps]; subst.
  destruct Hp as [->|Hp], Hq as [->|Hq]; trivial.
  - exfalso. apply Hx. rewrite Hu. now apply in_map.
  - exfalso. apply Hx. rewrite <- Hu. now apply in_map.
  - now apply IH.
Qed.

Lemma NoDup_map_filter {A B : Type} (g : A -> B) (f : A -> bool) (l : list A) :
  NoDup (map g l) -> NoDup (map g (filter f l)).
Proof.
  induction l as [|x l IH]; simpl; intros H; [exact H|].
  inversion H as [|? ? Hx Hl]; subst.
  destruct (f x); simpl; [|now apply IH].
  constructor; [|now apply IH].
  intros Hin. apply Hx. apply in_map_iff in Hin as (y & Hy & Hin).
  apply filter_In in Hin as [Hin _]. rewrite <- Hy. now apply in_map.
Qed.

Lemma renamed_fields (u : uuid) (new_id new_name : option str)
    (t : transaction) :
  t_product_uuid (renamed u new_id new_name t) = t_product_uuid t
  /\ t_quantity_added (renamed u new_id new_name t) = t_quantity_added t
  /\ t_quantity_sold (renamed u new_id new_name t) = t_quantity_sold t.
Proof. unfold renamed. now destruct (Nat.eqb (t_product_uuid t) u). Qed.

Lemma sums_renamed (u v : uuid) (new_id new_name : option str)
    (ps qs : list product) (ts : list transaction) :
  sum_added v (mkDb ps (map (renamed u new_id new_name) ts))
  = sum_added v (mkDb qs ts)
  /\ sum_sold v (mkDb ps (map (renamed u new_id new_name) ts))
     = sum_sold v (mkDb qs ts).
Proof.
  unfold sum_added, sum_sold. simpl.
  induction ts as [|t ts [IHa IHs]]; simpl; [now split|].
  destruct (renamed_fields u new_id new_name t) as (-> & -> & ->).
  now rewrite IHa, IHs.
Qed.

Lemma sums_deleted (u v : uuid) (ps qs : list product) (ts : list transaction) :
  v <> u ->
  sum_added v (mkDb ps (filter (fun t => negb (Nat.eqb (t_product_uuid t) u)) ts))
  = sum_added v (mkDb qs ts)
  /\ sum_sold v (mkDb ps (filter (fun t => negb (Nat.eqb (t_product_uuid t) u)) ts))
     = sum_sold v (mkDb qs ts).
Proof.
  intros Hv. unfold sum_added, sum_sold. simpl.
  induction ts as [|t ts [IHa IHs]]; simpl; [now split|].
  destruct (Nat.eqb_spec (t_product_uuid t) u) as [E|E]; simpl.
  - destruct (Nat.eqb_spec (t_product_uuid t) v) as [E'|E']; [congruence|].
    now split.
  - now rewrite IHa, IHs.
Qed.

Lemma store_ok_add_product (free : bool) (st : db) (pid name : str)
    (category : option str) :
  store_ok free st -> store_ok free (snd (add_product st pid name category)).
Proof.
  intros (Hu & Ho & Hs & Hn & Hl).
  split; [|split; [now apply add_product_keeps_owned|split;
            [|split; [now apply add_product_keeps_nonneg|
                      intros Hf; apply add_product_keeps_ledger; auto]]]].
  - destruct (add_product_cases st pid name category) as [[_ ->]|[-> _]];
      [exact Hu|].
    unfold unique_uuids in *. simpl.
    rewrite map_app. simpl. apply NoDup_app; [exact Hu|repeat constructor; auto|].
    intros a Ha [<-|[]]. pose proof (fresh_uuid_above _ _ Ha). lia.
  - destruct (add_product_cases st pid name category) as [[_ ->]|[-> _]];
      [exact Hs|].
    intros t p Ht Hp Htp. simpl in *.
    apply in_app_or in Hp as [Hp|[<-|[]]]; [now apply Hs|].
    simpl in Htp. exfalso.
    pose proof (fresh_uuid_above _ _ (has_product_in _ _ (Ho t Ht))). lia.
Qed.

Lemma store_ok_update_stock (free : bool) (st : db) (u : uuid) (d : date)
    (added sold : Z) (remarks : str) :
  store_ok free st -> 0 <= added -> 0 <= sold ->
  free = true \/ added = 0 \/ sold = 0 ->
  store_ok free (snd (update_stock st u d added sold remarks)).
Proof.
  intros (Hu & Ho & Hs & Hn & Hl) Ha Hsold Hside.
  split; [|split; [now apply update_stock_keeps_owned|split;
            [|split; [now apply update_stock_keeps_nonneg|]]]].
  - destruct (update_stock_cases st u d added sold remarks)
      as [[_ ->]|(pid & name & s & Hget & [(_ & _ & ->)|[(_ & e & ->)|(_ & ->)]])];
      try exact Hu.
    unfold unique_uuids, stock_updated in *. simpl. rewrite map_map.
    erewrite map_ext; [exact Hu|].
    intros p. simpl. now destruct (Nat.eqb (p_uuid p) u).
  - destruct (update_stock_cases st u d added sold remarks)
      as [[_ ->]|(pid & name & s & Hget & [(_ & _ & ->)|[(_ & e & ->)|(_ & ->)]])];
      try exact Hs.
    apply get_product_by_uuid_some in Hget as (q & Hq & Hqu & _ & Hqi & Hqn & _).
    intros t p' Ht Hp' Htp. unfold stock_updated in Ht, Hp'. simpl in Ht, Hp'.
    apply in_map_iff in Hp' as (p & <- & Hp).
    assert (Hsame : forall x,
               p_uuid (if Nat.eqb (p_uuid p) u
                       then mkProduct (p_uuid p) (p_id p) (p_name p)
                                      (p_category p) x else p) = p_uuid p
               /\ p_id (if Nat.eqb (p_uuid p) u
                        then mkProduct (p_uuid p) (p_id p) (p_name p)
                                       (p_category p) x else p) = p_id p
               /\ p_name (if Nat.eqb (p_uuid p) u
                          then mkProduct (p_uuid p) (p_id p) (p_name p)
                                         (p_category p) x else p) = p_name p).
    { intros x. now destruct (Nat.eqb (p_uuid p) u). }
    destruct (Hsame (stock_written s added sold)) as (E1 & E2 & E3).
    rewrite E1 in Htp. rewrite E2, E3.
    apply in_app_or in Ht as [Ht|[<-|[]]]; [now apply Hs|].
    simpl in *. assert (p = q) by (apply (unique_product (products st)); auto;
                                   congruence).
    subst p. now split.
  - intros Hf. apply update_stock_keeps_ledger; [now apply Hl|].
    destruct Hside as [Hside|Hside]; [congruence|lia].
Qed.

Lemma store_ok_delete_product (free : bool) (st : db) (u : uuid) :
  store_ok free st -> store_ok free (snd (delete_product st u)).
Proof.
  intros (Hu & Ho & Hs & Hn & Hl).
  unfold delete_product, Sql.delete_product_where_uuid. simpl.
  split; [|split; [|split; [|split]]].
  - unfold unique_uuids. simpl. now apply NoDup_map_filter.
  - intros t Ht. simpl in *. apply filter_In in Ht as [Ht Hne].
    apply negb_true_iff, Nat.eqb_neq in Hne.
    specialize (Ho t Ht). unfold Sql.has_product in *. simpl.
    apply existsb_exists in Ho as (p & Hp & Hpu).
    apply existsb_exists. exists p. split; [|exact Hpu].
    apply filter_In. split; [exact Hp|].
    apply Nat.eqb_eq in Hpu. apply negb_true_iff, Nat.eqb_neq. congruence.
  - intros t p Ht Hp. simpl in *.
    apply filter_In in Ht as [Ht _]. apply filter_In in Hp as [Hp _].
    now apply Hs.
  - intros p Hp. simpl in Hp. apply filter_In in Hp as [Hp _]. now apply Hn.
  - intros Hf p Hp. simpl in Hp. apply filter_In in Hp as [Hp Hne].
    apply negb_true_iff, Nat.eqb_neq in Hne.
    destruct (sums_deleted u (p_uuid p)
                (filter (fun q => negb (Nat.eqb (p_uuid q) u)) (products st))
                (products st) (transactions st) Hne) as [Ea Es].
    rewrite Ea, Es. rewrite (Hl Hf p Hp). now destruct st.
Qed.

Lemma store_ok_update_product_details (free : bool) (st : db) (u : uuid)
    (new_id new_name new_category : option str) (new_stock : option Z) :
  store_ok free st ->
  (forall v, new_stock = Some v -> free = true /\ 0 <= v) ->
  store_ok free
    (snd (update_product_details st u new_id new_name new_category new_stock)).
Proof.
  intros Hok Hstock.
  rewrite update_product_details_effect.
  destruct (nothing_supplied new_id new_name new_category new_stock);
    [exact Hok|].
  destruct (details_texts_ok new_id new_name new_category); [|exact Hok].
  destruct (details_stock_ok new_stock); [|exact Hok]. simpl.
  destruct Hok as (Hu & Ho & Hs & Hn & Hl).
  split; [|split; [|split; [|split]]].
  - unfold unique_uuids in *. simpl. rewrite map_map.
    erewrite map_ext; [exact Hu|]. intros p. apply edited_uuid.
  - intros t' Ht'. simpl in Ht'. apply in_map_iff in Ht' as (t & <- & Ht).
    destruct (renamed_fields u (id_written new_id) (name_written new_name) t)
      as (-> & _ & _).
    specialize (Ho t Ht). unfold Sql.has_product in *. simpl.
    rewrite existsb_exists in *. destruct Ho as (p & Hp & Hpu).
    exists (edited u new_id new_name new_category new_stock p).
    split; [now apply in_map|now rewrite edited_uuid].
  - intros t' p' Ht' Hp' Htp. simpl in Ht', Hp'.
    apply in_map_iff in Ht' as (t & <- & Ht).
    apply in_map_iff in Hp' as (p & <- & Hp).
    rewrite edited_uuid in Htp.
    rewrite (proj1 (renamed_fields u (id_written new_id)
                                   (name_written new_name) t)) in Htp.
    destruct (Hs t p Ht Hp Htp) as [Hi Hm].
    unfold renamed, edited. rewrite Htp.
    destruct (Nat.eqb (p_uuid p) u); simpl; [|now split].
    rewrite Hi, Hm. now split.
  - intros p' Hp'. simpl in Hp'. apply in_map_iff in Hp' as (p & <- & Hp).
    unfold edited. destruct (Nat.eqb (p_uuid p) u); simpl; [|now apply Hn].
    destruct new_stock as [v|]; [now apply (Hstock v)|now apply Hn].
  - intros Hf p' Hp'. simpl in Hp'. apply in_map_iff in Hp' as (p & <- & Hp).
    assert (new_stock = None) as ->.
    { destruct new_stock as [v|]; [|reflexivity].
      destruct (Hstock v eq_refl). congruence. }
    destruct (sums_renamed u
                (p_uuid (edited u new_id new_name new_category None p))
                (id_written new_id) (name_written new_name)
                (map (edited u new_id new_name new_category None) (products st))
                (products st) (transactions st)) as [Ea Es].
    rewrite Ea, Es, edited_uuid.
    replace (p_stock (edited u new_id new_name new_category None p))
      with (p_stock p)
      by (unfold edited; now destruct (Nat.eqb (p_uuid p) u)).
    rewrite (Hl Hf p Hp). now destruct st.
Qed.

Lemma reachable_store_ok (free : bool) (st : db) :
  reachable free st -> store_ok free st.
Proof.
  induction 1 as [|st pid name category _ IH
                   |st u d added sold remarks _ IH Ha Hs Hside
                   |st u new_id new_name new_category new_stock _ IH Hstock
                   |st u _ IH].
  - split; [apply NoDup_nil|].
    split; [intros t []|]. split; [intros t p []|].
    split; [intros p []|intros _ p []].
  - now apply store_ok_add_product.
  - now apply store_ok_update_stock.
  - now apply store_ok_update_product_details.
  - now apply store_ok_delete_product.
Qed.

(** X1: on every store built from the empty one by creating products, recording
    movements that either add or sell a non-negative quantity, renaming or
    recategorising products without a stock value, and deleting products,
    the stock of each product is the sum of the quantities added minus the
    sum of the quantities sold over its movements, and it is not negative. *)
Theorem reachable_ledger_consistent :
  forall st : db,
    reachable false st -> ledger_consistent st /\ stock_nonneg st.
Proof.
  intros st H. destruct (reachable_store_ok false st H) as (_ & _ & _ & Hn & Hl).
  split; [now apply Hl|exact Hn].
Qed.

Lemma reachable_ledger_consistent_witness :
  ledger_consistent Stores.received /\ stock_nonneg Stores.received.
Proof.
  apply (reachable_ledger_consistent Stores.received).
  unfold Stores.received, Stores.created.
  apply reach_update_stock; [|lia|lia|right; right; reflexivity].
  apply reach_add_product, reach_empty.
Defined.







(** X2: on every store built from the empty one by the four operations with
    non-negative quantities, stock values given directly included, each
    movement shows in its snapshot fields the identifier and the name that
    its product has now, every movement belongs to a product of the table,
    and no stock is negative. *)
Theorem reachable_snapshots_current :
  forall st : db,
    reachable true st ->
    snapshots_current st /\ movements_owned st /\ stock_nonneg st.
Proof.
  intros st H. destruct (reachable_store_ok true st H) as (_ & Ho & Hs & Hn & _).
  split; [exact Hs|split; [exact Ho|exact Hn]].
Qed.

Lemma reachable_snapshots_current_witness :
  snapshots_current Stores.received /\ movements_owned Stores.received
  /\ stock_nonneg Stores.received.
Proof.
  apply (reachable_snapshots_current Stores.received).
  unfold Stores.received, Stores.created.
  apply reach_update_stock; [|lia|lia|left; reflexivity].
  apply reach_add_product, reach_empty.
Defined.

(** ** Creating and looking up *)

Lemma find_uuid_app (v : uuid) (ps qs : list product) :
  find (fun p => Nat.eqb (p_uuid p) v) (ps ++ qs)
  = match find (fun p => Nat.eqb (p_uuid p) v) ps with
    | Some p => Some p
    | None => find (fun p => Nat.eqb (p_uuid p) v) qs
    end.
Proof.
  induction ps as [|p ps IH]; simpl; [reflexivity|].
  now destruct (Nat.eqb (p_uuid p) v).
Qed.

Lemma find_uuid_none (v : uuid) (ps : list product) :
  ~ In v (map p_uuid ps) -> find (fun p => Nat.eqb (p_uuid p) v) ps = None.
Proof.
  intros H. destruct (find _ ps) as [p|] eqn:E; [|reflexivity].
  apply find_uuid_some in E as [Hin <-]. exfalso. apply H. now apply in_map.
Qed.

(** X9: when [add_product] reports success, the key it gave to the new
    product was not in use; under that key the product is found with the
    trimmed identifier, the lowercased and trimmed name and stock 0, and a
    lookup of any other key gives what it gave before the call. *)
Theorem add_product_lookup :
  forall (st : db) (pid name : str) (category : option str),
    fst (fst (add_product st pid name category)) = true ->
    let u := Sql.fresh_uuid (map p_uuid (products st)) in
    let st' := snd (add_product st pid name category) in
    get_product_by_uuid st u = None
    /\ get_product_by_uuid st' u
       = Some (u, Text.strip pid, Text.strip (Text.lower name), 0)
    /\ forall v, v <> u -> get_product_by_uuid st' v = get_product_by_uuid st v.
Proof.
  intros st pid name category Hok u st'.
  assert (Hfresh : ~ In u (map p_uuid (products st))).
  { intros H. pose proof (fresh_uuid_above _ _ H). unfold u in *. lia. }
  apply add_product_success in Hok as [Heq _].
  unfold st'. rewrite Heq. unfold inserted, created_product.
  fold u. clearbody u. clear st' Heq.
  unfold get_product_by_uuid, Sql.select_product_by_uuid. simpl.
  split; [now rewrite find_uuid_none|]. split.
  - rewrite find_uuid_app, find_uuid_none by exact Hfresh. simpl.
    now rewrite Nat.eqb_refl.
  - intros v Hv. rewrite find_uuid_app.
    destruct (find _ (products st)); [reflexivity|]. simpl.
    destruct (Nat.eqb_spec u v); [congruence|reflexivity].
Qed.

Lemma add_product_lookup_witness :
  get_product_by_uuid Stores.two_products 3%nat = None
  /\ get_product_by_uuid
       (snd (add_product Stores.two_products " sku3 " "Anvil" None)) 3%nat
     = Some (3%nat, "sku3", "anvil", 0)
  /\ forall v, v <> 3%nat ->
       get_product_by_uuid
         (snd (add_product Stores.two_products " sku3 " "Anvil" None)) v
       = get_product_by_uuid Stores.two_products v.
Proof.
  apply (add_product_lookup Stores.two_products " sku3 " "Anvil" None).
  reflexivity.
Defined.

(** ** Cleaning the uploaded rows *)

Lemma lower_lstrip (s : str) :
  Text.lower (Text.lstrip s) = Text.lstrip (Text.lower s).
Proof.
  induction s as [|c r IH]; simpl; [reflexivity|].
  rewrite isspace_lower_char. now destruct (Text.isspace c).
Qed.

Lemma lower_rstrip (s : str) :
  Text.lower (Text.rstrip s) = Text.rstrip (Text.lower s).
Proof.
  induction s as [|c r IH]; simpl; [reflexivity|].
  rewrite <- IH, isspace_lower_char.
  destruct (Text.rstrip r); simpl; [now destruct (Text.isspace c)|reflexivity].
Qed.

Lemma lower_strip (s : str) :
  Text.lower (Text.strip s) = Text.strip (Text.lower s).
Proof. unfold Text.strip. now rewrite lower_rstrip, lower_lstrip. Qed.

Lemma lower_char_lower_char (c : char) :
  Text.lower_char (Text.lower_char c) = Text.lower_char c.
Proof. destruct c as [[[] [] [] [] [] [] [] []]|]; reflexivity. Qed.

Lemma lower_lower (s : str) : Text.lower (Text.lower s) = Text.lower s.
Proof.
  induction s as [|c r IH]; simpl; [reflexivity|].
  now rewrite lower_char_lower_char, IH.
Qed.

Lemma lstrip_length (s : str) :
  (Text.length (Text.lstrip s) <= Text.length s)%nat.
Proof.
  induction s as [|c r IH]; simpl; [lia|].
  destruct (Text.isspace c); simpl; lia.
Qed.

Lemma rstrip_length (s : str) :
  (Text.length (Text.rstrip s) <= Text.length s)%nat.
Proof.
  induction s as [|c r IH]; simpl; [lia|].
  destruct (Text.rstrip r); simpl in *; [destruct (Text.isspace c); simpl|]; lia.
Qed.

Lemma rstrip_rstrip (s : str) : Text.rstrip (Text.rstrip s) = Text.rstrip s.
Proof.
  induction s as [|c r IH]; simpl; [reflexivity|].
  destruct (Text.rstrip r) as [|a b] eqn:E.
  - destruct (Text.isspace c) eqn:Ec; simpl; [reflexivity|now rewrite Ec].
  - change (Text.rstrip (Chr c (Chr a b)))
      with (match Text.rstrip (Chr a b) with
            | Empty =>
                if Text.isspace c then Empty else Chr c Empty
            | Chr x y => Chr c (Chr x y)
            end).
    now rewrite IH.
Qed.

(** The first character of a text that [lstrip] leaves alone is no space. *)
Lemma lstrip_fixed (c : char) (r : str) :
  Text.lstrip (Chr c r) = Chr c r -> Text.isspace c = false.
Proof.
  simpl. destruct (Text.isspace c); [|reflexivity].
  intros H. pose proof (lstrip_length r) as Hl. rewrite H in Hl. simpl in Hl. lia.
Qed.

Lemma lstrip_lstrip (s : str) : Text.lstrip (Text.lstrip s) = Text.lstrip s.
Proof.
  induction s as [|c r IH]; simpl; [reflexivity|].
  destruct (Text.isspace c) eqn:E; [exact IH|]. simpl. now rewrite E.
Qed.

Lemma lstrip_rstrip_fixed (s : str) :
  Text.lstrip s = s -> Text.lstrip (Text.rstrip s) = Text.rstrip s.
Proof.
  destruct s as [|c r]; [reflexivity|]. intros H.
  pose proof (lstrip_fixed c r H) as Hc. simpl.
  destruct (Text.rstrip r); rewrite ?Hc; simpl; now rewrite Hc.
Qed.

Lemma strip_strip (s : str) : Text.strip (Text.strip s) = Text.strip s.
Proof.
  unfold Text.strip.
  rewrite (lstrip_rstrip_fixed (Text.lstrip s)) by apply lstrip_lstrip.
  apply rstrip_rstrip.
Qed.

(** X13: cleaning rows that are already clean changes nothing. *)
Theorem clean_csv_data_idempotent :
  forall df : list csv_row,
    clean_csv_data (clean_csv_data df) = clean_csv_data df.
Proof.
  intros df. unfold clean_csv_data. rewrite map_map. apply map_ext.
  intros r. simpl.
  now rewrite !strip_strip, lower_strip, lower_lower, strip_strip.
Qed.

Lemma rstrip_snoc (s : str) (c : char) :
  Text.isspace c = false ->
  Text.rstrip (s ++ Chr c "") = s ++ Chr c "".
Proof.
  intros Hc. induction s as [|a s IH]; simpl; [now rewrite Hc|].
  rewrite IH. now destruct s.
Qed.

Lemma stripped_first (c : char) (r : str) :
  stripped (Chr c r) -> Text.isspace c = false.
Proof.
  unfold stripped, Text.strip. intros H.
  destruct (Text.isspace c) eqn:E; [|reflexivity]. exfalso.
  pose proof (rstrip_length (Text.lstrip (Chr c r))) as H1.
  rewrite H in H1. simpl in H1. rewrite E in H1.
  pose proof (lstrip_length r). lia.
Qed.

Lemma stripped_strip (s : str) : stripped (Text.strip s).
Proof. apply strip_strip. Qed.

(** An identifier the allocator derives from a trimmed proposal is trimmed:
    [add_product] stores it as it is. *)
Lemma stripped_candidate (o : str) (k : nat) :
  stripped o -> stripped (candidate o k).
Proof.
  intros Ho. destruct k as [|k]; [exact Ho|].
  unfold candidate, suffixed, stripped, Text.strip.
  assert (Hl : Text.lstrip (o ++ "(" ++ Text.str_of_nat (S k) ++ ")")
               = o ++ "(" ++ Text.str_of_nat (S k) ++ ")").
  { destruct o as [|c r]; [reflexivity|].
    simpl. now rewrite (stripped_first c r Ho). }
  rewrite Hl.
  replace (o ++ "(" ++ Text.str_of_nat (S k) ++ ")")
    with ((o ++ "(" ++ Text.str_of_nat (S k)) ++ ")")
    by (now rewrite !append_assoc).
  now apply rstrip_snoc.
Qed.

(** X14: the row shown in the preview is the row stored. For a row of a
    cleaned frame whose name shows no uppercase character and whose three
    texts the driver accepts, and for every identifier the allocator can
    return for it, [add_product] succeeds, and the product it inserts
    carries that identifier and the row's name and category unchanged, with
    stock 0. *)
Theorem add_product_stores_cleaned_row :
  forall (st : db) (df : list csv_row) (r : csv_row) (k : nat),
    In r (clean_csv_data df) ->
    Text.any_upper (r_name r) = false ->
    Sql.text_ok (r_id r) = true ->
    Sql.text_ok (r_name r) = true ->
    Sql.text_ok (r_category r) = true ->
    add_product st (candidate (r_id r) k) (r_name r) (Some (r_category r))
    = ((true, MsgProductAdded (r_name r) (candidate (r_id r) k)),
       mkDb (products st ++
               [mkProduct (Sql.fresh_uuid (map p_uuid (products st)))
                          (candidate (r_id r) k) (r_name r)
                          (Some (r_category r)) 0])
            (transactions st)).
Proof.
  intros st df r k Hr Hup Hid Hname Hcat.
  assert (Hn : Text.strip (Text.lower (r_name r)) = r_name r
               /\ Text.strip (candidate (r_id r) k) = candidate (r_id r) k).
  { unfold clean_csv_data in Hr. apply in_map_iff in Hr as (r0 & <- & _).
    simpl. split.
    - now rewrite lower_strip, lower_lower, strip_strip.
    - apply stripped_candidate, stripped_strip. }
  destruct Hn as [Hn Hc].
  rewrite add_product_effect. unfold product_texts_ok, inserted, created_product.
  rewrite Hn, Hc, Hup, text_ok_candidate, Hid, Hname. simpl. now rewrite Hcat.
Qed.

Lemma add_product_stores_cleaned_row_witness :
  add_product Stores.created
    (candidate (r_id (mkRow "sku1" "gadget" "toys")) 1)
    (r_name (mkRow "sku1" "gadget" "toys"))
    (Some (r_category (mkRow "sku1" "gadget" "toys")))
  = ((true, MsgProductAdded "gadget" "sku1(1)"),
     mkDb (products Stores.created ++
             [mkProduct (Sql.fresh_uuid (map p_uuid (products Stores.created)))
                        "sku1(1)" "gadget" (Some "toys") 0])
          (transactions Stores.created)).
Proof.
  apply (add_product_stores_cleaned_row Stores.created
           [mkRow " sku1 " " Gadget" "toys "] (mkRow "sku1" "gadget" "toys") 1).
  - left. reflexivity.
  - reflexivity.
  - reflexivity.
  - reflexivity.
  - reflexivity.
Defined.

Lemma import_batch_unique_ids (fuel : nat) (rows : list csv_row) :
  forall (st st' : db) (results : list result),
    Forall (fun r => stripped (r_id r)) rows ->
    NoDup (map p_id (products st)) ->
    import_batch fuel st rows = Some (results, st') ->
    NoDup (map p_id (products st')).
Proof.
  induction rows as [|row rest IH]; intros st st' results Hrows Hnd; simpl.
  - intros H. now injection H as _ <-.
  - inversion Hrows as [|? ? Hrow Hrest]; subst.
    destruct (generate_unique_product_id fuel st (r_id row)) as [allocated|]
      eqn:Eg; [|discriminate].
    assert (Hstep : NoDup (map p_id (products (snd
               (match allocated with
                | Done pid => add_product st pid (r_name row)
                                          (Some (r_category row))
                | Raised e => ((false, MsgException e), st)
                end))))).
    { destruct allocated as [pid|e]; [|exact Hnd].
      destruct (add_product_cases st pid (r_name row) (Some (r_category row)))
        as [[_ ->]|[-> (_ & Hok)]]; [exact Hnd|].
      assert (Hpid : Sql.text_ok pid = true).
      { unfold product_texts_ok in Hok.
        apply andb_true_iff in Hok as [Hok _].
        apply andb_true_iff in Hok as [Hok _].
        unfold Sql.text_ok in *. now rewrite has_nul_strip in Hok. }
      destruct (Sql.text_ok (r_id row)) eqn:Ho.
      - apply (generate_some _ _ _ _ Ho) in Eg as (m & Hm & Hfree).
        injection Hm as ->. simpl. rewrite map_app. simpl.
        rewrite (stripped_candidate _ m Hrow).
        apply NoDup_app; [exact Hnd|repeat constructor; auto|].
        intros a Ha [<-|[]]. apply exists_product_id_in in Ha. congruence.
      - destruct fuel as [|fuel]; [discriminate|].
        rewrite (generate_raises fuel st (r_id row) Ho) in Eg. discriminate. }
    destruct (match allocated with
              | Done pid => add_product st pid (r_name row) (Some (r_category row))
              | Raised e => ((false, MsgException e), st)
              end) as [res st1]. simpl in Hstep.
    destruct (import_batch fuel st1 rest) as [[results1 st2]|] eqn:E;
      [|discriminate].
    intros H. injection H as _ <-.
    now apply (IH _ _ _ Hrest Hstep) in E.
Qed.

Lemma accepted_prefix_incl (rows : list csv_row) :
  incl (accepted_prefix rows) rows.
Proof.
  induction rows as [|row rest IH]; simpl; [apply incl_refl|].
  destruct (Sql.text_ok (r_id row)); [|intros x []].
  intros x [<-|Hx]; [now left|right; now apply IH].
Qed.

(** X15: the bulk import of a cleaned frame never creates a second product with
    an identifier that is in use: if the identifiers in the table were
    pairwise distinct before [process_csv_products], they are pairwise
    distinct after it, whether it returns a count or is left by an
    exception. *)
Theorem process_csv_products_unique_ids :
  forall (fuel : nat) (st st' : db) (df : list csv_row) (outcome : exec nat)
         (warnings : list (nat * message)),
    NoDup (map p_id (products st)) ->
    process_csv_products fuel st (clean_csv_data df)
    = Some (outcome, warnings, st') ->
    NoDup (map p_id (products st')).
Proof.
  intros fuel st st' df outcome warnings Hnd.
  unfold process_csv_products, iterrows.
  destruct fuel as [|fuel].
  { destruct (clean_csv_data df) as [|[] rows]; simpl; [|discriminate].
    intros H. now injection H as _ _ <-. }
  rewrite csv_loop_import.
  destruct (import_batch (S fuel) st (accepted_prefix (clean_csv_data df)))
    as [[results st2]|] eqn:E; [|discriminate].
  intros H. injection H as _ _ <-.
  apply (import_batch_unique_ids (S fuel) _ _ _ _) in E; [exact E| |exact Hnd].
  apply Forall_forall. intros r Hr. apply accepted_prefix_incl in Hr.
  unfold clean_csv_data in Hr.
  apply in_map_iff in Hr as (r0 & <- & _). simpl. apply stripped_strip.
Qed.

Lemma process_csv_products_unique_ids_witness :
  NoDup (map p_id
           [mkProduct 1%nat "sku1" "widget" (Some "tools") 0;
            mkProduct 2%nat "sku1(1)" "anvil" (Some "tools") 0;
            mkProduct 3%nat "sku2" "gadget" (Some "toys") 0]).
Proof.
  apply (process_csv_products_unique_ids 3 Stores.created
           (mkDb [mkProduct 1%nat "sku1" "widget" (Some "tools") 0;
                  mkProduct 2%nat "sku1(1)" "anvil" (Some "tools") 0;
                  mkProduct 3%nat "sku2" "gadget" (Some "toys") 0] [])
           [mkRow " sku1" "Anvil " "tools"; mkRow "sku2 " "gadget" " toys"]
           (Done 2%nat) []).
  - repeat constructor; simpl; intuition discriminate.
  - reflexivity.
Defined.

(** Without the cleaning the allocator probes the identifier as it was
    typed and [add_product] stores it trimmed: [" sku1"] is free, and a
    second ["sku1"] is created. *)
Example process_csv_products_uncleaned_row :
  process_csv_products 3 Stores.created [mkRow " sku1" "anvil" "tools"]
  = Some (Done 1%nat, [],
          mkDb [mkProduct 1%nat "sku1" "widget" (Some "tools") 0;
                mkProduct 2%nat "sku1" "anvil" (Some "tools") 0] []).
Proof. reflexivity. Qed.

(** ** The summaries *)

Lemma add_to_groups_total (p : product) (q : Z) (groups : list summary_row) :
  fold_right (fun r acc => s_total_added r + acc) 0
             (Query.add_to_groups p q groups)
  = fold_right (fun r acc => s_total_added r + acc) 0 groups + q.
Proof.
  induction groups as [|g groups IH]; simpl; [lia|].
  destruct (Query.same_group g p); simpl; [lia|]. rewrite IH. lia.
Qed.

Lemma add_to_groups_positive (p : product) (q : Z) (groups : list summary_row) :
  0 < q ->
  Forall (fun r => 0 < s_total_added r) groups ->
  Forall (fun r => 0 < s_total_added r) (Query.add_to_groups p q groups).
Proof.
  intros Hq. induction groups as [|g groups IH]; simpl; intros H.
  - now repeat constructor.
  - inversion H as [|? ? Hg Hrest]; subst.
    destruct (Query.same_group g p); constructor; simpl; auto. lia.
Qed.

Lemma group_by_total (rows : list (product * option transaction)) :
  fold_right (fun r acc => s_total_added r + acc) 0 (Query.group_by rows)
  = fold_right (fun r acc => joined_quantity t_quantity_added r + acc) 0 rows.
Proof.
  unfold Query.group_by.
  assert (H : forall groups,
             fold_right (fun r acc => s_total_added r + acc) 0
               (fold_left
                  (fun groups r =>
                     match snd r with
                     | Some t => Query.add_to_groups (fst r) (t_quantity_added t)
                                                     groups
                     | None => groups
                     end) rows groups)
             = fold_right (fun r acc => s_total_added r + acc) 0 groups
               + fold_right (fun r acc => joined_quantity t_quantity_added r + acc)
                            0 rows).
  { induction rows as [|[p [t|]] rows IH]; intros groups; simpl.
    - lia.
    - rewrite IH, add_to_groups_total. unfold joined_quantity. simpl. lia.
    - rewrite IH. unfold joined_quantity. simpl. lia. }
  now rewrite H.
Qed.

Lemma group_by_positive (rows : list (product * option transaction)) :
  Forall (fun r => Query.where_added r = true) rows ->
  Forall (fun r => 0 < s_total_added r) (Query.group_by rows).
Proof.
  unfold Query.group_by. intros Hrows.
  assert (H : forall groups,
             Forall (fun r => 0 < s_total_added r) groups ->
             Forall (fun r => 0 < s_total_added r)
               (fold_left
                  (fun groups r =>
                     match snd r with
                     | Some t => Query.add_to_groups (fst r) (t_quantity_added t)
                                                     groups
                     | None => groups
                     end) rows groups)).
  { induction Hrows as [|[p [t|]] rows Hr _ IH]; intros groups Hg; simpl;
      [exact Hg| |now apply IH].
    apply IH, add_to_groups_positive; [|exact Hg].
    unfold Query.where_added in Hr. simpl in Hr. now apply Z.ltb_lt. }
  apply H. constructor.
Qed.

Lemma total_permutation {A : Type} (f : A -> Z) (l l' : list A) :
  Permutation l l' ->
  fold_right (fun r acc => f r + acc) 0 l
  = fold_right (fun r acc => f r + acc) 0 l'.
Proof. induction 1; simpl; lia. Qed.

Lemma added_rows_total (st : db) (ps : list product) :
  fold_right (fun r acc => joined_quantity t_quantity_added r + acc) 0
             (flat_map (added_rows st) ps)
  = fold_right (fun p acc => total_added (p_uuid p) st + acc) 0 ps.
Proof.
  induction ps as [|p ps IH]; simpl; [reflexivity|].
  rewrite <- IH. unfold added_rows, total_added, added_quantities.
  induction (filter _ (transactions st)) as [|t ts IHt]; simpl; [reflexivity|].
  unfold joined_quantity at 1. simpl. lia.
Qed.

(** X16: every row of the stock summary has a positive total: a product without
    a movement that added stock does not appear with a total of zero. *)
Theorem get_stock_summary_totals_positive :
  forall st : db, Forall (fun r => 0 < s_total_added r) (get_stock_summary st).
Proof.
  intros st. unfold get_stock_summary.
  eapply Permutation_Forall;
    [symmetry; apply order_by_total_desc_spec|].
  apply group_by_positive, Forall_forall. intros r Hr.
  now apply filter_In in Hr.
Qed.

(** X17: the figure "Total Stock Added" that [render_stock_summary_metrics] shows
    for the unfiltered summary is the sum, over the products, of the
    positive quantities added in their movements: the grouping neither loses
    nor repeats a movement, also when it merges products. *)
Theorem stock_summary_total_added :
  forall st : db,
    snd (fst (render_stock_summary_metrics (get_stock_summary st)))
    = fold_right (fun p acc => total_added (p_uuid p) st + acc) 0 (products st).
Proof.
  intros st. unfold render_stock_summary_metrics, get_stock_summary. simpl.
  rewrite (total_permutation s_total_added _ _
             (proj1 (order_by_total_desc_spec _))).
  rewrite group_by_total, where_added_left_join. apply added_rows_total.
Qed.

Lemma sales_insert_desc_perm (r : sales_row) (l : list sales_row) :
  Permutation (Sales.insert_desc r l) (r :: l).
Proof.
  induction l as [|x l IH]; simpl; [reflexivity|].
  destruct (l_total_sold x <? l_total_sold r); [reflexivity|].
  rewrite IH. apply perm_swap.
Qed.

Lemma sales_insert_desc_sorted (r : sales_row) (l : list sales_row) :
  StronglySorted sold_desc l -> StronglySorted sold_desc (Sales.insert_desc r l).
Proof.
  induction l as [|x l IH]; simpl; intros Hs.
  - constructor; constructor.
  - inversion Hs as [|? ? Hl Hx]; subst.
    destruct (l_total_sold x <? l_total_sold r) eqn:E.
    + apply Z.ltb_lt in E. constructor; [exact Hs|].
      constructor; [unfold sold_desc; lia|].
      eapply Forall_impl; [|exact Hx]. unfold sold_desc. intros a Ha. lia.
    + apply Z.ltb_ge in E. constructor; [now apply IH|].
      rewrite (sales_insert_desc_perm r l). constructor; [exact E|exact Hx].
Qed.

Lemma sales_order_by_spec (rows : list sales_row) :
  Permutation (Sales.order_by_total_desc rows) rows
  /\ StronglySorted sold_desc (Sales.order_by_total_desc rows).
Proof.
  unfold Sales.order_by_total_desc.
  assert (H : forall acc,
             StronglySorted sold_desc acc ->
             Permutation (fold_left (fun sorted r => Sales.insert_desc r sorted)
                                    rows acc) (rows ++ acc)
             /\ StronglySorted sold_desc
                  (fold_left (fun sorted r => Sales.insert_desc r sorted)
                             rows acc)).
  { induction rows as [|r rows IH]; intros acc Hacc; simpl.
    - split; [reflexivity|exact Hacc].
    - destruct (IH (Sales.insert_desc r acc)
                   (sales_insert_desc_sorted r acc Hacc)) as [Hp Hs].
      split; [|exact Hs]. rewrite Hp, sales_insert_desc_perm.
      symmetry. apply Permutation_middle. }
  destruct (H [] (SSorted_nil _)) as [Hp Hs].
  rewrite app_nil_r in Hp. now split.
Qed.

Lemma sales_add_to_groups_spec (p : product) (q : Z) (groups : list sales_row) :
  fold_right (fun r acc => l_total_sold r + acc) 0
             (Sales.add_to_groups p q groups)
  = fold_right (fun r acc => l_total_sold r + acc) 0 groups + q
  /\ (0 < q -> Forall (fun r => 0 < l_total_sold r) groups ->
      Forall (fun r => 0 < l_total_sold r) (Sales.add_to_groups p q groups)).
Proof.
  induction groups as [|g groups [IHt IHp]]; simpl.
  - split; [lia|]. intros Hq _. now repeat constructor.
  - destruct (Sales.same_group g p); simpl.
    + split; [lia|]. intros Hq H. inversion H; subst.
      constructor; [simpl; lia|assumption].
    + split; [rewrite IHt; lia|]. intros Hq H. inversion H; subst.
      constructor; auto.
Qed.

Lemma sales_group_by_spec (rows : list (product * option transaction)) :
  fold_right (fun r acc => l_total_sold r + acc) 0 (Sales.group_by rows)
  = fold_right (fun r acc => joined_quantity t_quantity_sold r + acc) 0 rows
  /\ (Forall (fun r => Sales.where_sold r = true) rows ->
      Forall (fun r => 0 < l_total_sold r) (Sales.group_by rows)).
Proof.
  unfold Sales.group_by.
  assert (H : forall groups,
             fold_right (fun r acc => l_total_sold r + acc) 0
               (fold_left
                  (fun groups r =>
                     match snd r with
                     | Some t => Sales.add_to_groups (fst r) (t_quantity_sold t)
                                                     groups
                     | None => groups
                     end) rows groups)
             = fold_right (fun r acc => l_total_sold r + acc) 0 groups
               + fold_right (fun r acc => joined_quantity t_quantity_sold r + acc)
                            0 rows
             /\ (Forall (fun r => Sales.where_sold r = true) rows ->
                 Forall (fun r => 0 < l_total_sold r) groups ->
                 Forall (fun r => 0 < l_total_sold r)
                   (fold_left
                      (fun groups r =>
                         match snd r with
                         | Some t =>
                             Sales.add_to_groups (fst r) (t_quantity_sold t)
                                                 groups
                         | None => groups
                         end) rows groups))).
  { induction rows as [|[p [t|]] rows IH]; intros groups; simpl.
    - split; [lia|auto].
    - destruct (IH (Sales.add_to_groups p (t_quantity_sold t) groups))
        as [IHt IHp].
      destruct (sales_add_to_groups_spec p (t_quantity_sold t) groups)
        as [Ht Hp].
      split.
      + rewrite IHt, Ht. unfold joined_quantity. simpl. lia.
      + intros Hrows Hg. inversion Hrows as [|? ? Hr Hrest]; subst.
        apply IHp; [exact Hrest|]. apply Hp; [|exact Hg].
        unfold Sales.where_sold in Hr. simpl in Hr. now apply Z.ltb_lt.
    - destruct (IH groups) as [IHt IHp]. split.
      + rewrite IHt. unfold joined_quantity. simpl. lia.
      + intros Hrows Hg. inversion Hrows; subst. now apply IHp. }
  destruct (H []) as [Ht Hp]. split; [now rewrite Ht|].
  intros Hrows. apply Hp; [exact Hrows|constructor].
Qed.

Lemma sold_rows_total (st : db) :
  fold_right (fun r acc => joined_quantity t_quantity_sold r + acc) 0
             (filter Sales.where_sold (Query.left_join st))
  = fold_right (fun p acc => total_sold (p_uuid p) st + acc) 0 (products st).
Proof.
  unfold Query.left_join. rewrite filter_flat_map.
  induction (products st) as [|p ps IH]; cbn [flat_map fold_right];
    [reflexivity|].
  rewrite fold_right_app, IH. clear IH.
  generalize (fold_right (fun p acc => total_sold (p_uuid p) st + acc) 0 ps).
  intros z. unfold total_sold, sold_quantities. rewrite filter_andb.
  assert (H : forall ts,
             fold_right (fun r acc => joined_quantity t_quantity_sold r + acc) z
               (filter Sales.where_sold (map (fun t => (p, Some t)) ts))
             = fold_right Z.add 0
                 (map t_quantity_sold
                      (filter (fun t => 0 <? t_quantity_sold t) ts)) + z).
  { induction ts as [|t ts IHt]; simpl; [reflexivity|].
    unfold Sales.where_sold at 1. simpl.
    destruct (0 <? t_quantity_sold t); simpl; rewrite IHt;
      [unfold joined_quantity; simpl; lia|reflexivity]. }
  destruct (filter (fun t => Nat.eqb (p_uuid p) (t_product_uuid t))
                   (transactions st)) as [|t ts]; [reflexivity|apply H].
Qed.

(** X18: the sales summary is ordered by total sold, descending; every row has a
    positive total; and the figure "Total Units Sold" for the unfiltered
    summary is the sum, over the products, of the positive quantities sold
    in their movements. *)
Theorem get_sales_summary_totals :
  forall st : db,
    StronglySorted sold_desc (get_sales_summary st)
    /\ Forall (fun r => 0 < l_total_sold r) (get_sales_summary st)
    /\ snd (render_sales_summary_metrics (get_sales_summary st))
       = fold_right (fun p acc => total_sold (p_uuid p) st + acc) 0
                    (products st).
Proof.
  intros st. unfold get_sales_summary, render_sales_summary_metrics. simpl.
  destruct (sales_order_by_spec
              (Sales.group_by (filter Sales.where_sold (Query.left_join st))))
    as [Hp Hs].
  destruct (sales_group_by_spec (filter Sales.where_sold (Query.left_join st)))
    as [Ht Hpos].
  split; [exact Hs|]. split.
  - eapply Permutation_Forall; [symmetry; exact Hp|].
    apply Hpos, Forall_forall. intros r Hr. now apply filter_In in Hr.
  - rewrite (total_permutation l_total_sold _ _ Hp), Ht.
    apply sold_rows_total.
Qed.

Example get_sales_summary_two_products :
  get_sales_summary Stores.two_products
  = [mkSales "sku1" "widget" (Some "tools") 2].
Proof. reflexivity. Qed.

(** ** The products offered for a sale *)

Lemma insert_by_id_perm (collate : str -> str -> bool) (p : product)
    (l : list product) :
  Permutation (Listing.insert_by_id collate p l) (p :: l).
Proof.
  induction l as [|x l IH]; simpl; [reflexivity|].
  destruct (collate (p_id x) (p_id p)); [|reflexivity].
  rewrite IH. apply perm_swap.
Qed.

Lemma order_by_id_perm (collate : str -> str -> bool) (l : list product) :
  Permutation (Listing.order_by_id collate l) l.
Proof.
  unfold Listing.order_by_id.
  assert (H : forall acc,
             Permutation
               (fold_left (fun sorted p => Listing.insert_by_id collate p sorted)
                          l acc) (l ++ acc)).
  { induction l as [|p l IH]; intros acc; simpl; [reflexivity|].
    rewrite IH, insert_by_id_perm. symmetry. apply Permutation_middle. }
  specialize (H []). now rewrite app_nil_r in H.
Qed.

Lemma has_stock_added_iff (st : db) (p : product) :
  has_stock_added st p = true <->
  exists t, In t (transactions st) /\ p_uuid p = t_product_uuid t
            /\ 0 < t_quantity_added t.
Proof.
  unfold has_stock_added, added_quantities. split.
  - destruct (filter _ (transactions st)) as [|t ts] eqn:E; simpl;
      [discriminate|]. intros _.
    assert (Ht : In t (filter
                         (fun t => (Nat.eqb (p_uuid p) (t_product_uuid t)
                                    && (0 <? t_quantity_added t))%bool)
                         (transactions st))) by (rewrite E; now left).
    apply filter_In in Ht as [Ht Hc]. apply andb_true_iff in Hc as [H1 H2].
    exists t. split; [exact Ht|]. split; [now apply Nat.eqb_eq|now apply Z.ltb_lt].
  - intros (t & Ht & Hu & Hq).
    assert (Hin : In t (filter
                          (fun t => (Nat.eqb (p_uuid p) (t_product_uuid t)
                                     && (0 <? t_quantity_added t))%bool)
                          (transactions st))).
    { apply filter_In. split; [exact Ht|]. apply andb_true_iff.
      split; [now apply Nat.eqb_eq|now apply Z.ltb_lt]. }
    destruct (filter _ (transactions st)); [destruct Hin|reflexivity].
Qed.

(** X19: [get_products_with_stock_added] lists each product once, and it lists
    exactly the products of the table that have a movement with a positive
    quantity added; the order of the database on text plays no part in
    this. *)
Theorem get_products_with_stock_added_spec :
  forall (collate : str -> str -> bool) (st : db),
    NoDup (get_products_with_stock_added collate st)
    /\ forall p, In p (get_products_with_stock_added collate st) <->
                 In p (products st) /\ has_stock_added st p = true.
Proof.
  intros collate st. unfold get_products_with_stock_added. split.
  - eapply Permutation_NoDup; [symmetry; apply order_by_id_perm|].
    apply NoDup_nodup.
  - intros p. rewrite has_stock_added_iff.
    split.
    + intros H. apply (Permutation_in _ (order_by_id_perm collate _)) in H.
      apply nodup_In, in_map_iff in H as ([p' t] & <- & H).
      apply filter_In in H as [H Hq]. simpl in *.
      unfold Listing.inner_join in H.
      apply in_flat_map in H as (x & Hx & H).
      apply in_map_iff in H as (t' & Heq & Ht').
      injection Heq as -> ->. apply filter_In in Ht' as [Ht Hu].
      split; [exact Hx|]. exists t.
      split; [exact Ht|]. split; [now apply Nat.eqb_eq|now apply Z.ltb_lt].
    + intros (Hp & t & Ht & Hu & Hq).
      apply (Permutation_in _ (Permutation_sym (order_by_id_perm collate _))).
      apply nodup_In, in_map_iff. exists (p, t). split; [reflexivity|].
      apply filter_In. split; [|now apply Z.ltb_lt].
      unfold Listing.inner_join. apply in_flat_map. exists p.
      split; [exact Hp|]. apply in_map, filter_In.
      split; [exact Ht|now apply Nat.eqb_eq].
Qed.

(** Of two products, one with stock received twice and one never: the first
    is offered once, the second is not. *)
Example get_products_with_stock_added_example :
  get_products_with_stock_added Text.leb
    (snd (update_stock
            (snd (add_product Stores.received "sku0" "anvil" None))
            1%nat 3%nat 4 0 "New stock received"))
  = [mkProduct 1%nat "sku1" "widget" (Some "tools") 9].
Proof. reflexivity. Qed.

(** ** When a movement succeeds, and round trips *)

Lemma update_stock_done (st : db) (u : uuid) (d : date) (added sold : Z)
    (remarks pid name : str) (s : Z) :
  get_product_by_uuid st u = Some (u, pid, name, s) ->
  (0 < sold -> sold <= s) ->
  Sql.int4_ok (stock_written s added sold) = true ->
  Sql.int4_ok added = true -> Sql.int4_ok sold = true ->
  movement_texts_ok pid name remarks = true ->
  update_stock st u d added sold remarks
  = ((true, MsgStockUpdated name pid d (stock_written s added sold)),
     stock_updated st u d pid name (stock_written s added sold) added sold
                   remarks).
Proof.
  intros Hget Hsale Hnew Ha Hs Htext. unfold update_stock. rewrite Hget.
  pose proof (get_product_by_uuid_has _ _ _ _ _ _ Hget) as [_ Hhas].
  assert (Hchk : (if 0 <? sold then validate_stock_availability s sold
                  else inr (s + added - sold))
                 = inr (stock_written s added sold)).
  { unfold stock_written, validate_stock_availability.
    destruct (0 <? sold) eqn:E; [|reflexivity].
    apply Z.ltb_lt in E. specialize (Hsale E).
    destruct (s - sold <? 0) eqn:E'; [|reflexivity].
    apply Z.ltb_lt in E'. lia. }
  rewrite Hchk.
  unfold update_product_stock, record_transaction, bind.
  destruct (Sql.update_stock_where_uuid (stock_written s added sold) u st)
    as [w|e] eqn:Ew.
  - unfold Sql.insert_transaction. unfold movement_texts_ok in Htext.
    rewrite Htext, (has_product_update_stock _ _ _ _ _ Ew), Hhas, Ha, Hs. simpl.
    unfold Sql.update_stock_where_uuid in Ew. rewrite Hnew in Ew.
    now injection Ew as <-.
  - unfold Sql.update_stock_where_uuid in Ew. rewrite Hnew in Ew. discriminate.
Qed.

(** X5: for an existing product, [update_stock] succeeds exactly when the sale,
    if there is one, does not exceed the stock, the stock to write and the
    two quantities fit the integer columns, and the driver accepts the
    texts of the movement: the identifier and the name found in the table,
    and the remarks. *)
Theorem update_stock_succeeds_iff :
  forall (st : db) (u : uuid) (d : date) (added sold : Z)
         (remarks pid name : str) (s : Z),
    get_product_by_uuid st u = Some (u, pid, name, s) ->
    (fst (fst (update_stock st u d added sold remarks)) = true <->
     (0 < sold -> sold <= s)
     /\ Sql.int4_ok (if 0 <? sold then s - sold else s + added - sold) = true
     /\ Sql.int4_ok added = true /\ Sql.int4_ok sold = true
     /\ Sql.text_ok pid = true /\ Sql.text_ok name = true
     /\ Sql.text_ok remarks = true).
Proof.
  intros st u d added sold remarks pid name s Hget. split.
  - unfold update_stock. rewrite Hget.
    unfold validate_stock_availability, update_product_stock,
      record_transaction, bind, Sql.update_stock_where_uuid,
      Sql.insert_transaction.
    destruct (0 <? sold) eqn:E.
    + apply Z.ltb_lt in E. destruct (s - sold <? 0) eqn:E'; [discriminate|].
      apply Z.ltb_ge in E'.
      destruct (Sql.int4_ok (s - sold)); [|discriminate].
      destruct (Sql.text_ok pid), (Sql.text_ok name), (Sql.text_ok remarks);
        simpl; try discriminate.
      destruct (Sql.int4_ok added), (Sql.int4_ok sold); simpl;
        try discriminate.
      intros _. repeat split. lia.
    + apply Z.ltb_ge in E.
      destruct (Sql.int4_ok (s + added - sold)); [|discriminate].
      destruct (Sql.text_ok pid), (Sql.text_ok name), (Sql.text_ok remarks);
        simpl; try discriminate.
      destruct (Sql.int4_ok added), (Sql.int4_ok sold); simpl;
        try discriminate.
      intros _. repeat split. lia.
  - intros (Hsale & Hnew & Ha & Hs & Hp & Hn & Hr).
    rewrite (update_stock_done st u d added sold remarks pid name s);
      trivial.
    unfold movement_texts_ok. now rewrite Hp, Hn, Hr.
Qed.

Lemma update_stock_succeeds_iff_witness :
  fst (fst (update_stock Stores.two_products 1%nat 9%nat 0 7 "sale")) = true <->
  (0 < 7 -> 7 <= 7)
  /\ Sql.int4_ok (if 0 <? 7 then 7 - 7 else 7 + 0 - 7) = true
  /\ Sql.int4_ok 0 = true /\ Sql.int4_ok 7 = true
  /\ Sql.text_ok "sku1" = true /\ Sql.text_ok "widget" = true
  /\ Sql.text_ok "sale" = true.
Proof.
  apply (update_stock_succeeds_iff Stores.two_products 1%nat 9%nat 0 7 "sale"
           "sku1" "widget" 7).
  reflexivity.
Defined.

(** Remarks that the driver refuses: the stock already written is rolled
    back, and no movement is recorded. *)
Example update_stock_refuses_nul :
  update_stock Stores.two_products 1%nat 9%nat 0 7 ("sale" ++ Text.nul)
  = ((false, MsgException ValueError), Stores.two_products).
Proof. reflexivity. Qed.

(** X6: receiving a quantity and then selling the same quantity brings the
    stock of the product back to what it was: when the driver accepts the
    identifier and the name of the product and the remarks of the two
    calls, both calls succeed, and two movements are recorded. *)
Theorem update_stock_add_then_sell :
  forall (st : db) (u : uuid) (d1 d2 : date) (q : Z) (r1 r2 pid name : str)
         (s : Z),
    get_product_by_uuid st u = Some (u, pid, name, s) ->
    0 <= s -> 0 < q ->
    Sql.int4_ok (s + q) = true ->
    Sql.text_ok pid = true -> Sql.text_ok name = true ->
    Sql.text_ok r1 = true -> Sql.text_ok r2 = true ->
    let st1 := snd (update_stock st u d1 q 0 r1) in
    let st2 := snd (update_stock st1 u d2 0 q r2) in
    fst (fst (update_stock st u d1 q 0 r1)) = true
    /\ fst (fst (update_stock st1 u d2 0 q r2)) = true
    /\ stock_of u st1 = Some (s + q)
    /\ stock_of u st2 = Some s
    /\ List.length (transactions st2) = S (S (List.length (transactions st))).
Proof.
  intros st u d1 d2 q r1 r2 pid name s Hget Hs Hq Hrange Hpid Hname Hr1 Hr2
    st1 st2.
  assert (Hbounds : forall z, 0 <= z -> z <= s + q -> Sql.int4_ok z = true).
  { intros z H0 H1. unfold Sql.int4_ok in *.
    apply andb_true_iff in Hrange as [_ Hr]. apply Z.leb_le in Hr.
    apply andb_true_iff. split; apply Z.leb_le; lia. }
  assert (Htext : forall r, Sql.text_ok r = true ->
                            movement_texts_ok pid name r = true).
  { intros r Hr. unfold movement_texts_ok. now rewrite Hpid, Hname, Hr. }
  pose proof (get_product_by_uuid_has _ _ _ _ _ _ Hget) as [_ Hhas].
  assert (Hw1 : stock_written s q 0 = s + q)
    by (unfold stock_written; simpl; lia).
  assert (Hw2 : stock_written (s + q) 0 q = s).
  { unfold stock_written. replace (0 <? q) with true; [lia|].
    symmetry. now apply Z.ltb_lt. }
  assert (H1 : update_stock st u d1 q 0 r1
               = ((true, MsgStockUpdated name pid d1 (s + q)),
                  stock_updated st u d1 pid name (s + q) q 0 r1)).
  { rewrite <- Hw1.
    apply (update_stock_done st u d1 q 0 r1 pid name s Hget).
    - lia.
    - now rewrite Hw1.
    - apply Hbounds; lia.
    - reflexivity.
    - now apply Htext. }
  assert (Hs1 : stock_of u st1 = Some (s + q)).
  { unfold st1. rewrite H1. simpl. now apply stock_of_stock_updated. }
  assert (Hget1 : get_product_by_uuid st1 u = Some (u, pid, name, s + q)).
  { unfold st1. rewrite H1. simpl. clear - Hget.
    unfold get_product_by_uuid, Sql.select_product_by_uuid, stock_updated in *.
    simpl. induction (products st) as [|p ps IH]; simpl in *; [discriminate|].
    destruct (Nat.eqb (p_uuid p) u) eqn:E; simpl; rewrite E.
    - now injection Hget as -> -> -> _.
    - now apply IH. }
  assert (H2 : update_stock st1 u d2 0 q r2
               = ((true, MsgStockUpdated name pid d2 s),
                  stock_updated st1 u d2 pid name s 0 q r2)).
  { rewrite <- Hw2.
    apply (update_stock_done st1 u d2 0 q r2 pid name (s + q) Hget1).
    - lia.
    - rewrite Hw2. apply Hbounds; lia.
    - reflexivity.
    - apply Hbounds; lia.
    - now apply Htext. }
  split; [now rewrite H1|]. split; [now rewrite H2|]. split; [exact Hs1|].
  split.
  - unfold st2. rewrite H2. simpl. apply stock_of_stock_updated.
    now apply get_product_by_uuid_has in Hget1.
  - unfold st2. rewrite H2. simpl. rewrite length_app. simpl.
    unfold st1. rewrite H1. simpl. rewrite length_app. simpl. lia.
Qed.

Lemma update_stock_add_then_sell_witness :
  fst (fst (update_stock Stores.two_products 2%nat 5%nat 6 0 "in")) = true
  /\ fst (fst (update_stock
                 (snd (update_stock Stores.two_products 2%nat 5%nat 6 0 "in"))
                 2%nat 6%nat 0 6 "out")) = true
  /\ stock_of 2%nat (snd (update_stock Stores.two_products 2%nat 5%nat 6 0 "in"))
     = Some (4 + 6)
  /\ stock_of 2%nat
       (snd (update_stock
               (snd (update_stock Stores.two_products 2%nat 5%nat 6 0 "in"))
               2%nat 6%nat 0 6 "out")) = Some 4
  /\ List.length
       (transactions
          (snd (update_stock
                  (snd (update_stock Stores.two_products 2%nat 5%nat 6 0 "in"))
                  2%nat 6%nat 0 6 "out")))
     = S (S (List.length (transactions Stores.two_products))).
Proof.
  apply (update_stock_add_then_sell Stores.two_products 2%nat 5%nat 6%nat 6
           "in" "out" "sku2" "gadget" 4).
  - reflexivity.
  - lia.
  - lia.
  - reflexivity.
  - reflexivity.
  - reflexivity.
  - reflexivity.
  - reflexivity.
Defined.

(** X8: deleting the product that was just created gives back the store as it
    was before the creation. *)
Theorem add_product_then_delete :
  forall (st : db) (pid name : str) (category : option str),
    movements_owned st ->
    snd (delete_product (snd (add_product st pid name category))
           (Sql.fresh_uuid (map p_uuid (products st))))
    = st.
Proof.
  intros st pid name category Hown.
  assert (Hps : forall ps u,
             u = Sql.fresh_uuid (map p_uuid ps) ->
             filter (fun p => negb (Nat.eqb (p_uuid p) u)) ps = ps).
  { intros ps u Hu. apply forallb_filter_id, forallb_forall.
    intros p Hp. apply negb_true_iff, Nat.eqb_neq.
    pose proof (fresh_uuid_above (map p_uuid ps) (p_uuid p) (in_map _ _ _ Hp)).
    lia. }
  assert (Hts : filter (fun t => negb (Nat.eqb (t_product_uuid t)
                                         (Sql.fresh_uuid (map p_uuid (products st)))))
                       (transactions st) = transactions st).
  { apply forallb_filter_id, forallb_forall. intros t Ht.
    apply negb_true_iff, Nat.eqb_neq.
    pose proof (fresh_uuid_above _ _ (has_product_in _ _ (Hown t Ht))) as H.
    lia. }
  destruct (add_product_cases st pid name category) as [[_ ->]|[-> _]];
    unfold delete_product, Sql.delete_product_where_uuid, inserted,
      created_product; simpl.
  - rewrite (Hps (products st) _ eq_refl), Hts. now destruct st.
  - rewrite filter_app, (Hps (products st) _ eq_refl), Hts. simpl.
    rewrite Nat.eqb_refl. simpl. rewrite app_nil_r. now destruct st.
Qed.

Lemma add_product_then_delete_witness :
  snd (delete_product
         (snd (add_product Stores.two_products "sku3" "anvil" None))
         (Sql.fresh_uuid (map p_uuid (products Stores.two_products))))
  = Stores.two_products.
Proof.
  apply (add_product_then_delete Stores.two_products "sku3" "anvil" None).
  intros t [<-|[<-|[<-|[]]]]; reflexivity.
Defined.

(** The per-product summary on a store whose two products differ in their
    identifiers. *)
Lemma get_stock_summary_per_product_witness :
  Permutation (get_stock_summary Stores.two_products)
              (summary_per_product Stores.two_products)
  /\ StronglySorted total_desc (get_stock_summary Stores.two_products).
Proof.
  apply (get_stock_summary_per_product Stores.two_products).
  unfold distinct_keys. simpl. repeat constructor.
Defined.

(** ** Database initialisation *)

(** X21: whatever the database holds when the connection is set up, with
    none, one or both of the tables present and with any rows,
    [initialize_database] leaves both tables present and empty: the tables
    found are dropped before they are created again, so the products and the
    movements of an earlier run are gone. *)
Theorem initialize_database_empties :
  forall s : schema,
    initialize_database s = mkSchema (Some []) (Some [])
    /\ store_of (initialize_database s) = Some empty_db.
Proof.
  intros [[ps|] [ts|]]; split; reflexivity.
Qed.
